(** * xplora_watch: the vendored OpenCage geocoder client

    A shallow embedding of [custom_components/xplora_watch/geocoder.py]:
    the recursive normaliser [floatify_latlng] with its helper
    [float_if_float], the reverse-geocoding query formatter, the request
    builder, the response classification of [_opencage_async_request] and
    the session life cycle of [OpenCageGeocodeUA].

    Python values are a tagged tree, exceptions are an inductive type and a
    function that may raise returns a [result].  The conversions of the
    Python run time that the source calls ([float], [int],
    [datetime.utcfromtimestamp]) are the fields of a class, so that every
    general theorem holds for any behaviour of theirs; a reference instance
    over IEEE binary64 is given for running the code on concrete inputs. *)

From Stdlib Require Import ZArith String Ascii List Bool Lia.
From stdpp Require Import base option list list_monad strings pretty sorting gmap.

Local Open Scope string_scope.
Set Warnings "-register-all".

(** ** Python's [decimal] module, as far as the query formatter uses it *)

Module decimal.
Local Open Scope list_scope.

Definition text : Type := list ascii.

Definition of_str (s : string) : text := list_ascii_of_string s.
Definition to_str (t : text) : string := string_of_list_ascii t.

Definition code (c : ascii) : N := N_of_ascii c.

Definition is_digit (c : ascii) : bool := (48 <=? code c)%N && (code c <=? 57)%N.

(** The ASCII characters that [str.strip()] removes. *)
Definition is_space (c : ascii) : bool :=
  ((9 <=? code c)%N && (code c <=? 13)%N) ||
  ((28 <=? code c)%N && (code c <=? 32)%N).

Definition lower (c : ascii) : ascii :=
  if (65 <=? code c)%N && (code c <=? 90)%N then ascii_of_N (code c + 32) else c.

Fixpoint span (p : ascii -> bool) (s : text) : text * text :=
  match s with
  | c :: r => if p c then (c :: (span p r).1, (span p r).2) else ([], s)
  | [] => ([], [])
  end.

Definition lstrip (p : ascii -> bool) (s : text) : text := (span p s).2.

(** [s.strip()] *)
Definition strip (s : text) : text :=
  reverse (lstrip is_space (reverse (lstrip is_space s))).

(** [s.replace] of every underscore by the empty string *)
Definition remove_underscores (s : text) : text :=
  filter (fun c => c <> "_"%char) s.

(** [str(int(digits))] on a string of digits: the leading zeros go. *)
Definition str_int (digits : text) : text :=
  match lstrip (fun c => bool_decide (c = "0"%char)) digits with
  | [] => ["0"%char]
  | d => d
  end.

(** [int(digits)] on a string of digits. *)
Definition int_of_digits (digits : text) : Z :=
  foldl (fun n c => 10 * n + (Z.of_N (code c) - 48))%Z 0%Z digits.

(** The fields [_sign], [_int] and [_exp] of a [Decimal]; for the special
    values [_exp] is ['F'] (infinity), ['n'] (NaN) or ['N'] (sNaN). *)
Inductive t : Type :=
  | Finite (_sign : bool) (_int : text) (_exp : Z)
  | Infinity (_sign : bool)
  | NaN (_sign : bool) (signaling : bool) (diag : text).

(** The optional exponent part of a numeric string: the letter E, an
    optional sign and at least one digit, followed by the end of the string. *)
Definition parse_exponent (s : text) : option Z :=
  match s with
  | [] => Some 0%Z
  | e :: r =>
      if bool_decide (lower e = "e"%char) then
        let '(neg, r) :=
          match r with
          | "-"%char :: r' => (true, r')
          | "+"%char :: r' => (false, r')
          | _ => (false, r)
          end in
        let '(digits, rest) := span is_digit r in
        match digits, rest with
        | _ :: _, [] =>
            Some (if neg : bool then - int_of_digits digits else int_of_digits digits)%Z
        | _, _ => None
        end
      else None
  end.

(** The other two alternatives of a numeric string, letter case ignored:
    Inf or Infinity, and NaN or sNaN followed by the digits of a payload. *)
Definition parse_special (sign : bool) (s : text) : option t :=
  let l := lower <$> s in
  if bool_decide (l = of_str "inf") || bool_decide (l = of_str "infinity")
  then Some (Infinity sign)
  else
    let '(signaling, r) :=
      match l with
      | "s"%char :: r' => (true, r')
      | _ => (false, l)
      end in
    match r with
    | "n"%char :: "a"%char :: "n"%char :: diag =>
        if forallb is_digit diag
        then Some (NaN sign signaling
                     (lstrip (fun c => bool_decide (c = "0"%char)) diag))
        else None
    | _ => None
    end.

(** The optional sign of a numeric string. *)
Definition split_sign (s : text) : bool * text :=
  match s with
  | "-"%char :: r => (true, r)
  | "+"%char :: r => (false, r)
  | _ => (false, s)
  end.

(** A numeric string after its sign: digits with an optional point among
    them, at least one digit in all, and an optional exponent; or a
    special value. *)
Definition parse_numeric (sign : bool) (s : text) : option t :=
  let '(intpart, r1) := span is_digit s in
  let '(fracpart, r2) :=
    match r1 with
    | "."%char :: r => span is_digit r
    | _ => ([], r1)
    end in
  match intpart ++ fracpart with
  | _ :: _ =>
      exp ← parse_exponent r2;
      Some (Finite sign (str_int (intpart ++ fracpart))
              (exp - Z.of_nat (length fracpart)))
  | [] => parse_special sign s
  end.

(** [Decimal(value)] on a string: [None] is [InvalidOperation]. *)
Definition Decimal (value : string) : option t :=
  let s := remove_underscores (strip (of_str value)) in
  parse_numeric (split_sign s).1 (split_sign s).2.

(** The digits before and after the decimal point, for the coefficient
    [int] and the place [dotplace] of the point counted from its left end. *)
Definition place (int : text) (dotplace : Z) : text * text :=
  if (dotplace <? 0)%Z then
    (["0"%char], replicate (Z.to_nat (- dotplace)) "0"%char ++ int)
  else if (Z.of_nat (length int) <? dotplace)%Z then
    (int ++ replicate (Z.to_nat dotplace - length int) "0"%char, [])
  else
    (match take (Z.to_nat dotplace) int with
     | [] => ["0"%char]
     | i => i
     end,
     drop (Z.to_nat dotplace) int).

(** The number with its sign, and with a point when digits follow it. *)
Definition write (sign : bool) (parts : text * text) : string :=
  to_str ((if sign then ["-"%char] else []) ++ parts.1 ++
          match parts.2 with
          | [] => []
          | _ => "."%char :: parts.2
          end).

(** [format(d, 'f')]: a zero with a positive exponent is written as if
    its exponent were zero. *)
Definition format_f (d : t) : string :=
  match d with
  | Finite sign int exp =>
      if bool_decide (int = ["0"%char]) && (0 <? exp)%Z
      then write sign (place ["0"%char] (0 + 1))
      else write sign (place int (exp + Z.of_nat (length int)))
  | Infinity sign =>
      to_str ((if sign then ["-"%char] else []) ++ of_str "Infinity")
  | NaN sign signaling diag =>
      to_str ((if sign then ["-"%char] else []) ++
              of_str (if signaling then "sNaN" else "NaN") ++ diag)
  end.

(** The numeral with the sign [neg], the digits [ip] before the point and
    the digits [fp] after it; it has no point when [fp] is empty. *)
Definition numeral (neg : bool) (ip fp : text) : text :=
  (if neg then ["-"%char] else []) ++ ip ++
  match fp with
  | [] => []
  | _ => "."%char :: fp
  end.



Definition is_finite (d : t) : bool :=
  match d with
  | Finite _ _ _ => true
  | _ => false
  end.

(** The numeral with the sign [neg] and the digits [a] and [b] around the
    point writes the finite number [d]: the same sign; the same number,
    which is the coefficient times the power of ten of the exponent; and
    as many digits after the point as a negative exponent asks for, none
    lost and none gained. *)
Definition writes (neg : bool) (a b : text) (d : t) : Prop :=
  match d with
  | Finite sign int exp =>
      neg = sign /\
      int_of_digits (a ++ b) = (int_of_digits int * 10 ^ Z.max exp 0)%Z /\
      Z.of_nat (length b) = Z.max (- exp) 0
  | _ => False
  end.

End decimal.

(** ** The host run time *)

(** [float_of_str s] is [float(s)] on a string: [None] stands for the
    [ValueError] of a string that is no float literal.  [float_of_int n] is
    [float(n)] on an integer: [None] stands for the [OverflowError] of an
    integer too large for a double.  [int_of_float] and [int_of_str] are
    [int(x)] on a float and on a string, [utcfromtimestamp_int] and
    [utcfromtimestamp_float] are [datetime.utcfromtimestamp]; each returns
    the name of the exception it raises on failure.  [float_repr] and
    [str_repr] are [repr] on a float and on a string. *)
Inductive builtin_error : Type :=
  | BTypeError | BValueError | BOverflowError | BOSError.

Class PyRuntime : Type := {
  float : Type;
  float_of_str : string -> option float;
  float_of_int : Z -> option float;
  int_of_float : float -> builtin_error + Z;
  int_of_str : string -> option Z;
  datetime : Type;
  utcfromtimestamp_int : Z -> builtin_error + datetime;
  utcfromtimestamp_float : float -> builtin_error + datetime;
  float_repr : float -> string;
  str_repr : string -> string;
}.

Section Geocoder.
Context `{RT : PyRuntime}.

(** ** Values *)

(** What [response.json()] can produce: [None], booleans, integers of any
    size, floats, strings, lists, and dicts with string keys.  A dict is the
    list of its items in insertion order. *)
Inductive value : Type :=
  | VNone
  | VBool (b : bool)
  | VInt (n : Z)
  | VFloat (x : float)
  | VStr (s : string)
  | VList (xs : list value)
  | VDict (items : list (string * value)).

Definition keys (items : list (string * value)) : list string := items.*1.

(** A dict literal never repeats a key. *)
Fixpoint well_formed (v : value) : Prop :=
  match v with
  | VList xs => (fix all xs := match xs with
                               | [] => True
                               | x :: r => well_formed x /\ all r
                               end) xs
  | VDict items =>
      NoDup (keys items) /\
      (fix all its := match its with
                      | [] => True
                      | (_, x) :: r => well_formed x /\ all r
                      end) items
  | _ => True
  end.

(** ** Exceptions and results *)

Inductive exn : Type :=
  | TypeError
  | ValueError
  | OverflowError
  | OSError
  | KeyError (key : string)
  | UnboundLocalError (name : string)
  | AttributeError (msg : string)
  | InvalidOperation
  | InvalidInputError (bad_value : value)
  | UnknownError (msg : string)
  | RateLimitExceededError (reset_time : datetime) (reset_to : Z)
  | NotAuthorizedError
  | ForbiddenError
  | AioHttpError (msg : string)
  | RuntimeError (msg : string)
  | ClientError (msg : string).

Definition of_builtin (e : builtin_error) : exn :=
  match e with
  | BTypeError => TypeError
  | BValueError => ValueError
  | BOverflowError => OverflowError
  | BOSError => OSError
  end.

Inductive result (A : Type) : Type :=
  | Returns (a : A)
  | Raises (e : exn).
#[global] Arguments Returns {A} a.
#[global] Arguments Raises {A} e.

#[global] Instance result_ret : MRet result := fun A a => Returns a.
#[global] Instance result_bind : MBind result := fun A B f m =>
  match m with
  | Returns a => f a
  | Raises e => Raises e
  end.
#[global] Instance result_fmap : FMap result := fun A B f m =>
  match m with
  | Returns a => Returns (f a)
  | Raises e => Raises e
  end.

Definition returns {A} (m : result A) : Prop := exists a, m = Returns a.

(** ** [float_if_float] *)

(** The built-in [float(x)]: a float is returned as it is, an integer (a
    boolean is one) is converted, a string is parsed, anything else has no
    [__float__] and is a [TypeError]. *)
Definition py_float (x : value) : result float :=
  match x with
  | VFloat f => Returns f
  | VInt n => from_option Returns (Raises OverflowError) (float_of_int n)
  | VBool b => from_option Returns (Raises OverflowError) (float_of_int (Z.b2z b))
  | VStr s => from_option Returns (Raises ValueError) (float_of_str s)
  | VNone | VList _ | VDict _ => Raises TypeError
  end.

(** [try: return float(float_string)  except ValueError: return float_string] *)
Definition float_if_float (float_string : value) : result value :=
  match py_float float_string with
  | Returns float_val => Returns (VFloat float_val)
  | Raises ValueError => Returns float_string
  | Raises e => Raises e
  end.

(** ** [floatify_latlng] *)

(** [sorted(keys)], on strings ordered by code point. *)
Definition sorted (l : list string) : list string := merge_sort String.le l.

(** [input_value[key]] *)
Fixpoint getitem (items : list (string * value)) (key : string) : result value :=
  match items with
  | [] => Raises (KeyError key)
  | (k, v) :: rest => if decide (k = key) then Returns v else getitem rest key
  end.

(** [len(input_value) == 2 and sorted(input_value.keys()) == ['lat', 'lng']] *)
Definition is_latlng (ks : list string) : bool :=
  (length ks =? 2)%nat && bool_decide (sorted ks = ["lat"; "lng"]).

Fixpoint floatify_latlng (input_value : value) : result value :=
  match input_value with
  | VDict items =>
      if is_latlng (keys items) then
        lat ← getitem items "lat" ≫= float_if_float;
        lng ← getitem items "lng" ≫= float_if_float;
        mret (VDict [("lat", lat); ("lng", lng)])
      else
        VDict <$> mapM (fun kv => v ← floatify_latlng kv.2; mret (kv.1, v)) items
  | VList xs => VList <$> mapM floatify_latlng xs
  | _ => mret input_value
  end.

(** ** Nodes, leaves and shapes of a tree *)

(** The way to a node: the key of a dict entry or the index of a list
    element at each level. *)
Inductive step : Type :=
  | Key (k : string)
  | Index (i : nat).

Definition child (s : step) (v : value) : option value :=
  match s, v with
  | Key k, VDict items =>
      match getitem items k with
      | Returns x => Some x
      | Raises _ => None
      end
  | Index i, VList xs => xs !! i
  | _, _ => None
  end.

Fixpoint subtree (p : list step) (v : value) : option value :=
  match p with
  | [] => Some v
  | s :: p' => child s v ≫= subtree p'
  end.

Definition is_number (v : value) : bool :=
  match v with
  | VInt _ | VFloat _ => true
  | _ => false
  end.

(** The values of every coordinate leaf satisfy [ok]. *)
Fixpoint leaves (ok : value -> bool) (v : value) : bool :=
  match v with
  | VDict items =>
      if is_latlng (keys items)
      then forallb (fun kv => ok kv.2) items
      else forallb (fun kv => leaves ok kv.2) items
  | VList xs => forallb (leaves ok) xs
  | _ => true
  end.

(** [float(v)] does not fail on a number [v]. *)
Definition converts (v : value) : bool :=
  match v with
  | VFloat _ => true
  | VInt n => bool_decide (is_Some (float_of_int n))
  | _ => false
  end.

(** [float_if_float v] returns: [v] is a string, a float, or an integer or
    a boolean that [float] converts. *)
Definition floatable (v : value) : bool :=
  match v with
  | VStr _ | VFloat _ => true
  | VInt n => bool_decide (is_Some (float_of_int n))
  | VBool b => bool_decide (is_Some (float_of_int (Z.b2z b)))
  | VNone | VList _ | VDict _ => false
  end.

(** [w] has the shape of [v]: a coordinate leaf became a dict with the keys
    lat and lng, whose values are as they were or floats; any other dict
    kept its keys in their order, a list its length and order, and
    everything else is as it was. *)
Inductive same_shape : value -> value -> Prop :=
  | shape_leaf items a b a' b' :
      is_latlng (keys items) = true ->
      getitem items "lat" = Returns a ->
      getitem items "lng" = Returns b ->
      (a' = a \/ exists x, a' = VFloat x) ->
      (b' = b \/ exists x, b' = VFloat x) ->
      same_shape (VDict items) (VDict [("lat", a'); ("lng", b')])
  | shape_dict items items' :
      is_latlng (keys items) = false ->
      Forall2 (fun kv kv' => kv.1 = kv'.1 /\ same_shape kv.2 kv'.2) items items' ->
      same_shape (VDict items) (VDict items')
  | shape_list xs xs' :
      Forall2 same_shape xs xs' ->
      same_shape (VList xs) (VList xs')
  | shape_scalar v :
      match v with
      | VDict _ | VList _ => False
      | _ => True
      end ->
      same_shape v v.

(** ** Subscripts, membership and the conversions of the response fields *)

(** [x[key]] with a string key: a dict is looked up, a list or a string
    wants an integer index, nothing else is subscriptable. *)
Definition py_getitem (x : value) (key : string) : result value :=
  match x with
  | VDict items => getitem items key
  | _ => Raises TypeError
  end.

(** [sub in s] on strings. *)
Fixpoint prefixb (p s : string) : bool :=
  match p, s with
  | EmptyString, _ => true
  | String a p', String b s' => bool_decide (a = b) && prefixb p' s'
  | String _ _, EmptyString => false
  end.

Fixpoint substringb (sub s : string) : bool :=
  prefixb sub s ||
  match s with
  | EmptyString => false
  | String _ s' => substringb sub s'
  end.

(** [key in x] with a string key: a key test on a dict, an element test on
    a list (only the string itself is equal to it), a substring test on a
    string, and a [TypeError] on what is not iterable. *)
Definition py_contains (key : string) (x : value) : result bool :=
  match x with
  | VDict items => Returns (bool_decide (key ∈ keys items))
  | VList xs =>
      Returns (existsb (fun y => match y with
                                 | VStr s => bool_decide (s = key)
                                 | _ => false
                                 end) xs)
  | VStr s => Returns (substringb key s)
  | VNone | VBool _ | VInt _ | VFloat _ => Raises TypeError
  end.

Definition lift_builtin {A} (r : builtin_error + A) : result A :=
  match r with
  | inl e => Raises (of_builtin e)
  | inr a => Returns a
  end.

(** The built-in [int(x)]. *)
Definition py_int (x : value) : result Z :=
  match x with
  | VInt n => Returns n
  | VBool b => Returns (Z.b2z b)
  | VFloat f => lift_builtin (int_of_float f)
  | VStr s => from_option Returns (Raises ValueError) (int_of_str s)
  | VNone | VList _ | VDict _ => Raises TypeError
  end.

(** [datetime.utcfromtimestamp(x)] *)
Definition utcfromtimestamp (x : value) : result datetime :=
  match x with
  | VInt n => lift_builtin (utcfromtimestamp_int n)
  | VBool b => lift_builtin (utcfromtimestamp_int (Z.b2z b))
  | VFloat f => lift_builtin (utcfromtimestamp_float f)
  | VNone | VStr _ | VList _ | VDict _ => Raises TypeError
  end.

(** ** Response classification of [_opencage_async_request] *)

(** What the client sees of an HTTP response: the status and the outcome of
    [await response.json()]. *)
Record http_response : Type := {
  status : Z;
  json : result value;
}.

(** Reading the local variable [response_json], which is unbound when
    [response.json()] raised a [ValueError] on a status other than 200. *)
Definition load_response_json (response_json : option value) : result value :=
  from_option Returns (Raises (UnboundLocalError "response_json")) response_json.

(** The body of the [async with self.session.get(...) as response:] block. *)
Definition classify_response (response : http_response) : result value :=
  response_json ←
    match json response with
    | Returns v => Returns (Some v)
    | Raises ValueError =>
        if (status response =? 200)%Z
        then Raises (UnknownError "Non-JSON result from server")
        else Returns None
    | Raises e => Raises e
    end;
  if (status response =? 401)%Z then Raises NotAuthorizedError
  else if (status response =? 403)%Z then Raises ForbiddenError
  else if (status response =? 402)%Z || (status response =? 429)%Z then
    reset_time ←
      load_response_json response_json ≫= (fun j =>
      py_getitem j "rate" ≫= (fun rate =>
      py_getitem rate "reset" ≫= utcfromtimestamp));
    reset_to ←
      load_response_json response_json ≫= (fun j =>
      py_getitem j "rate" ≫= (fun rate =>
      py_getitem rate "limit" ≫= py_int));
    Raises (RateLimitExceededError reset_time reset_to)
  else if (status response =? 500)%Z then
    Raises (UnknownError "500 status code from API")
  else
    j ← load_response_json response_json;
    has ← py_contains "results" j;
    if negb has
    then Raises (UnknownError "JSON from API doesn't have a 'results' key")
    else Returns j.

(** ** The query of a reverse geocoding *)

Fixpoint py_repr (x : value) : string :=
  match x with
  | VNone => "None"
  | VBool b => if b then "True" else "False"
  | VInt n => pretty n
  | VFloat f => float_repr f
  | VStr s => str_repr s
  | VList xs => "[" ++ String.concat ", " (py_repr <$> xs) ++ "]"
  | VDict items =>
      "{" ++ String.concat ", "
               ((fun kv => str_repr kv.1 ++ ": " ++ py_repr kv.2) <$> items)
          ++ "}"
  end.

(** [str(x)] *)
Definition py_str (x : value) : string :=
  match x with
  | VStr s => s
  | _ => py_repr x
  end.

(** [Decimal(str(x))] *)
Definition Decimal (x : value) : result decimal.t :=
  from_option Returns (Raises InvalidOperation) (decimal.Decimal (py_str x)).

Definition _query_for_reverse_geocoding (lat lng : value) : result string :=
  dlat ← Decimal lat;
  dlng ← Decimal lng;
  mret (decimal.format_f dlat ++ "," ++ decimal.format_f dlng).

(** ** The client, its session and the network *)

(** The attribute [session] holds [None], a [requests.Session] (set by
    [__enter__]) or an [aiohttp.ClientSession] (set by [__aenter__]). *)
Inductive session_obj : Type :=
  | RequestsSession (id : nat)
  | ClientSession (id : nat).

Definition session_id (s : session_obj) : nat :=
  match s with
  | RequestsSession id | ClientSession id => id
  end.

Record OpenCageGeocodeUA : Type := {
  key : value;
  session : option session_obj;
}.

Definition url : string := "https://api.opencagedata.com/geocode/v1/json".

Record http_request : Type := {
  req_session : nat;
  req_url : string;
  req_params : gmap string value;
  req_headers : gmap string string;
}.

(** The module flag [aiohttp_avaiable], the number of sessions created so
    far, the sessions that were closed, and the GET requests issued, the
    most recent first. *)
Record world : Type := {
  aiohttp_avaiable : bool;
  opened : nat;
  closed : gset nat;
  sent : list http_request;
}.

Definition set_session (s : option session_obj) (self : OpenCageGeocodeUA)
  : OpenCageGeocodeUA :=
  {| key := key self; session := s |}.

Definition new_session (w : world) : world :=
  {| aiohttp_avaiable := aiohttp_avaiable w; opened := S (opened w);
     closed := closed w; sent := sent w |}.

Definition close_session (id : nat) (w : world) : world :=
  {| aiohttp_avaiable := aiohttp_avaiable w; opened := opened w;
     closed := {[id]} ∪ closed w; sent := sent w |}.

Definition log_request (rq : http_request) (w : world) : world :=
  {| aiohttp_avaiable := aiohttp_avaiable w; opened := opened w;
     closed := closed w; sent := rq :: sent w |}.

(** The servers: what [getUA] extracts from the page it fetches, and the
    reply of the geocoding API, each as a function of the requests issued
    so far (the current one first).  Either may fail in any way. *)
Record network : Type := {
  user_agent : list http_request -> result string;
  api : list http_request -> result http_response;
}.

Variable net : network.

(** A method runs on the client and the world and leaves both behind, also
    when it raises. *)
Definition state : Type := OpenCageGeocodeUA * world.
Definition prog (A : Type) : Type := state -> result A * state.

Definition ret {A} (a : A) : prog A := fun st => (Returns a, st).
Definition raise {A} (e : exn) : prog A := fun st => (Raises e, st).
Definition lift {A} (r : result A) : prog A := fun st => (r, st).
Definition bind {A B} (m : prog A) (k : A -> prog B) : prog B := fun st =>
  match m st with
  | (Returns a, st') => k a st'
  | (Raises e, st') => (Raises e, st')
  end.

Notation "x <- m ;; k" := (bind m (fun x => k))
  (at level 100, m at next level, right associativity).

Definition __init__ (key : value) : OpenCageGeocodeUA :=
  {| key := key; session := None |}.

Definition __enter__ : prog unit := fun '(self, w) =>
  (Returns (), (set_session (Some (RequestsSession (opened w))) self, new_session w)).

(** [self.session.close(); self.session = None; return False].  On an
    aiohttp session [close()] only builds a coroutine, which nobody awaits. *)
Definition __exit__ : prog bool := fun '(self, w) =>
  match session self with
  | None => (Raises (AttributeError "close"), (self, w))
  | Some (RequestsSession id) =>
      (Returns false, (set_session None self, close_session id w))
  | Some (ClientSession id) => (Returns false, (set_session None self, w))
  end.

Definition __aenter__ : prog unit := fun '(self, w) =>
  if negb (aiohttp_avaiable w) then
    (Raises (AioHttpError "You must install `aiohttp` to use async methods"),
     (self, w))
  else
    (Returns (), (set_session (Some (ClientSession (opened w))) self, new_session w)).

(** [await self.session.close(); self.session = None; return False].  On a
    [requests] session [close()] returns [None], which cannot be awaited. *)
Definition __aexit__ : prog bool := fun '(self, w) =>
  match session self with
  | None => (Raises (AttributeError "close"), (self, w))
  | Some (RequestsSession id) => (Raises TypeError, (self, close_session id w))
  | Some (ClientSession id) =>
      (Returns false, (set_session None self, close_session id w))
  end.

(** [self.session.get(url, params=..., headers=...)] entered as an
    asynchronous context: the request is issued on an open aiohttp session. *)
Definition session_get (url : string) (params : gmap string value)
    (headers : gmap string string) : prog nat := fun '(self, w) =>
  match session self with
  | None => (Raises (AttributeError "get"), (self, w))
  | Some (RequestsSession id) =>
      (Raises (AttributeError "__aenter__"),
       (self, log_request {| req_session := id; req_url := url;
                             req_params := params; req_headers := headers |} w))
  | Some (ClientSession id) =>
      if bool_decide (id ∈ closed w)
      then (Raises (RuntimeError "Session is closed"), (self, w))
      else
        (Returns id,
         (self, log_request {| req_session := id; req_url := url;
                               req_params := params; req_headers := headers |} w))
  end.

Definition ua_url : string :=
  "https://webcache.googleusercontent.com/search?q=cache:FxxmQW9XrRcJ:https://techblog.willshouse.com/2012/01/03/most-common-user-agents/+&cd=4&hl=de&ct=clnk&gl=us".

Definition ua_header : string :=
  "Mozilla/5.0 (Windows NT 10.0; Win64; x64) AppleWebKit/537.36 (KHTML, like Gecko) Chrome/99.0.4844.51 Safari/537.36".

Definition getUA : prog string :=
  _ <- session_get ua_url ∅ {[ "User-Agent" := ua_header ]} ;;
  fun '(self, w) => (user_agent net (sent w), (self, w)).

Definition _opencage_async_request (params : gmap string value) : prog value :=
  ua <- getUA ;;
  _ <- session_get url params {[ "User-Agent" := ua ]} ;;
  response <- (fun '(self, w) => (api net (sent w), (self, w))) ;;
  lift (classify_response response).

(** [isinstance(query, str)] *)
Definition is_str (x : value) : bool :=
  match x with
  | VStr _ => true
  | _ => false
  end.

(** [data = { 'q': query, 'key': self.key }; data.update(params)]: the
    entries of [params] win. *)
Definition _parse_request (self : OpenCageGeocodeUA) (query : value)
    (params : gmap string value) : result (gmap string value) :=
  if negb (is_str query) then Raises (InvalidInputError query)
  else Returns (params ∪ <["key" := key self]> {[ "q" := query ]}).


(** The payload of a request: the defaults, overridden by the caller. *)
Definition payload (self : OpenCageGeocodeUA) (query : value)
    (params : gmap string value) : gmap string value :=
  params ∪ <["key" := key self]> {[ "q" := query ]}.

(** The two requests of one geocoding call on the session [id]. *)
Definition ua_request (id : nat) : http_request :=
  {| req_session := id; req_url := ua_url; req_params := ∅;
     req_headers := {[ "User-Agent" := ua_header ]} |}.

Definition api_request (id : nat) (params : gmap string value) (ua : string)
  : http_request :=
  {| req_session := id; req_url := url; req_params := params;
     req_headers := {[ "User-Agent" := ua ]} |}.

(** [st'] is [st] but for requests that were issued. *)
Definition only_requests (st st' : state) : Prop :=
  st'.1 = st.1 /\
  aiohttp_avaiable st'.2 = aiohttp_avaiable st.2 /\
  opened st'.2 = opened st.2 /\
  closed st'.2 = closed st.2.

Definition geocode_async (query : value) (kwargs : gmap string value)
  : prog value := fun '(self, w) =>
  if negb (aiohttp_avaiable w) then
    (Raises (AioHttpError "You must install `aiohttp` to use async methods."),
     (self, w))
  else
    match session self with
    | None =>
        (Raises (AioHttpError "Async methods must be used inside an async context."),
         (self, w))
    | Some (RequestsSession _) =>
        (Raises (AioHttpError "You must use `geocode_async` in an async context."),
         (self, w))
    | Some (ClientSession _) =>
        (request <- lift (_parse_request self query kwargs) ;;
         response <- _opencage_async_request request ;;
         lift (py_getitem response "results" ≫= floatify_latlng)) (self, w)
    end.

Definition reverse_geocode_async (lat lng : value) (kwargs : gmap string value)
  : prog value :=
  query <- lift (_query_for_reverse_geocoding lat lng) ;;
  geocode_async (VStr query) kwargs.

(** ** The [async with] statement *)

(** The body of an [async with geocoder:] block, as far as it touches the
    client: it calls the two public operations, decides what to do next
    from their results, ends (by falling off the end or by an early
    [return]) or raises an exception of its own. *)
Inductive body : Type :=
  | Done
  | Raise (e : exn)
  | Geocode (query : value) (kwargs : gmap string value) (next : value -> body)
  | ReverseGeocode (lat lng : value) (kwargs : gmap string value)
      (next : value -> body).

Fixpoint run (b : body) : prog unit :=
  match b with
  | Done => ret ()
  | Raise e => raise e
  | Geocode query kwargs next =>
      bind (geocode_async query kwargs) (fun r => run (next r))
  | ReverseGeocode lat lng kwargs next =>
      bind (reverse_geocode_async lat lng kwargs) (fun r => run (next r))
  end.

(** [async with self: b].  [__aexit__] runs on every way out of the body
    and, as it returns [False], an exception of the body is raised again;
    an exception of [__aexit__] itself replaces it. *)
Definition async_with (b : body) : prog unit := fun st =>
  match __aenter__ st with
  | (Raises e, st1) => (Raises e, st1)
  | (Returns _, st1) =>
      match run b st1 with
      | (outcome, st2) =>
          match __aexit__ st2 with
          | (Raises e, st3) => (Raises e, st3)
          | (Returns _, st3) => (outcome, st3)
          end
      end
  end.

End Geocoder.

(** ** [floatify_latlng] on the object store *)

(** Python passes references.  An object of the store is a scalar, a list
    of references or a dict of references; lists and dicts can be shared
    and can be updated in place, and they can contain themselves. *)
Definition loc : Type := nat.

Section Store.
Context `{RT : PyRuntime}.

Inductive obj : Type :=
  | ONone
  | OBool (b : bool)
  | OInt (n : Z)
  | OFloat (x : float)
  | OStr (s : string)
  | OList (xs : list loc)
  | ODict (items : list (string * loc)).

Definition alloc (o : obj) (h : gmap loc obj) : loc * gmap loc obj :=
  (fresh (dom h), <[fresh (dom h) := o]> h).

(** The outcome of a call on the store: a result and the store it leaves,
    or [None] when the fuel ran out (the recursion of the source would not
    end) or a reference dangles. *)
Definition on_store (A : Type) : Type := gmap loc obj -> option (result A * gmap loc obj).

Definition py_float_ref (o : obj) : result float :=
  match o with
  | OFloat f => Returns f
  | OInt n => from_option Returns (Raises OverflowError) (float_of_int n)
  | OBool b => from_option Returns (Raises OverflowError) (float_of_int (Z.b2z b))
  | OStr s => from_option Returns (Raises ValueError) (float_of_str s)
  | ONone | OList _ | ODict _ => Raises TypeError
  end.

(** [float(x)] returns a float [x] itself and a new float object otherwise;
    on a [ValueError] the argument itself is returned. *)
Definition float_if_float_ref (float_string : loc) : on_store loc := fun h =>
  o ← h !! float_string;
  match py_float_ref o with
  | Returns float_val =>
      match o with
      | OFloat _ => Some (Returns float_string, h)
      | _ => Some (Returns (alloc (OFloat float_val) h).1, (alloc (OFloat float_val) h).2)
      end
  | Raises ValueError => Some (Returns float_string, h)
  | Raises e => Some (Raises e, h)
  end.

Fixpoint getitem_ref (items : list (string * loc)) (key : string) : result loc :=
  match items with
  | [] => Raises (KeyError key)
  | (k, v) :: rest => if decide (k = key) then Returns v else getitem_ref rest key
  end.

(** The elements of a comprehension, from left to right; the first
    exception ends it. *)
Fixpoint traverse {A B} (f : A -> on_store B) (xs : list A) : on_store (list B) := fun h =>
  match xs with
  | [] => Some (Returns [], h)
  | x :: rest =>
      match f x h with
      | None => None
      | Some (Raises e, h1) => Some (Raises e, h1)
      | Some (Returns y, h1) =>
          match traverse f rest h1 with
          | None => None
          | Some (Raises e, h2) => Some (Raises e, h2)
          | Some (Returns ys, h2) => Some (Returns (y :: ys), h2)
          end
      end
  end.

Fixpoint floatify_latlng_ref (fuel : nat) (input_value : loc) : on_store loc := fun h =>
  match fuel with
  | O => None
  | S fuel' =>
      o ← h !! input_value;
      match o with
      | ODict items =>
          if is_latlng items.*1 then
            match getitem_ref items "lat" with
            | Raises e => Some (Raises e, h)
            | Returns a =>
                match float_if_float_ref a h with
                | None => None
                | Some (Raises e, h1) => Some (Raises e, h1)
                | Some (Returns lat, h1) =>
                    match getitem_ref items "lng" with
                    | Raises e => Some (Raises e, h1)
                    | Returns b =>
                        match float_if_float_ref b h1 with
                        | None => None
                        | Some (Raises e, h2) => Some (Raises e, h2)
                        | Some (Returns lng, h2) =>
                            Some (Returns (alloc (ODict [("lat", lat); ("lng", lng)]) h2).1,
                                  (alloc (ODict [("lat", lat); ("lng", lng)]) h2).2)
                        end
                    end
                end
            end
          else
            match traverse (fun kv h' =>
                     match floatify_latlng_ref fuel' kv.2 h' with
                     | None => None
                     | Some (Raises e, h1) => Some (Raises e, h1)
                     | Some (Returns v, h1) => Some (Returns (kv.1, v), h1)
                     end) items h with
            | None => None
            | Some (Raises e, h1) => Some (Raises e, h1)
            | Some (Returns items', h1) =>
                Some (Returns (alloc (ODict items') h1).1, (alloc (ODict items') h1).2)
            end
      | OList xs =>
          match traverse (floatify_latlng_ref fuel') xs h with
          | None => None
          | Some (Raises e, h1) => Some (Raises e, h1)
          | Some (Returns xs', h1) =>
              Some (Returns (alloc (OList xs') h1).1, (alloc (OList xs') h1).2)
          end
      | ONone | OBool _ | OInt _ | OFloat _ | OStr _ => Some (Returns input_value, h)
      end
  end.

(** The reference [l] leads, in the store [h], to the finite tree [v]. *)
Inductive represents (h : gmap loc obj) : loc -> value -> Prop :=
  | rep_none l : h !! l = Some ONone -> represents h l VNone
  | rep_bool l b : h !! l = Some (OBool b) -> represents h l (VBool b)
  | rep_int l n : h !! l = Some (OInt n) -> represents h l (VInt n)
  | rep_float l x : h !! l = Some (OFloat x) -> represents h l (VFloat x)
  | rep_str l s : h !! l = Some (OStr s) -> represents h l (VStr s)
  | rep_list l ls vs :
      h !! l = Some (OList ls) ->
      Forall2 (represents h) ls vs ->
      represents h l (VList vs)
  | rep_dict l its vits :
      h !! l = Some (ODict its) ->
      Forall2 (fun a b => a.1 = b.1 /\ represents h a.2 b.2) its vits ->
      represents h l (VDict vits).

(** A run on the store [h] does what the call [spec] on trees does: it
    ends, it leaves a store in which whatever was in [h] is as it was, and
    it raises the same exception or returns a reference to the same value. *)
Definition refines {A B} (R : gmap loc obj -> A -> B -> Prop) (h : gmap loc obj)
    (out : option (result A * gmap loc obj)) (spec : result B) : Prop :=
  exists r h', out = Some (r, h') /\ h ⊆ h' /\
    match spec with
    | Returns b => exists a, r = Returns a /\ R h' a b
    | Raises e => r = Raises e
    end.

(** The nesting depth of a tree. *)
Fixpoint height (v : value) : nat :=
  match v with
  | VList xs => S (foldr (fun x n => height x `max` n) 0 xs)
  | VDict items => S (foldr (fun kv n => height kv.2 `max` n) 0 items)
  | _ => 0
  end.

End Store.

(** ** The rest of the client: the synchronous scope, the messages of the
    exceptions, and the notions in which its behaviour is stated *)

Section Scopes.
Context `{RT : PyRuntime}.
Variable net : network.

(** [with self: b].  [__exit__] runs on every way out of the body and, as
    it returns [False], an exception of the body is raised again; an
    exception of [__exit__] itself replaces it. *)
Definition with_ (b : body) : prog unit := fun st =>
  match __enter__ st with
  | (Raises e, st1) => (Raises e, st1)
  | (Returns _, st1) =>
      match run net b st1 with
      | (outcome, st2) =>
          match __exit__ st2 with
          | (Raises e, st3) => (Raises e, st3)
          | (Returns _, st3) => (outcome, st3)
          end
      end
  end.

(** [InvalidInputError.__unicode__], which is also its [__str__]: the
    slice keeps the first hundred characters of the [repr]. *)
Definition InvalidInputError__unicode__ (bad_value : value) : string :=
  "Input must be a unicode string, not " ++ substring 0 100 (py_repr bad_value).

(** The sessions of a state are in order: the closed sessions were opened
    before, the session of the client was opened before, and an aiohttp
    session in the attribute of the client has not been closed. *)
Definition consistent (st : state) : Prop :=
  (forall id, id ∈ closed st.2 -> id < opened st.2) /\
  match session st.1 with
  | None => True
  | Some (RequestsSession id) => id < opened st.2
  | Some (ClientSession id) => id < opened st.2 /\ id ∉ closed st.2
  end.

(** What [float_if_float] leaves behind: a float, or a string that is no
    float literal. *)
Definition settled (v : value) : bool :=
  match v with
  | VFloat _ => true
  | VStr s => match float_of_str s with
              | None => true
              | Some _ => false
              end
  | _ => false
  end.

(** The words that [format] writes for an infinity and for a NaN, with
    the sign and the payload that they may have. *)
Definition special_word (word : string) : Prop :=
  word = "Infinity" \/ word = "-Infinity" \/
  prefixb "NaN" word = true \/ prefixb "-NaN" word = true \/
  prefixb "sNaN" word = true \/ prefixb "-sNaN" word = true.

(** No mapping of the tree is a coordinate leaf. *)
Definition no_leaf (v : value) : bool := leaves (fun _ => false) v.

(** The object at [l] in the store [h'], and every list and mapping below
    it down to the depth [n], is none of the objects of the store [h]:
    whoever updates it in place leaves what [h] holds as it is.  Numbers,
    strings and the like cannot be updated and may be shared. *)
Fixpoint detached (n : nat) (h h' : gmap loc obj) (l : loc) {struct n} : Prop :=
  match h' !! l with
  | Some (OList ls) =>
      h !! l = None /\
      match n with
      | O => False
      | S n' => Forall (detached n' h h') ls
      end
  | Some (ODict its) =>
      h !! l = None /\
      match n with
      | O => False
      | S n' => Forall (fun kv => detached n' h h' kv.2) its
      end
  | Some _ => True
  | None => False
  end.

End Scopes.

(** ** The binary sensors of the watch *)

(** [binary_sensor.py] takes its constants from [.const] and the state of
    the watch from the controller of [pyxplora_api].  Both are parameters
    here, and so are two built-ins that the run time above does not have:
    the comparison of a float with an integer, and [str.title]. *)
Section Sensor.
Context `{RT : PyRuntime}.
Variables BINARY_SENSOR_CHARGING BINARY_SENSOR_SAFEZONE BINARY_SENSOR_STATE : string.
Variable ATTR_WATCH : string.
Variable float_eq : float -> Z -> bool.
Variable title : string -> string.

(** The calls that a sensor makes on its controller. *)
Inductive call : Type :=
  | init_async
  | askWatchLocate_async (id : value)
  | trackWatchInterval_async (id : value)
  | getWatchOnlineStatus_async (id : value)
  | getWatchIsInSafeZone_async (id : value)
  | getWatchIsCharging_async (id : value)
  | getWatchUserName_async (id : value).

(** The controller: its answer to a call, as a function of the calls made
    so far (the current one first).  It may fail in any way. *)
Variable controller : list call -> result value.

(** The attributes of a sensor that this file reads or writes:
    [entity_description] stands for its key. *)
Record XploraBinarySensor : Type := {
  entity_description : string;
  _types : value;
  _attr_icon : option string;
  _attr_native_value : option bool;
  _attr_name : option string;
  _attr_unique_id : option string;
  _attr_is_on : option bool;
}.

Definition set_icon (icon : string) (self : XploraBinarySensor) : XploraBinarySensor :=
  {| entity_description := entity_description self; _types := _types self;
     _attr_icon := Some icon; _attr_native_value := _attr_native_value self;
     _attr_name := _attr_name self; _attr_unique_id := _attr_unique_id self;
     _attr_is_on := _attr_is_on self |}.

Definition set_native_value (v : bool) (self : XploraBinarySensor) : XploraBinarySensor :=
  {| entity_description := entity_description self; _types := _types self;
     _attr_icon := _attr_icon self; _attr_native_value := Some v;
     _attr_name := _attr_name self; _attr_unique_id := _attr_unique_id self;
     _attr_is_on := _attr_is_on self |}.

Definition set_name (name unique_id : string) (on : bool) (self : XploraBinarySensor)
  : XploraBinarySensor :=
  {| entity_description := entity_description self; _types := _types self;
     _attr_icon := _attr_icon self; _attr_native_value := _attr_native_value self;
     _attr_name := Some name; _attr_unique_id := Some unique_id;
     _attr_is_on := Some on |}.

(** A coroutine of a sensor runs on the sensor and on the log of the calls
    made on the controller (the most recent first), and leaves both
    behind, also when it raises. *)
Definition coro (A : Type) : Type :=
  XploraBinarySensor * list call -> result A * (XploraBinarySensor * list call).

Definition return_ {A} (a : A) : coro A := fun st => (Returns a, st).

Definition and_then {A B} (m : coro A) (k : A -> coro B) : coro B := fun st =>
  match m st with
  | (Returns a, st') => k a st'
  | (Raises e, st') => (Raises e, st')
  end.

Notation "x <~ m ;; k" := (and_then m (fun x => k))
  (at level 100, m at next level, right associativity).

Definition await (c : call) : coro value := fun '(self, log) =>
  (controller (c :: log), (self, c :: log)).

Definition assign (f : XploraBinarySensor -> XploraBinarySensor) : coro unit :=
  fun '(self, log) => (Returns (), (f self, log)).

(** [x == n] for an integer [n]; [True] is the integer 1. *)
Definition eq_int (x : value) (n : Z) : bool :=
  match x with
  | VBool b => (Z.b2z b =? n)%Z
  | VInt m => (m =? n)%Z
  | VFloat f => float_eq f n
  | VNone | VStr _ | VList _ | VDict _ => false
  end.

(** [x == s] for a string [s] *)
Definition eq_str (x : value) (s : string) : bool :=
  match x with
  | VStr t => bool_decide (t = s)
  | _ => false
  end.

(** The truth value of [x] in a condition. *)
Definition truth (x : value) : bool :=
  match x with
  | VNone => false
  | VBool b => b
  | VInt n => negb (n =? 0)%Z
  | VFloat f => negb (float_eq f 0)
  | VStr s => match s with
              | EmptyString => false
              | String _ _ => true
              end
  | VList xs => match xs with
                | [] => false
                | _ :: _ => true
                end
  | VDict items => match items with
                   | [] => false
                   | _ :: _ => true
                   end
  end.

Definition __isOnline (id : value) : coro bool :=
  _ <~ await init_async ;;
  _ <~ assign (set_icon "mdi:lan-check") ;;
  located <~ await (askWatchLocate_async id) ;;
  if eq_int located 1 then return_ true
  else
    interval <~ await (trackWatchInterval_async id) ;;
    if negb (eq_int interval (-1)) then return_ true
    else
      state <~ await (getWatchOnlineStatus_async id) ;;
      if eq_str state "ONLINE" then return_ true
      else
        _ <~ assign (set_icon "mdi:lan-disconnect") ;;
        return_ false.

Definition __isSafezone (id : value) : coro bool :=
  inside <~ await (getWatchIsInSafeZone_async id) ;;
  if truth inside then return_ false else return_ true.

Definition __isCharging (id : value) : coro bool :=
  charging <~ await (getWatchIsCharging_async id) ;;
  if truth charging then return_ true else return_ false.

(** [sensor_type in self._types and self.entity_description.key == sensor_type] *)
Definition __isTypes (sensor_type : string) : coro bool := fun '(self, log) =>
  (has ← py_contains sensor_type (_types self);
   mret (has && bool_decide (entity_description self = sensor_type)),
   (self, log)).

(** The name is an f-string of the user name, [ATTR_WATCH], the sensor
    type and the id, in title case; the unique id is the id followed by
    the name. *)
Definition __default_attr (fun_ : bool) (sensor_type : string) (id : value)
  : coro unit :=
  _ <~ assign (set_native_value fun_) ;;
  client_name <~ await (getWatchUserName_async id) ;;
  assign (fun self =>
    let name := title (py_str client_name ++ " " ++ ATTR_WATCH ++ " " ++
                       sensor_type ++ " " ++ py_str id) in
    set_name name (py_str id ++ name) fun_ self).

Definition __update (id : value) : coro unit :=
  is_state <~ __isTypes BINARY_SENSOR_STATE ;;
  if is_state then
    on <~ __isOnline id ;; __default_attr on BINARY_SENSOR_STATE id
  else
    is_safezone <~ __isTypes BINARY_SENSOR_SAFEZONE ;;
    if is_safezone then
      on <~ __isSafezone id ;; __default_attr on BINARY_SENSOR_SAFEZONE id
    else
      is_charging <~ __isTypes BINARY_SENSOR_CHARGING ;;
      if is_charging then
        on <~ __isCharging id ;; __default_attr on BINARY_SENSOR_CHARGING id
      else return_ ().

End Sensor.

(** ** A reference run time: CPython on IEEE binary64 *)

Module Binary64.
Import decimal.
Local Open Scope Z_scope.
Local Open Scope list_scope.

(** A double: a NaN, an infinity, or the finite number [(-1)^neg * m * 2^e]
    with [0 <= m < 2^53], [-1074 <= e <= 971], and [2^52 <= m] unless
    [e = -1074]. *)
Inductive binary64 : Type :=
  | B_nan
  | B_inf (neg : bool)
  | B_fin (neg : bool) (m e : Z).

#[export] Instance binary64_eq_dec : EqDecision binary64.
Proof. solve_decision. Defined.

(** The integer nearest to [n / d], ties to even ([0 <= n], [0 < d]). *)
Definition round_div (n d : Z) : Z :=
  let q := n / d in
  let r := n mod d in
  if 2 * r <? d then q
  else if d <? 2 * r then q + 1
  else if Z.even q then q else q + 1.

(** [n / (d * 2^e)] as a fraction of integers. *)
Definition scale2 (n d e : Z) : Z * Z :=
  if 0 <=? e then (n, d * 2 ^ e) else (n * 2 ^ (- e), d).

(** The double nearest to [n / d] ([0 < n], [0 < d]), ties to even, as
    mantissa and exponent; the exponent exceeds 971 when [n / d] rounds
    beyond the largest double. *)
Definition nearest (n d : Z) : Z * Z :=
  let e0 := Z.log2 n - Z.log2 d - 52 in
  let e1 := if (scale2 n d e0).1 / (scale2 n d e0).2 <? 2 ^ 52 then e0 - 1 else e0 in
  let e := Z.max e1 (-1074) in
  let m := round_div (scale2 n d e).1 (scale2 n d e).2 in
  if m =? 2 ^ 53 then (2 ^ 52, e + 1) else (m, e).

(** [float(n)] on an integer. *)
Definition of_int (n : Z) : option binary64 :=
  if n =? 0 then Some (B_fin false 0 (-1074))
  else
    let '(m, e) := nearest (Z.abs n) 1 in
    if 971 <? e then None else Some (B_fin (n <? 0) m e).

(** The double nearest to [(-1)^neg * n * 10^k]. *)
Definition of_decimal (neg : bool) (n k : Z) : binary64 :=
  if n =? 0 then B_fin neg 0 (-1074)
  else
    let '(m, e) := if 0 <=? k then nearest (n * 10 ^ k) 1 else nearest n (10 ^ (- k)) in
    if 971 <? e then B_inf neg else B_fin neg m e.

(** An underscore of a float literal stands between two digits. *)
Fixpoint underscores_ok (prev : option ascii) (s : text) : bool :=
  match s with
  | [] => true
  | c :: r =>
      (if bool_decide (c = "_"%char)
       then from_option is_digit false prev &&
            match r with
            | d :: _ => is_digit d
            | [] => false
            end
       else true) && underscores_ok (Some c) r
  end.

(** [float] and [int] read a string without the white space around it,
    which is narrower than what [str.strip] removes: the characters 9 to 13
    and the blank, not the separators 28 to 31.  The characters of a string
    stand for the code points below 256; of those beyond ASCII the next
    line character 133 and the no-break space 160 are read as blanks. *)
Definition is_blank (c : ascii) : bool :=
  ((9 <=? code c)%N && (code c <=? 13)%N) || (code c =? 32)%N.

Definition to_blank (c : ascii) : ascii :=
  if (code c =? 133)%N || (code c =? 160)%N then " "%char else c.

Definition number_strip (s : text) : text :=
  reverse (lstrip is_blank (reverse (lstrip is_blank (to_blank <$> s)))).

(** [float(s)] on a string. *)
Definition of_str (s : string) : option binary64 :=
  let s := number_strip (decimal.of_str s) in
  if negb (underscores_ok None s) then None else
  let s := remove_underscores s in
  let '(neg, s) :=
    match s with
    | "-"%char :: r => (true, r)
    | "+"%char :: r => (false, r)
    | _ => (false, s)
    end in
  let l := lower <$> s in
  if bool_decide (l = decimal.of_str "inf") || bool_decide (l = decimal.of_str "infinity")
  then Some (B_inf neg)
  else if bool_decide (l = decimal.of_str "nan") then Some B_nan
  else
    let '(intpart, r1) := span is_digit s in
    let '(fracpart, r2) :=
      match r1 with
      | "."%char :: r => span is_digit r
      | _ => ([], r1)
      end in
    match intpart ++ fracpart with
    | _ :: _ =>
        exp ← parse_exponent r2;
        Some (of_decimal neg (int_of_digits (intpart ++ fracpart))
                (exp - Z.of_nat (length fracpart)))
    | [] => None
    end.

(** [int(x)] on a float: the truncation towards zero. *)
Definition to_int (x : binary64) : builtin_error + Z :=
  match x with
  | B_nan => inl BValueError
  | B_inf _ => inl BOverflowError
  | B_fin neg m e =>
      let a := if 0 <=? e then m * 2 ^ e else m / 2 ^ (- e) in
      inr (if neg then - a else a)
  end.

(** [int(s)] on a string, in base ten. *)
Definition parse_int (s : string) : option Z :=
  let s := number_strip (decimal.of_str s) in
  if negb (underscores_ok None s) then None else
  let s := remove_underscores s in
  let '(neg, s) :=
    match s with
    | "-"%char :: r => (true, r)
    | "+"%char :: r => (false, r)
    | _ => (false, s)
    end in
  match s with
  | _ :: _ =>
      if forallb is_digit s
      then Some (if neg : bool then - int_of_digits s else int_of_digits s)
      else None
  | [] => None
  end.

(** A naive [datetime]. *)
Record naive_datetime : Type := {
  year : Z; month : Z; day : Z;
  hour : Z; minute : Z; second : Z; microsecond : Z;
}.

(** The proleptic Gregorian date of a day number counted from 1970-01-01. *)
Definition civil_from_days (days : Z) : Z * Z * Z :=
  let z := days + 719468 in
  let era := z / 146097 in
  let doe := z - era * 146097 in
  let yoe := (doe - doe / 1460 + doe / 36524 - doe / 146096) / 365 in
  let doy := doe - (365 * yoe + yoe / 4 - yoe / 100) in
  let mp := (5 * doy + 2) / 153 in
  let d := doy - (153 * mp + 2) / 5 + 1 in
  let m := if mp <? 10 then mp + 3 else mp - 9 in
  (yoe + era * 400 + (if m <=? 2 then 1 else 0), m, d).

(** The [datetime] of a number of seconds and microseconds since the epoch:
    [OverflowError] outside the range of a 64-bit [time_t], [OSError] when
    [gmtime] cannot hold the year, [ValueError] outside the years 1..9999. *)
Definition datetime_of (seconds us : Z) : builtin_error + naive_datetime :=
  if (seconds <? - 2 ^ 63) || (2 ^ 63 <=? seconds) then inl BOverflowError
  else
    let '(y, m, d) := civil_from_days (seconds / 86400) in
    let s := seconds mod 86400 in
    if (y - 1900 <? - 2 ^ 31) || (2 ^ 31 <=? y - 1900) then inl BOSError
    else if (y <? 1) || (9999 <? y) then inl BValueError
    else inr {| year := y; month := m; day := d;
                hour := s / 3600; minute := s mod 3600 / 60; second := s mod 60;
                microsecond := us |}.

Definition utc_of_int (n : Z) : builtin_error + naive_datetime :=
  datetime_of n 0.

(** On a float the fraction of a second is multiplied by a million as a
    double and rounded to an integer, ties to even. *)
Definition utc_of_float (x : binary64) : builtin_error + naive_datetime :=
  match x with
  | B_nan => inl BValueError
  | B_inf _ => inl BOverflowError
  | B_fin neg m e =>
      let '(n, d) := scale2 m 1 (- e) in
      let intpart := n / d in
      let frac := n mod d in
      let us :=
        if frac =? 0 then 0
        else
          let '(pm, pe) := nearest (frac * 10 ^ 6) d in
          round_div (scale2 pm 1 (- pe)).1 (scale2 pm 1 (- pe)).2 in
      let '(sec, us) := if neg then (- intpart, - us) else (intpart, us) in
      let '(sec, us) :=
        if 10 ^ 6 <=? us then (sec + 1, us - 10 ^ 6)
        else if us <? 0 then (sec - 1, us + 10 ^ 6)
        else (sec, us) in
      datetime_of sec us
  end.

(** [floor (log10 (n / d))] for positive [n] and [d]: a lower estimate from
    the binary logarithms, then a short search upwards. *)
Definition ge_pow10 (n d q : Z) : bool :=
  if 0 <=? q then d * 10 ^ q <=? n else d <=? n * 10 ^ (- q).

Fixpoint ilog10_from (fuel : nat) (n d p : Z) : Z :=
  match fuel with
  | O => p
  | S fuel' => if ge_pow10 n d (p + 1) then ilog10_from fuel' n d (p + 1) else p
  end.

Definition ilog10 (n d : Z) : Z :=
  ilog10_from 8 n d ((Z.log2 n - Z.log2 d - 1) * 30103 / 100000 - 2).

(** [n / (d * 10^q)] as a fraction of integers. *)
Definition scale10 (n d q : Z) : Z * Z :=
  if 0 <=? q then (n, d * 10 ^ q) else (n * 10 ^ (- q), d).

(** The decimal [c * 10^q] with [k] digits that [repr] would print for the
    positive double [m * 2^e], if one with [k] digits reads back as it:
    of the two neighbours of the double the closer one that does. *)
Definition repr_candidate (m e : Z) (k : Z) : option (Z * Z) :=
  let '(n, d) := scale2 m 1 (- e) in
  let q := ilog10 n d - k + 1 in
  let '(n', d') := scale10 n d q in
  let lo := n' / d' in
  let r := n' mod d' in
  let back c := bool_decide (of_decimal false c q = B_fin false m e) in
  let first := if 2 * r <=? d' then lo else lo + 1 in
  let other := if 2 * r <=? d' then lo + 1 else lo in
  if back first then Some (first, q)
  else if back other then Some (other, q)
  else None.

Fixpoint shortest (fuel : nat) (m e k : Z) : Z * Z :=
  match fuel with
  | O => (m, e)
  | S fuel' =>
      match repr_candidate m e k with
      | Some c => c
      | None => shortest fuel' m e (k + 1)
      end
  end.

Definition rstrip_zeros (s : text) : text :=
  reverse (lstrip (fun c => bool_decide (c = "0"%char)) (reverse s)).

(** [repr(x)] on a float: the shortest digits that read back as [x], in
    positional notation when the decimal point falls within them or close
    by, with an exponent otherwise. *)
Definition repr (x : binary64) : string :=
  match x with
  | B_nan => "nan"
  | B_inf neg => if neg then "-inf" else "inf"
  | B_fin neg m e =>
      let sign : text := if neg then ["-"%char] else [] in
      if m =? 0 then to_str (sign ++ decimal.of_str "0.0")
      else
        let '(c, q) := shortest 17 m e 1 in
        let all := decimal.of_str (pretty c) in
        let ds := rstrip_zeros all in
        let decpt := Z.of_nat (length all) + q in
        let nd := Z.of_nat (length ds) in
        to_str (sign ++
          if (decpt <? -3) || (16 <? decpt) then
            let x := decpt - 1 in
            let xs := decimal.of_str (pretty (Z.abs x)) in
            take 1 ds ++
            match drop 1 ds with
            | [] => []
            | rest => "."%char :: rest
            end ++
            "e"%char :: (if x <? 0 then "-"%char else "+"%char) ::
            (if Z.abs x <? 10 then "0"%char :: xs else xs)
          else if decpt <=? 0 then
            decimal.of_str "0." ++ replicate (Z.to_nat (- decpt)) "0"%char ++ ds
          else if nd <=? decpt then
            ds ++ replicate (Z.to_nat (decpt - nd)) "0"%char ++ decimal.of_str ".0"
          else
            take (Z.to_nat decpt) ds ++ "."%char :: drop (Z.to_nat decpt) ds)
  end.

Definition hex_digit (n : N) : ascii :=
  if (n <? 10)%N then ascii_of_N (48 + n) else ascii_of_N (87 + n).

(** [repr(s)] on a string of ASCII characters (a byte above 127 is kept,
    as [repr] keeps a printable character). *)
Definition escape (quote : ascii) (c : ascii) : text :=
  if bool_decide (c = quote) || bool_decide (c = "092"%char) then ["092"%char; c]
  else if bool_decide (c = "010"%char) then ["092"%char; "n"%char]
  else if bool_decide (c = "013"%char) then ["092"%char; "r"%char]
  else if bool_decide (c = "009"%char) then ["092"%char; "t"%char]
  else if (code c <? 32)%N || bool_decide (code c = 127%N) then
    ["092"%char; "x"%char; hex_digit (code c / 16); hex_digit (code c mod 16)]
  else [c].

Definition repr_of_str (s : string) : string :=
  let t := decimal.of_str s in
  let quote :=
    if bool_decide ("'"%char ∈ t) && negb (bool_decide ("034"%char ∈ t))
    then "034"%char else "'"%char in
  to_str (quote :: (t ≫= escape quote) ++ [quote]).

Definition runtime : PyRuntime := {|
  float := binary64;
  float_of_str := of_str;
  float_of_int := of_int;
  int_of_float := to_int;
  int_of_str := parse_int;
  datetime := naive_datetime;
  utcfromtimestamp_int := utc_of_int;
  utcfromtimestamp_float := utc_of_float;
  float_repr := repr;
  str_repr := repr_of_str;
|}.

End Binary64.

(** ** Sample data for the runs on the reference run time *)

Section Samples.
Local Existing Instance Binary64.runtime.
Local Open Scope Z_scope.

(** A tree with a coordinate leaf of strings under a list under a mapping,
    beside a mapping of three keys. *)
Definition sample : value :=
  VDict [("results",
          VList [VDict [("geometry", VDict [("lng", VStr "2.5"); ("lat", VStr "north")]);
                        ("bounds", VDict [("lat", VStr "1.5"); ("lng", VStr "2.5");
                                          ("alt", VStr "3")])]])].

Definition sample_out : value :=
  VDict [("results",
          VList [VDict [("geometry",
                         VDict [("lat", VStr "north");
                                ("lng", VFloat (Binary64.B_fin false 5629499534213120 (-51)))]);
                        ("bounds", VDict [("lat", VStr "1.5"); ("lng", VStr "2.5");
                                          ("alt", VStr "3")])]])].

(** A tree whose coordinate leaves hold numbers: the integer 51 and the
    float -1.5. *)
Definition numeric_sample : value :=
  VDict [("results",
          VList [VDict [("geometry",
                         VDict [("lat", VInt 51);
                                ("lng", VFloat (Binary64.B_fin true 6755399441055744 (-52)))])]])].

(** A server that answers every request with one result, a client with
    the key k, and a world in which nothing happened yet. *)
Definition sample_net : network :=
  {| user_agent := fun _ => Returns "Mozilla/5.0";
     api := fun _ =>
       Returns {| status := 200;
                  json := Returns (VDict [("results",
                            VList [VDict [("lat", VStr "51.5"); ("lng", VStr "north")]])]) |} |}.

Definition sample_client : OpenCageGeocodeUA := __init__ (VStr "k").

Definition sample_world : world :=
  {| aiohttp_avaiable := true; opened := 0; closed := ∅; sent := [] |}.

(** A store that holds a coordinate leaf of two strings at the location 2. *)
Definition sample_store : gmap loc obj :=
  <[2%nat := ODict [("lat", 0%nat); ("lng", 1%nat)]]>
    (<[1%nat := OStr "east"]> (<[0%nat := OStr "1.5"]> ∅)).

End Samples.

(** A client inside an asynchronous scope, whose session is the first
    that was opened; a network on which no host can be reached; and a
    reply of the API without results. *)
Section CallSamples.
Local Existing Instance Binary64.runtime.
Local Open Scope Z_scope.

Definition active_client : OpenCageGeocodeUA :=
  set_session (Some (ClientSession 0)) sample_client.

Definition active_world : world := new_session sample_world.

Definition offline_net : network :=
  {| user_agent := fun _ => Raises (ClientError "Cannot connect to host");
     api := fun _ => Raises (ClientError "Cannot connect to host") |}.

(** A call inside the scope, on the server that answers. *)
Definition sample_call : result value * state :=
  geocode_async sample_net (VStr "London") ∅ (active_client, active_world).

Definition empty_reply : http_response :=
  {| status := 200; json := Returns (VDict [("results", VList [])]) |}.

End CallSamples.

(** A controller that reports a watch named anna, inside its safe zone and
    off line; a sensor of the safe zone; and, for the two built-ins that
    are parameters of the sensors, the comparison of a double with an
    integer and [str.title] on ASCII strings. *)
Section SensorSamples.
Local Existing Instance Binary64.runtime.
Local Open Scope Z_scope.

Definition sample_controller (log : list call) : result value :=
  match log with
  | askWatchLocate_async _ :: _ => Returns (VBool false)
  | trackWatchInterval_async _ :: _ => Returns (VInt (-1))
  | getWatchOnlineStatus_async _ :: _ => Returns (VStr "OFFLINE")
  | getWatchIsInSafeZone_async _ :: _ => Returns (VBool true)
  | getWatchIsCharging_async _ :: _ => Returns (VBool false)
  | getWatchUserName_async _ :: _ => Returns (VStr "anna")
  | _ => Returns VNone
  end.

Definition sample_sensor : XploraBinarySensor :=
  {| entity_description := "safezone";
     _types := VList [VStr "safezone"; VStr "state"];
     _attr_icon := None; _attr_native_value := None; _attr_name := None;
     _attr_unique_id := None; _attr_is_on := None |}.

(** A sensor whose key is not among the configured types. *)
Definition other_sensor : XploraBinarySensor :=
  {| entity_description := "charging";
     _types := VList [VStr "safezone"; VStr "state"];
     _attr_icon := None; _attr_native_value := None; _attr_name := None;
     _attr_unique_id := None; _attr_is_on := None |}.

Definition float_eq_int (x : Binary64.binary64) (n : Z) : bool :=
  match x with
  | Binary64.B_fin neg m e =>
      let v := if neg then - m else m in
      if 0 <=? e then v * 2 ^ e =? n else v =? n * 2 ^ (- e)
  | _ => false
  end.

Definition is_alpha (c : ascii) : bool :=
  ((65 <=? N_of_ascii c)%N && (N_of_ascii c <=? 90)%N) ||
  ((97 <=? N_of_ascii c)%N && (N_of_ascii c <=? 122)%N).

Definition upper (c : ascii) : ascii :=
  if (97 <=? N_of_ascii c)%N && (N_of_ascii c <=? 122)%N
  then ascii_of_N (N_of_ascii c - 32) else c.

Fixpoint title_from (cased : bool) (s : string) : string :=
  match s with
  | EmptyString => EmptyString
  | String c r =>
      String (if is_alpha c then (if cased then decimal.lower c else upper c) else c)
        (title_from (is_alpha c) r)
  end.

Definition ascii_title (s : string) : string := title_from false s.

(** An update of the sample sensor for the watch 7. *)
Definition sample_update : result unit * (XploraBinarySensor * list call) :=
  __update "charging" "safezone" "state" "watch" float_eq_int ascii_title
    sample_controller (VInt 7) (sample_sensor, []).

End SensorSamples.

(** * Properties *)

Section GeocoderFacts.
Context `{RT : PyRuntime}.

(** ** Induction on trees *)

Lemma value_rect' (P : value -> Prop) :
  P VNone ->
  (forall b, P (VBool b)) ->
  (forall n, P (VInt n)) ->
  (forall x, P (VFloat x)) ->
  (forall s, P (VStr s)) ->
  (forall xs, Forall P xs -> P (VList xs)) ->
  (forall items, Forall (fun kv => P kv.2) items -> P (VDict items)) ->
  forall v, P v.
Proof.
  intros Hnone Hbool Hint Hfloat Hstr Hlist Hdict.
  fix IH 1. intros [ | b | n | x | s | xs | items ].
  - exact Hnone.
  - apply Hbool.
  - apply Hint.
  - apply Hfloat.
  - apply Hstr.
  - apply Hlist. induction xs as [ | x xs IHxs ]; constructor; [apply IH | exact IHxs].
  - apply Hdict. induction items as [ | [k x] items IHitems ]; constructor;
      [apply IH | exact IHitems].
Qed.

(** ** The result monad *)

Lemma bind_Returns {A B} (m : result A) (f : A -> result B) b :
  m ≫= f = Returns b <-> exists a, m = Returns a /\ f a = Returns b.
Proof.
  destruct m as [a | e]; simpl; split.
  - intros H. exists a. done.
  - by intros (a' & [= <-] & H).
  - done.
  - by intros (a' & [=] & _).
Qed.

Lemma fmap_Returns {A B} (m : result A) (f : A -> B) b :
  f <$> m = Returns b <-> exists a, m = Returns a /\ b = f a.
Proof.
  destruct m as [a | e]; simpl; split.
  - intros [= <-]. by exists a.
  - by intros (a' & [= <-] & ->).
  - done.
  - by intros (a' & [=] & _).
Qed.

Lemma mapM_Returns {A B} (f : A -> result B) xs ys :
  mapM f xs = Returns ys <-> Forall2 (fun x y => f x = Returns y) xs ys.
Proof.
  revert ys. induction xs as [ | x xs IH ]; intros ys; simpl.
  - split; [intros [= <-]; constructor | by inversion 1].
  - split.
    + intros (y & Hy & H)%bind_Returns. apply bind_Returns in H as (k & Hk & [= <-]).
      constructor; [done | by apply IH].
    + inversion 1 as [ | ? y ? k Hy Hk ]; subst. apply bind_Returns. exists y. split; [done | ].
      apply bind_Returns. exists k. split; [by apply IH | done].
Qed.

(** ** Coordinate leaves *)

Lemma is_latlng_iff ks :
  is_latlng ks = true <-> ks = ["lat"; "lng"] \/ ks = ["lng"; "lat"].
Proof.
  unfold is_latlng. rewrite andb_true_iff, Nat.eqb_eq, bool_decide_eq_true. split.
  - intros [Hlen Hs]. destruct ks as [ | a [ | b [ | ] ] ]; try discriminate.
    unfold sorted, merge_sort in Hs. simpl in Hs.
    destruct (decide (String.le a b)); simpl in Hs; injection Hs as <- <-; auto.
  - intros [-> | ->]; split; done.
Qed.

Lemma floatify_latlng_leaf items :
  is_latlng (keys items) = true ->
  floatify_latlng (VDict items) =
    (lat ← getitem items "lat" ≫= float_if_float;
     lng ← getitem items "lng" ≫= float_if_float;
     mret (VDict [("lat", lat); ("lng", lng)])).
Proof. intros H. simpl. by rewrite H. Qed.

Lemma floatify_latlng_dict items :
  is_latlng (keys items) = false ->
  floatify_latlng (VDict items) =
    VDict <$> mapM (fun kv => v ← floatify_latlng kv.2; mret (kv.1, v)) items.
Proof. intros H. simpl. by rewrite H. Qed.

Lemma floatify_latlng_list xs :
  floatify_latlng (VList xs) = VList <$> mapM floatify_latlng xs.
Proof. done. Qed.

(** What a returning call on a dict that is no coordinate leaf returns. *)
Lemma floatify_latlng_dict_Returns items w :
  is_latlng (keys items) = false ->
  floatify_latlng (VDict items) = Returns w <->
  exists items', w = VDict items' /\
    Forall2 (fun kv kv' => kv.1 = kv'.1 /\ floatify_latlng kv.2 = Returns kv'.2)
      items items'.
Proof.
  intros H. rewrite floatify_latlng_dict by done. rewrite fmap_Returns.
  split; intros (items' & H1 & H2); exists items'.
  - split; [done | ]. apply mapM_Returns in H1.
    eapply Forall2_impl; [exact H1 | ]. intros [k x] [k' x']; simpl.
    intros (y & Hy & [= <- <-])%bind_Returns. done.
  - split; [ | done]. apply mapM_Returns.
    eapply Forall2_impl; [exact H2 | ]. intros [k x] [k' x']; simpl.
    intros [<- ->]. done.
Qed.

Lemma floatify_latlng_list_Returns xs w :
  floatify_latlng (VList xs) = Returns w <->
  exists xs', w = VList xs' /\
    Forall2 (fun x x' => floatify_latlng x = Returns x') xs xs'.
Proof.
  rewrite floatify_latlng_list, fmap_Returns.
  split; intros (xs' & H1 & H2); exists xs'.
  - split; [done | by apply mapM_Returns].
  - split; [by apply mapM_Returns | done].
Qed.

Lemma floatify_latlng_leaf_Returns items w :
  is_latlng (keys items) = true ->
  floatify_latlng (VDict items) = Returns w <->
  exists a b a' b',
    getitem items "lat" = Returns a /\ getitem items "lng" = Returns b /\
    float_if_float a = Returns a' /\ float_if_float b = Returns b' /\
    w = VDict [("lat", a'); ("lng", b')].
Proof.
  intros H. rewrite floatify_latlng_leaf by done. split.
  - intros (a' & (a & Ha & Ha')%bind_Returns & H1)%bind_Returns.
    apply bind_Returns in H1 as (b' & (b & Hb & Hb')%bind_Returns & [= <-]).
    by exists a, b, a', b'.
  - intros (a & b & a' & b' & Ha & Hb & Ha' & Hb' & ->).
    rewrite Ha, Hb. simpl. rewrite Ha'. simpl. by rewrite Hb'.
Qed.

Lemma keys_Forall2 (items items' : list (string * value)) P :
  Forall2 (fun kv kv' => kv.1 = kv'.1 /\ P kv kv') items items' ->
  keys items' = keys items.
Proof.
  unfold keys. induction 1 as [ | [k x] [k' x'] ? ? [Hk _] _ IH ]; csimpl in *;
    [done | congruence].
Qed.

(** ** [float_if_float] *)

Lemma float_if_float_Returns a a' :
  float_if_float a = Returns a' ->
  (a' = a /\ py_float a = Raises ValueError) \/
  (exists x, a' = VFloat x /\ py_float a = Returns x).
Proof.
  unfold float_if_float. destruct (py_float a) as [x | e] eqn:E.
  - intros [= <-]. right. by exists x.
  - destruct e; try discriminate. intros [= <-]. by left.
Qed.

Lemma float_if_float_fixed a a' :
  float_if_float a = Returns a' -> float_if_float a' = Returns a'.
Proof.
  intros [[-> E] | (x & -> & _)]%float_if_float_Returns.
  - unfold float_if_float. by rewrite E.
  - done.
Qed.

(** A value that came out of the normaliser comes out of it unchanged. *)
Lemma floatify_latlng_fixed v :
  forall w, floatify_latlng v = Returns w -> floatify_latlng w = Returns w.
Proof.
  induction v as [ | b | n | x | s | xs IH | items IH ] using value_rect';
    intros w Hw; try (injection Hw as <-; done).
  - apply floatify_latlng_list_Returns in Hw as (xs' & -> & H).
    apply floatify_latlng_list_Returns. exists xs'. split; [done | ].
    induction H as [ | x x' xs xs' Hx _ IHF ]; [constructor | ].
    apply Forall_cons in IH as [IHx IHxs]. constructor; [exact (IHx _ Hx) | exact (IHF IHxs)].
  - destruct (is_latlng (keys items)) eqn:E.
    + apply floatify_latlng_leaf_Returns in Hw as
        (a & b & a' & b' & _ & _ & Ha & Hb & ->); [ | done].
      apply floatify_latlng_leaf_Returns; [done | ].
      exists a', b', a', b'. repeat split; eauto using float_if_float_fixed.
    + apply floatify_latlng_dict_Returns in Hw as (items' & -> & H); [ | done].
      assert (keys items' = keys items) as Hk
        by exact (keys_Forall2 _ _ (fun kv kv' => floatify_latlng kv.2 = Returns kv'.2) H).
      apply floatify_latlng_dict_Returns; [by rewrite Hk | ].
      exists items'. split; [done | ]. clear E Hk.
      induction H as [ | kv kv' items items' [_ Hx] _ IHF ]; [constructor | ].
      apply Forall_cons in IH as [IHx IHxs]. constructor; [ | exact (IHF IHxs)].
      split; [done | exact (IHx _ Hx)].
Qed.

Lemma latlng_items items :
  is_latlng (keys items) = true ->
  exists a b,
    (items = [("lat", a); ("lng", b)] \/ items = [("lng", b); ("lat", a)]) /\
    getitem items "lat" = Returns a /\ getitem items "lng" = Returns b.
Proof.
  intros [H | H]%is_latlng_iff;
    destruct items as [ | [k1 a] [ | [k2 b] [ | ] ] ]; simplify_eq/=.
  - exists a, b. auto.
  - exists b, a. auto.
Qed.

Lemma getitem_latlng items k c :
  is_latlng (keys items) = true ->
  getitem items k = Returns c ->
  (k = "lat" /\ getitem items "lat" = Returns c) \/
  (k = "lng" /\ getitem items "lng" = Returns c).
Proof.
  intros (a & b & [-> | ->] & _)%latlng_items; simpl;
    repeat case_decide; naive_solver.
Qed.

Lemma getitem_Forall2 (P : value -> value -> Prop) items items' k c :
  Forall2 (fun kv kv' => kv.1 = kv'.1 /\ P kv.2 kv'.2) items items' ->
  getitem items k = Returns c ->
  exists c', getitem items' k = Returns c' /\ P c c'.
Proof.
  induction 1 as [ | [k1 x] [k2 x'] ? ? [Hk Hx] _ IH ]; simpl in *; [done | ].
  subst k2. case_decide; [ | done]. intros [= <-]. eauto.
Qed.

(** A node that has something below it is no string and no number. *)
Lemma float_if_float_container c p items :
  subtree p c = Some (VDict items) -> float_if_float c = Raises TypeError.
Proof.
  destruct p as [ | [k | i] p ]; simpl.
  - by intros [= ->].
  - destruct c; simpl; try done.
  - destruct c; simpl; try done.
Qed.

Lemma mapM_returns {A B} (f : A -> result B) xs :
  Forall (fun x => returns (f x)) xs -> returns (mapM f xs).
Proof.
  induction 1 as [ | x xs [y Hy] _ [ys Hys] ]; [by exists [] | ].
  exists (y :: ys). simpl. rewrite Hy. simpl. by rewrite Hys.
Qed.

Lemma mapM_Raises {A B} (f : A -> result B) xs e :
  mapM f xs = Raises e -> Exists (fun x => f x = Raises e) xs.
Proof.
  induction xs as [ | x xs IH ]; simpl; [done | ].
  destruct (f x) as [y | e'] eqn:E; simpl.
  - destruct (mapM f xs) as [ys | e'] eqn:E'; simpl; [done | ].
    intros [= ->]. right. by apply IH.
  - intros [= ->]. by left.
Qed.

Lemma float_if_float_floatable v :
  returns (float_if_float v) <-> floatable v = true.
Proof.
  unfold returns, float_if_float.
  destruct v as [ | b | n | x | s | xs | items ]; simpl; try (split; [by intros [? ?] | done]).
  - rewrite bool_decide_eq_true.
    destruct (float_of_int (Z.b2z b)); simpl; split; eauto; try by intros [? ?].
  - rewrite bool_decide_eq_true.
    destruct (float_of_int n); simpl; split; eauto; try by intros [? ?].
  - split; eauto.
  - destruct (float_of_str s); simpl; split; eauto.
Qed.

Lemma float_if_float_Raises v e :
  float_if_float v = Raises e -> e = TypeError \/ e = OverflowError.
Proof.
  unfold float_if_float.
  destruct v as [ | b | n | x | s | xs | items ]; simpl; try (intros [= <-]; auto); try done.
  - destruct (float_of_int (Z.b2z b)); simpl; [done | intros [= <-]; auto].
  - destruct (float_of_int n); simpl; [done | intros [= <-]; auto].
  - destruct (float_of_str s); simpl; done.
Qed.

Lemma converts_floatable v : converts v = true -> floatable v = true.
Proof. by destruct v. Qed.

Lemma leaves_mono (P Q : value -> bool) v :
  (forall x, P x = true -> Q x = true) -> leaves P v = true -> leaves Q v = true.
Proof.
  intros HPQ.
  induction v as [ | b | n | x | s | xs IH | items IH ] using value_rect'; try done; simpl.
  - rewrite !forallb_forall. rewrite Forall_forall in IH.
    intros H x Hx. apply IH; [by apply list_elem_of_In | by apply H].
  - destruct (is_latlng (keys items)); rewrite !forallb_forall.
    + intros H kv Hkv. by apply HPQ, H.
    + rewrite Forall_forall in IH.
      intros H kv Hkv. apply IH; [by apply list_elem_of_In | by apply H].
Qed.

(** The normaliser returns exactly when [float_if_float] returns on the
    values of every coordinate leaf. *)
Lemma floatify_latlng_returns v :
  returns (floatify_latlng v) <-> leaves floatable v = true.
Proof.
  induction v as [ | b | n | x | s | xs IH | items IH ] using value_rect';
    try (split; [done | by eexists]).
  - simpl leaves. rewrite forallb_forall. rewrite Forall_forall in IH. split.
    + intros [w (xs' & -> & H)%floatify_latlng_list_Returns] x Hx%list_elem_of_In.
      apply IH; [done | ].
      destruct (proj1 (list_elem_of_lookup _ _) Hx) as [i Hi].
      destruct (Forall2_lookup_l _ _ _ _ _ H Hi) as (y & _ & Hy). by exists y.
    + intros Hv. rewrite floatify_latlng_list.
      destruct (mapM_returns floatify_latlng xs) as [ys Hys].
      * rewrite Forall_forall. intros x Hx. apply IH; [done | ].
        apply Hv. by apply list_elem_of_In.
      * rewrite Hys. by eexists.
  - simpl leaves. destruct (is_latlng (keys items)) eqn:E.
    + destruct (latlng_items items E) as (a & b & Hitems & Ha & Hb).
      rewrite floatify_latlng_leaf, Ha, Hb by done. simpl.
      assert (forallb (fun kv : string * value => floatable kv.2) items = true <->
              floatable a = true /\ floatable b = true) as ->
        by (destruct Hitems as [-> | ->]; simpl; rewrite !andb_true_iff; tauto).
      rewrite <- !float_if_float_floatable. split.
      * intros [w Hw]. destruct (float_if_float a) as [a' | ]; [ | done].
        destruct (float_if_float b) as [b' | ]; [ | done]. split; by eexists.
      * intros [[a' ->] [b' ->]]. by eexists.
    + rewrite forallb_forall. rewrite Forall_forall in IH. split.
      * intros [w (items' & -> & H)%floatify_latlng_dict_Returns] kv Hx%list_elem_of_In;
          [ | done].
        apply IH; [done | ].
        destruct (proj1 (list_elem_of_lookup _ _) Hx) as [i Hi].
        destruct (Forall2_lookup_l _ _ _ _ _ H Hi) as (y & _ & _ & Hy). by eexists.
      * intros Hv. rewrite floatify_latlng_dict by done.
        destruct (mapM_returns
          (fun kv : string * value => v ← floatify_latlng kv.2; mret (kv.1, v)) items)
          as [ys Hys].
        -- rewrite Forall_forall. intros kv Hkv.
           destruct (proj2 (IH kv Hkv)) as [y Hy].
           { apply Hv. by apply list_elem_of_In. }
           rewrite Hy. by eexists.
        -- rewrite Hys. by eexists.
Qed.

(** All that the normaliser raises is what [float] raises on the value of
    a coordinate leaf. *)
Lemma floatify_latlng_Raises v e :
  floatify_latlng v = Raises e -> e = TypeError \/ e = OverflowError.
Proof.
  induction v as [ | b | n | x | s | xs IH | items IH ] using value_rect'; try done.
  - rewrite floatify_latlng_list.
    destruct (mapM floatify_latlng xs) as [ | e'] eqn:E; simpl; [done | ].
    intros [= ->]. apply mapM_Raises in E.
    rewrite Forall_forall in IH. apply Exists_exists in E as (x & Hx & Hraise).
    by apply (IH x).
  - destruct (is_latlng (keys items)) eqn:E.
    + destruct (latlng_items items E) as (a & b & _ & Ha & Hb).
      rewrite floatify_latlng_leaf, Ha, Hb by done. simpl.
      destruct (float_if_float a) as [a' | e'] eqn:Ea; simpl;
        [ | intros [= ->]; by eapply float_if_float_Raises].
      destruct (float_if_float b) as [b' | e'] eqn:Eb; simpl;
        [done | intros [= ->]; by eapply float_if_float_Raises].
    + rewrite floatify_latlng_dict by done.
      destruct (mapM _ items) as [ | e'] eqn:E'; simpl; [done | ].
      intros [= ->]. apply mapM_Raises in E'.
      rewrite Forall_forall in IH. apply Exists_exists in E' as (kv & Hkv & Hraise).
      apply (IH kv Hkv). destruct (floatify_latlng kv.2); [discriminate | simpl in Hraise; by injection Hraise as ->].
Qed.

(** ** The claims about [floatify_latlng] and [float_if_float] *)

(** C1. Wherever a mapping node sits in the input of a returning call, the
    output has at the same place its replacement: for a node with exactly
    two entries whose sorted keys are lat and lng, the mapping of lat and
    lng to [float_if_float] of the two values; for a node with any other
    keys, a mapping with the same keys whose values are the normalised
    values, in the same order. *)
Theorem floatify_latlng_every_node v w p items :
  floatify_latlng v = Returns w ->
  subtree p v = Some (VDict items) ->
  (is_latlng (keys items) = true <->
     length (keys items) = 2 /\ sorted (keys items) = ["lat"; "lng"]) /\
  (is_latlng (keys items) = true ->
     exists lat lng,
       getitem items "lat" ≫= float_if_float = Returns lat /\
       getitem items "lng" ≫= float_if_float = Returns lng /\
       subtree p w = Some (VDict [("lat", lat); ("lng", lng)])) /\
  (is_latlng (keys items) = false ->
     exists items',
       subtree p w = Some (VDict items') /\
       keys items' = keys items /\
       Forall2 (fun kv kv' => floatify_latlng kv.2 = Returns kv'.2) items items').
Proof.
  intros Hw Hp. split.
  { unfold is_latlng. by rewrite andb_true_iff, Nat.eqb_eq, bool_decide_eq_true. }
  revert v w Hw Hp. induction p as [ | s p IH ]; intros v w Hw Hp.
  - injection Hp as ->. split; intros E.
    + apply floatify_latlng_leaf_Returns in Hw as
        (a & b & a' & b' & Ha & Hb & Ha' & Hb' & ->); [ | done].
      exists a', b'. rewrite Ha, Hb. done.
    + apply floatify_latlng_dict_Returns in Hw as (items' & -> & H); [ | done].
      exists items'. split; [done | ]. split.
      * exact (keys_Forall2 _ _ (fun kv kv' => floatify_latlng kv.2 = Returns kv'.2) H).
      * eapply Forall2_impl; [exact H | ]. by intros ? ? [_ ?].
  - simpl in Hp. destruct (child s v) as [c | ] eqn:Hc; [ | done]. simpl in Hp.
    assert (exists c', child s w = Some c' /\ floatify_latlng c = Returns c')
      as (c' & Hc' & Hcc').
    { destruct s as [k | i], v as [ | | | | | xs | its ]; simpl in Hc; try done.
      - destruct (getitem its k) as [c0 | ] eqn:Hget; [ | done]. injection Hc as ->.
        destruct (is_latlng (keys its)) eqn:E.
        + exfalso.
          apply floatify_latlng_leaf_Returns in Hw as
            (a & b & a' & b' & Ha & Hb & Ha' & Hb' & ->); [ | done].
          pose proof (float_if_float_container _ _ _ Hp) as Hcont.
          destruct (getitem_latlng _ _ _ E Hget) as [[_ H] | [_ H]]; congruence.
        + apply floatify_latlng_dict_Returns in Hw as (its' & -> & H); [ | done].
          destruct (getitem_Forall2 (fun x x' => floatify_latlng x = Returns x')
                      _ _ _ _ H Hget) as (c' & Hget' & Hcc').
          exists c'. simpl. by rewrite Hget'.
      - apply floatify_latlng_list_Returns in Hw as (xs' & -> & H).
        destruct (Forall2_lookup_l _ _ _ _ _ H Hc) as (c' & Hc' & Hcc').
        by exists c'. }
    destruct (IH c c' Hcc' Hp) as [H1 H2]. split; intros E.
    + destruct (H1 E) as (lat & lng & ? & ? & Hs). exists lat, lng.
      repeat split; try done. simpl. by rewrite Hc'.
    + destruct (H2 E) as (items' & Hs & ?). exists items'.
      split; [ | done]. simpl. by rewrite Hc'.
Qed.

(** C6. On an input whose coordinate leaves hold numbers, normalising the
    normalised value has the outcome of normalising once; and when [float]
    accepts every such number, that outcome is a value which the second
    call returns unchanged. *)
Theorem floatify_latlng_idempotent x :
  leaves is_number x = true ->
  floatify_latlng x ≫= floatify_latlng = floatify_latlng x /\
  (leaves converts x = true ->
   exists y, floatify_latlng x = Returns y /\ floatify_latlng y = Returns y).
Proof.
  intros _. split.
  - destruct (floatify_latlng x) as [y | e] eqn:E; [ | done].
    simpl. by apply (floatify_latlng_fixed x).
  - intros Hx. destruct (proj2 (floatify_latlng_returns x)) as [y Hy].
    { revert Hx. apply leaves_mono, converts_floatable. }
    exists y. split; [done | by apply (floatify_latlng_fixed x)].
Qed.

(** C7. The value that a call returns has the shape of its input: the same
    keys in every mapping that is no coordinate leaf, the same length and
    order in every sequence, the same scalars, and in a coordinate leaf the
    keys lat and lng with each value either unchanged or a float. *)
Theorem floatify_latlng_same_shape v w :
  floatify_latlng v = Returns w -> same_shape v w.
Proof.
  revert w. induction v as [ | b | n | x | s | xs IH | items IH ] using value_rect';
    intros w Hw; try (injection Hw as <-; by constructor).
  - apply floatify_latlng_list_Returns in Hw as (xs' & -> & H). constructor.
    induction H as [ | x x' xs xs' Hx _ IHF ]; [constructor | ].
    apply Forall_cons in IH as [IHx IHxs].
    constructor; [exact (IHx _ Hx) | exact (IHF IHxs)].
  - destruct (is_latlng (keys items)) eqn:E.
    + apply floatify_latlng_leaf_Returns in Hw as
        (a & b & a' & b' & Ha & Hb & Ha' & Hb' & ->); [ | done].
      apply (shape_leaf items a b); try done.
      * apply float_if_float_Returns in Ha' as [[-> _] | (x & -> & _)]; eauto.
      * apply float_if_float_Returns in Hb' as [[-> _] | (x & -> & _)]; eauto.
    + apply floatify_latlng_dict_Returns in Hw as (items' & -> & H); [ | done].
      apply shape_dict; [done | ]. clear E.
      induction H as [ | kv kv' items items' [Hk Hx] _ IHF ]; [constructor | ].
      apply Forall_cons in IH as [IHx IHxs].
      constructor; [split; [done | exact (IHx _ Hx)] | exact (IHF IHxs)].
Qed.

(** C3, as amended. On a string [float_if_float] never raises: it returns
    the float when the string parses and the string itself when it does
    not; a float comes back as it is.  An integer gives its float, and a
    boolean the float of the integer that it is, 0 or 1; the
    [OverflowError] of an integer too large for a double is not caught.
    Neither is the [TypeError] of [float] on [None], a list or a
    mapping. *)
Theorem float_if_float_outcomes :
  (forall s, float_if_float (VStr s) =
             Returns (from_option VFloat (VStr s) (float_of_str s))) /\
  (forall x, float_if_float (VFloat x) = Returns (VFloat x)) /\
  (forall n, float_if_float (VInt n) =
             from_option (fun x => Returns (VFloat x)) (Raises OverflowError)
               (float_of_int n)) /\
  (forall b, float_if_float (VBool b) =
             from_option (fun x => Returns (VFloat x)) (Raises OverflowError)
               (float_of_int (if b then 1 else 0))) /\
  float_if_float VNone = Raises TypeError /\
  (forall xs, float_if_float (VList xs) = Raises TypeError) /\
  (forall items, float_if_float (VDict items) = Raises TypeError).
Proof.
  repeat split; try done.
  - intros s. unfold float_if_float. simpl. by destruct (float_of_str s).
  - intros n. unfold float_if_float. simpl. by destruct (float_of_int n).
  - intros [ | ]; unfold float_if_float; simpl; by destruct (float_of_int _).
Qed.

End GeocoderFacts.

(** ** The normaliser on the object store *)

Section StoreFacts.
Context `{RT : PyRuntime}.
Implicit Types h : gmap loc obj.

Lemma alloc_extends o h : h ⊆ (alloc o h).2.
Proof.
  apply insert_subseteq, not_elem_of_dom, is_fresh.
Qed.

Lemma alloc_lookup o h : (alloc o h).2 !! (alloc o h).1 = Some o.
Proof. apply lookup_insert_eq. Qed.

Lemma float_if_float_ref_extends l h r h' :
  float_if_float_ref l h = Some (r, h') -> h ⊆ h'.
Proof.
  unfold float_if_float_ref. destruct (h !! l) as [o | ]; simpl; [ | done].
  destruct (py_float_ref o) as [x | e].
  - destruct o; intros [= <- <-]; done || apply alloc_extends.
  - destruct e; by intros [= <- <-].
Qed.

Lemma traverse_extends {A B} (f : A -> on_store B) xs :
  (forall x h r h', f x h = Some (r, h') -> h ⊆ h') ->
  forall h r h', traverse f xs h = Some (r, h') -> h ⊆ h'.
Proof.
  intros Hf. induction xs as [ | x xs IH ]; intros h r h'; simpl.
  - by intros [= <- <-].
  - destruct (f x h) as [[[y | e] h1] | ] eqn:E1; [ | | done].
    + apply Hf in E1.
      destruct (traverse f xs h1) as [[[ys | e] h2] | ] eqn:E2; [ | | done];
        apply IH in E2; intros [= <- <-]; by trans h1.
    + apply Hf in E1. by intros [= <- <-].
Qed.

(** Whatever the store (a cyclic one too) and the fuel, a run only adds
    objects. *)
Lemma floatify_latlng_ref_extends fuel :
  forall l h r h', floatify_latlng_ref fuel l h = Some (r, h') -> h ⊆ h'.
Proof.
  induction fuel as [ | fuel IH ]; intros l h r h'; simpl; [done | ].
  destruct (h !! l) as [o | ]; simpl; [ | done].
  destruct o as [ | | | | | xs | items ]; try (by intros [= <- <-]).
  - destruct (traverse _ xs h) as [[[ys | e] h1] | ] eqn:E; [ | | done];
      apply traverse_extends in E; try exact IH; intros [= <- <-]; [ | done].
    trans h1; [done | apply alloc_extends].
  - destruct (is_latlng items.*1).
    + destruct (getitem_ref items "lat") as [a | e]; [ | by intros [= <- <-]].
      destruct (float_if_float_ref a h) as [[[lat | e] h1] | ] eqn:E1; [ | | done];
        apply float_if_float_ref_extends in E1; [ | by intros [= <- <-]].
      destruct (getitem_ref items "lng") as [b | e]; [ | by intros [= <- <-]].
      destruct (float_if_float_ref b h1) as [[[lng | e] h2] | ] eqn:E2; [ | | done];
        apply float_if_float_ref_extends in E2; intros [= <- <-].
      * trans h1; [done | ]. trans h2; [done | apply alloc_extends].
      * by trans h1.
    + destruct (traverse _ items h) as [[[ys | e] h1] | ] eqn:E; [ | | done].
      * apply traverse_extends in E.
        -- intros [= <- <-]. trans h1; [done | apply alloc_extends].
        -- intros kv h0 r0 h0'.
           destruct (floatify_latlng_ref fuel kv.2 h0) as [[[y | e] h2] | ] eqn:E2;
             [ | | done]; apply IH in E2; by intros [= <- <-].
      * apply traverse_extends in E.
        -- by intros [= <- <-].
        -- intros kv h0 r0 h0'.
           destruct (floatify_latlng_ref fuel kv.2 h0) as [[[y | e'] h2] | ] eqn:E2;
             [ | | done]; apply IH in E2; by intros [= <- <-].
Qed.

(** A tree stays where it is when the store grows. *)
Lemma represents_weaken v :
  forall h h' l, h ⊆ h' -> represents h l v -> represents h' l v.
Proof.
  induction v as [ | b | n | x | s | xs IH | items IH ] using value_rect';
    intros h h' l Hsub Hrep; inversion Hrep as
      [ ? Hl | ? ? Hl | ? ? Hl | ? ? Hl | ? ? Hl | ? ls ? Hl Hall | ? its ? Hl Hall ];
    subst; try (constructor; by eapply lookup_weaken).
  - apply (rep_list h' l ls); [by eapply lookup_weaken | ].
    clear Hl Hrep. induction Hall as [ | l0 x ls xs Hx _ IHall ]; [constructor | ].
    apply Forall_cons in IH as [IHx IHxs].
    constructor; [by eapply IHx | by apply IHall].
  - apply (rep_dict h' l its); [by eapply lookup_weaken | ].
    clear Hl Hrep. induction Hall as [ | kl kv its items [Hk Hx] _ IHall ]; [constructor | ].
    apply Forall_cons in IH as [IHx IHxs].
    constructor; [split; [done | by eapply IHx] | by apply IHall].
Qed.

Lemma refines_Returns {A B} (R : gmap loc obj -> A -> B -> Prop) h a b :
  R h a b -> refines R h (Some (Returns a, h)) (Returns b).
Proof. intros H. exists (Returns a), h. repeat split; [done | ]. by exists a. Qed.

Lemma refines_Raises {A B} (R : gmap loc obj -> A -> B -> Prop) h e :
  refines R h (Some (Raises e, h)) (Raises e).
Proof. by exists (Raises e), h. Qed.

Lemma float_if_float_refines h l a :
  represents h l a ->
  refines represents h (float_if_float_ref l h) (float_if_float a).
Proof.
  intros Hrep. unfold float_if_float_ref, float_if_float.
  inversion Hrep as
    [ ? Hl | ? ? Hl | ? ? Hl | ? ? Hl | ? ? Hl | ? ls ? Hl Hall | ? its ? Hl Hall ];
    subst; rewrite Hl; simpl; try apply refines_Raises.
  - destruct (float_of_int (Z.b2z b)) as [x | ]; simpl; [ | apply refines_Raises].
    eexists _, _. split; [done | ]. split; [apply alloc_extends | ].
    eexists. split; [done | ]. constructor. apply alloc_lookup.
  - destruct (float_of_int n) as [x | ]; simpl; [ | apply refines_Raises].
    eexists _, _. split; [done | ]. split; [apply alloc_extends | ].
    eexists. split; [done | ]. constructor. apply alloc_lookup.
  - by apply refines_Returns.
  - destruct (float_of_str s) as [x | ]; simpl; [ | by apply refines_Returns].
    eexists _, _. split; [done | ]. split; [apply alloc_extends | ].
    eexists. split; [done | ]. constructor. apply alloc_lookup.
Qed.

Lemma getitem_refines h its items k :
  Forall2 (fun a b => a.1 = b.1 /\ represents h a.2 b.2) its items ->
  match getitem items k with
  | Returns v => exists l, getitem_ref its k = Returns l /\ represents h l v
  | Raises e => getitem_ref its k = Raises e
  end.
Proof.
  induction 1 as [ | [k1 l] [k2 v] its items [Hk Hv] _ IH ]; simpl in *; [done | ].
  subst k2. case_decide; [ | done]. by exists l.
Qed.

Lemma traverse_refines {A B A' B'} (f : A -> on_store B) (g : A' -> result B')
    (RA : gmap loc obj -> A -> A' -> Prop) (RB : gmap loc obj -> B -> B' -> Prop) :
  (forall h h' a a', h ⊆ h' -> RA h a a' -> RA h' a a') ->
  (forall h h' b b', h ⊆ h' -> RB h b b' -> RB h' b b') ->
  forall xs' xs h,
    Forall (fun x' => forall x h1, RA h1 x x' -> refines RB h1 (f x h1) (g x')) xs' ->
    Forall2 (RA h) xs xs' ->
    refines (fun h => Forall2 (RB h)) h (traverse f xs h) (mapM g xs').
Proof.
  intros HA HB. induction xs' as [ | x' xs' IH ]; intros xs h Hall H2;
    inversion H2 as [ | x ? xs0 ? Hx Hxs ]; subst.
  - apply refines_Returns. constructor.
  - apply Forall_cons in Hall as [Hfx Hfxs]. simpl.
    destruct (Hfx x h Hx) as (r & h1 & -> & Hsub1 & Hspec).
    destruct (g x') as [y' | e]; simpl.
    + destruct Hspec as (y & -> & Hy).
      destruct (IH xs0 h1 Hfxs) as (r2 & h2 & -> & Hsub2 & Hspec2).
      { eapply Forall2_impl; [exact Hxs | ]. intros a a'. by apply HA. }
      destruct (mapM g xs') as [ys' | e]; simpl.
      * destruct Hspec2 as (ys & -> & Hys). eexists _, _. split; [done | ].
        split; [by trans h1 | ]. eexists. split; [done | ].
        constructor; [by eapply HB | done].
      * subst r2. eexists _, _. split; [done | ]. split; [by trans h1 | done].
    + subst r. by eexists _, _.
Qed.

Lemma height_elements (xs : list value) :
  Forall (fun x => height x <= foldr (fun x n => height x `max` n) 0 xs) xs.
Proof.
  induction xs as [ | x xs IH ]; constructor; simpl; [lia | ].
  eapply Forall_impl; [exact IH | ]. intros y Hy. simpl in Hy. lia.
Qed.

Lemma height_items (items : list (string * value)) :
  Forall (fun kv => height kv.2 <= foldr (fun kv n => height kv.2 `max` n) 0 items)
    items.
Proof.
  induction items as [ | x xs IH ]; constructor; simpl; [lia | ].
  eapply Forall_impl; [exact IH | ]. intros y Hy. simpl in Hy. lia.
Qed.

(** With fuel beyond the depth of the tree, the run on the store does what
    the function on trees does. *)
Lemma floatify_latlng_refines v :
  forall fuel l h,
    height v < fuel ->
    represents h l v ->
    refines represents h (floatify_latlng_ref fuel l h) (floatify_latlng v).
Proof.
  induction v as [ | b | n | x | s | xs IH | items IH ] using value_rect';
    intros [ | fuel ] l h Hfuel Hrep; try lia; inversion Hrep as
      [ ? Hl | ? ? Hl | ? ? Hl | ? ? Hl | ? ? Hl | ? ls ? Hl Hall | ? its ? Hl Hall ];
    subst; simpl floatify_latlng_ref; rewrite Hl; simpl;
    try (by apply refines_Returns).
  - destruct (traverse_refines (floatify_latlng_ref fuel) floatify_latlng
                represents represents) with (xs' := xs) (xs := ls) (h := h)
      as (r & h1 & -> & Hsub & Hspec).
    + intros. by eapply represents_weaken.
    + intros. by eapply represents_weaken.
    + pose proof (height_elements xs) as Hh. simpl in Hfuel.
      rewrite Forall_forall in IH, Hh |- *. intros x Hx y h1 Hy.
      apply IH; [done | | done]. specialize (Hh x Hx). simpl in Hh. lia.
    + done.
    + fold (mapM floatify_latlng xs).
      destruct (mapM floatify_latlng xs) as [ys | e]; simpl.
      * destruct Hspec as (ls' & -> & Hls'). eexists _, _. split; [done | ].
        split; [trans h1; [done | apply alloc_extends] | ].
        eexists. split; [done | ]. eapply rep_list; [apply alloc_lookup | ].
        eapply Forall2_impl; [exact Hls' | ]. intros a a'.
        apply represents_weaken, alloc_extends.
      * subst r. by eexists _, _.
  - assert (its.*1 = keys items) as Hkeys.
    { clear -Hall. unfold keys.
      induction Hall as [ | [k1 l1] [k2 v2] ? ? [Hk _] _ IHall ]; csimpl in *;
        [done | congruence]. }
    rewrite Hkeys. destruct (is_latlng (keys items)) eqn:E.
    + pose proof (getitem_refines h its items "lat" Hall) as Hlat.
      pose proof (getitem_refines h its items "lng" Hall) as Hlng.
      destruct (getitem items "lat") as [a | e]; simpl;
        [destruct Hlat as (la & -> & Hla) | rewrite Hlat; apply refines_Raises].
      destruct (float_if_float_refines h la a Hla) as (r1 & h1 & -> & Hsub1 & Hspec1).
      destruct (float_if_float a) as [a' | e]; simpl;
        [destruct Hspec1 as (la' & -> & Hla') | subst r1; by eexists _, _].
      destruct (getitem items "lng") as [b | e]; simpl;
        [destruct Hlng as (lb & -> & Hlb) | rewrite Hlng; by eexists _, _].
      destruct (float_if_float_refines h1 lb b) as (r2 & h2 & -> & Hsub2 & Hspec2);
        [by eapply represents_weaken | ].
      destruct (float_if_float b) as [b' | e]; simpl;
        [destruct Hspec2 as (lb' & -> & Hlb')
        | subst r2; eexists _, _; split; [done | ]; split; [by trans h1 | done]].
      eexists _, _. split; [done | ].
      split; [trans h1; [done | ]; trans h2; [done | apply alloc_extends] | ].
      eexists. split; [done | ]. eapply rep_dict; [apply alloc_lookup | ].
      repeat constructor; simpl.
      * eapply represents_weaken; [ | exact Hla']. trans h2; [done | apply alloc_extends].
      * eapply represents_weaken; [apply alloc_extends | exact Hlb'].
    + destruct (traverse_refines
        (fun (kv : string * loc) (h' : gmap loc obj) =>
           match floatify_latlng_ref fuel kv.2 h' with
           | None => None
           | Some (Raises e, h1) => Some (Raises e, h1)
           | Some (Returns v, h1) => Some (Returns (kv.1, v), h1)
           end)
        (fun kv : string * value => v ← floatify_latlng kv.2; mret (kv.1, v))
        (fun h a b => a.1 = b.1 /\ represents h a.2 b.2)
        (fun h a b => a.1 = b.1 /\ represents h a.2 b.2))
        with (xs' := items) (xs := its) (h := h)
        as (r & h1 & Hrun & Hsub & Hspec).
      * intros ? ? ? ? ? [? ?]. split; [done | by eapply represents_weaken].
      * intros ? ? ? ? ? [? ?]. split; [done | by eapply represents_weaken].
      * pose proof (height_items items) as Hh. simpl in Hfuel.
        rewrite Forall_forall in IH, Hh |- *. intros [k x] Hx [k0 l0] h1 [Hk Hy].
        simpl in *. subst k0.
        specialize (IH _ Hx fuel l0 h1). specialize (Hh _ Hx). simpl in IH, Hh.
        destruct IH as (r & h2 & -> & Hsub & Hspec); [lia | done | ].
        destruct (floatify_latlng x) as [y | e]; simpl.
        -- destruct Hspec as (ly & -> & Hly). eexists _, _. split; [done | ].
           split; [done | ]. by eexists (_, _).
        -- subst r. by eexists _, _.
      * done.
      * rewrite Hrun.
        fold (mapM (fun kv : string * value => v ← floatify_latlng kv.2; mret (kv.1, v))
                items).
        destruct (mapM _ items) as [ys | e]; simpl.
        -- destruct Hspec as (its' & -> & Hits'). eexists _, _. split; [done | ].
           split; [trans h1; [done | apply alloc_extends] | ].
           eexists. split; [done | ]. eapply rep_dict; [apply alloc_lookup | ].
           eapply Forall2_impl; [exact Hits' | ]. intros a a' [? ?].
           split; [done | ]. eapply represents_weaken; [apply alloc_extends | done].
        -- subst r. by eexists _, _.
Qed.

(** C9, as amended. A run of [floatify_latlng] never changes an object
    that exists: on any store, it only adds objects.  On an input that is
    a finite tree it ends, with fuel one beyond the depth of the tree, the
    input is afterwards the tree that it was, and the run returns a
    reference to the value that the function on trees returns, or raises
    what it raises, which can only be the [TypeError] or [OverflowError]
    of [float] on the value of a coordinate leaf.  It returns exactly on
    the trees whose coordinate leaves hold strings, floats, and integers
    or booleans that [float] converts. *)
Theorem floatify_latlng_pure_and_terminating :
  (forall fuel l h r h',
     floatify_latlng_ref fuel l h = Some (r, h') ->
     forall l0 o, h !! l0 = Some o -> h' !! l0 = Some o) /\
  (forall v l h,
     represents h l v ->
     exists r h',
       floatify_latlng_ref (S (height v)) l h = Some (r, h') /\
       represents h' l v /\
       match floatify_latlng v with
       | Returns v' => exists l', r = Returns l' /\ represents h' l' v'
       | Raises e => r = Raises e /\ (e = TypeError \/ e = OverflowError)
       end) /\
  (forall v, returns (floatify_latlng v) <-> leaves floatable v = true).
Proof.
  split; [ | split].
  - intros fuel l h r h' Hrun l0 o Hl0.
    eapply lookup_weaken; [exact Hl0 | by eapply floatify_latlng_ref_extends].
  - intros v l h Hrep.
    destruct (floatify_latlng_refines v (S (height v)) l h) as (r & h' & Hrun & Hsub & Hspec);
      [lia | done | ].
    exists r, h'. split; [done | ]. split; [by eapply represents_weaken | ].
    destruct (floatify_latlng v) as [v' | e] eqn:E; [done | ].
    split; [done | by eapply floatify_latlng_Raises].
  - apply floatify_latlng_returns.
Qed.

End StoreFacts.

(** ** The client *)

Section ClientFacts.
Context `{RT : PyRuntime} (net : network).

Lemma only_requests_refl st : only_requests st st.
Proof. done. Qed.

Lemma only_requests_trans st1 st2 st3 :
  only_requests st1 st2 -> only_requests st2 st3 -> only_requests st1 st3.
Proof.
  unfold only_requests. intros (? & ? & ? & ?) (? & ? & ? & ?).
  repeat split; congruence.
Qed.

Lemma bind_only_requests {A B} (m : prog A) (k : A -> prog B) :
  (forall st r st', m st = (r, st') -> only_requests st st') ->
  (forall a st r st', k a st = (r, st') -> only_requests st st') ->
  forall st r st', bind m k st = (r, st') -> only_requests st st'.
Proof.
  intros Hm Hk st r st'. unfold bind.
  destruct (m st) as [[a | e] st1] eqn:E; apply Hm in E.
  - intros Hka%Hk. by eapply only_requests_trans.
  - by intros [= <- <-].
Qed.

Lemma lift_only_requests {A} (x : result A) st r st' :
  lift x st = (r, st') -> only_requests st st'.
Proof. by intros [= <- <-]. Qed.

Lemma session_get_only_requests u params headers st r st' :
  session_get u params headers st = (r, st') -> only_requests st st'.
Proof.
  destruct st as [self w]. unfold session_get.
  destruct (session self) as [[id | id] | ]; [ | case_bool_decide | ];
    by intros [= <- <-].
Qed.

Lemma _opencage_async_request_only_requests params st r st' :
  _opencage_async_request net params st = (r, st') -> only_requests st st'.
Proof.
  unfold _opencage_async_request, getUA. revert st r st'.
  apply bind_only_requests.
  - apply bind_only_requests.
    + apply session_get_only_requests.
    + intros _ [self w] r st' [= <- <-]. apply only_requests_refl.
  - intros ua. apply bind_only_requests.
    + apply session_get_only_requests.
    + intros _. apply bind_only_requests.
      * intros [self w] r st' [= <- <-]. apply only_requests_refl.
      * intros response. apply lift_only_requests.
Qed.

Lemma geocode_async_only_requests query kwargs st r st' :
  geocode_async net query kwargs st = (r, st') -> only_requests st st'.
Proof.
  destruct st as [self w]. unfold geocode_async.
  destruct (aiohttp_avaiable w); simpl; [ | by intros [= <- <-]].
  destruct (session self) as [[id | id] | ]; try by intros [= <- <-].
  revert r st'. generalize (self, w).
  apply bind_only_requests.
  - apply lift_only_requests.
  - intros request. apply bind_only_requests.
    + apply _opencage_async_request_only_requests.
    + intros response. apply lift_only_requests.
Qed.

Lemma reverse_geocode_async_only_requests lat lng kwargs st r st' :
  reverse_geocode_async net lat lng kwargs st = (r, st') -> only_requests st st'.
Proof.
  unfold reverse_geocode_async. revert st r st'.
  apply bind_only_requests.
  - apply lift_only_requests.
  - intros query. apply geocode_async_only_requests.
Qed.

(** Whatever the body of the block does with the two operations, it
    leaves the client and its session as they are. *)
Lemma run_only_requests b :
  forall st r st', run net b st = (r, st') -> only_requests st st'.
Proof.
  induction b as [ | e | query kwargs next IH | lat lng kwargs next IH ]; simpl.
  - by intros st r st' [= <- <-].
  - by intros st r st' [= <- <-].
  - apply bind_only_requests; [apply geocode_async_only_requests | exact IH].
  - apply bind_only_requests; [apply reverse_geocode_async_only_requests | exact IH].
Qed.

Lemma bind_Returns_eq {A B} (m : prog A) (k : A -> prog B) st a st1 :
  m st = (Returns a, st1) -> bind m k st = k a st1.
Proof. unfold bind. by intros ->. Qed.

Lemma bind_Raises_eq {A B} (m : prog A) (k : A -> prog B) st e st1 :
  m st = (Raises e, st1) -> bind m k st = (Raises e, st1).
Proof. unfold bind. by intros ->. Qed.

Lemma session_get_active u params headers self w id :
  session self = Some (ClientSession id) -> id ∉ closed w ->
  session_get u params headers (self, w) =
    (Returns id,
     (self, log_request {| req_session := id; req_url := u;
                           req_params := params; req_headers := headers |} w)).
Proof.
  intros Hs Hclosed. unfold session_get. rewrite Hs.
  by rewrite bool_decide_eq_false_2.
Qed.

(** On an open session the two requests of a call go out, whatever the
    reply to the second is. *)
Lemma _opencage_async_request_active params self w id ua :
  session self = Some (ClientSession id) -> id ∉ closed w ->
  user_agent net (ua_request id :: sent w) = Returns ua ->
  exists r,
    _opencage_async_request net params (self, w) =
      (r, (self, log_request (api_request id params ua)
                   (log_request (ua_request id) w))).
Proof.
  intros Hs Hclosed Hua. unfold _opencage_async_request, getUA.
  rewrite (bind_Returns_eq _ _ _ ua (self, log_request (ua_request id) w)).
  - rewrite (bind_Returns_eq _ _ _ id
               (self, log_request (api_request id params ua)
                        (log_request (ua_request id) w)))
      by (by apply session_get_active).
    unfold bind, lift. destruct (api net _) as [response | e]; by eexists.
  - rewrite (bind_Returns_eq _ _ _ id (self, log_request (ua_request id) w))
      by (by apply session_get_active).
    exact (f_equal (fun x => (x, (self, log_request (ua_request id) w))) Hua).
Qed.

Lemma geocode_async_inactive query kwargs self w :
  session self = None ->
  exists msg,
    geocode_async net query kwargs (self, w) = (Raises (AioHttpError msg), (self, w)).
Proof.
  intros Hs. unfold geocode_async. rewrite Hs.
  destruct (aiohttp_avaiable w); simpl; by eexists.
Qed.

(** The only exception of the query is that of [Decimal]. *)
Lemma reverse_query_Raises lat lng e :
  _query_for_reverse_geocoding lat lng = Raises e -> e = InvalidOperation.
Proof.
  unfold _query_for_reverse_geocoding, Decimal.
  destruct (decimal.Decimal (py_str lat)); simpl; [ | by intros [= <-]].
  destruct (decimal.Decimal (py_str lng)); simpl; [done | by intros [= <-]].
Qed.

(** C4, as amended. Outside a session scope (the session attribute is
    [None]: the scope was never entered or was left) [geocode_async]
    raises [AioHttpError] and touches nothing.  [reverse_geocode_async]
    makes its query first: on coordinates that make a query it raises
    [AioHttpError] likewise, and on coordinates that [Decimal] rejects it
    raises [InvalidOperation], not [AioHttpError]; in both cases nothing is
    touched.  A scope that was entered is left, whatever its body did and
    however it ended, with the session it opened closed and the attribute
    cleared, so that a call after it raises [AioHttpError] again. *)
Theorem session_scope_discipline (b : body) (self : OpenCageGeocodeUA) (w : world) :
  (session self = None ->
   forall query kwargs, exists msg,
     geocode_async net query kwargs (self, w) = (Raises (AioHttpError msg), (self, w))) /\
  (session self = None ->
   forall lat lng kwargs,
     match _query_for_reverse_geocoding lat lng with
     | Returns _ =>
         exists msg,
           reverse_geocode_async net lat lng kwargs (self, w) =
           (Raises (AioHttpError msg), (self, w))
     | Raises e =>
         e = InvalidOperation /\
         reverse_geocode_async net lat lng kwargs (self, w) =
         (Raises InvalidOperation, (self, w))
     end) /\
  (aiohttp_avaiable w = true ->
   exists self' w',
     async_with net b (self, w) =
       ((run net b (set_session (Some (ClientSession (opened w))) self, new_session w)).1,
        (self', w')) /\
     session self' = None /\
     opened w ∈ closed w' /\
     forall query kwargs, exists msg,
       geocode_async net query kwargs (self', w') =
       (Raises (AioHttpError msg), (self', w'))).
Proof.
  split; [ | split].
  - intros Hs query kwargs. by apply geocode_async_inactive.
  - intros Hs lat lng kwargs.
    destruct (_query_for_reverse_geocoding lat lng) as [query | e] eqn:Hq.
    + unfold reverse_geocode_async, bind, lift. rewrite Hq.
      by apply geocode_async_inactive.
    + apply reverse_query_Raises in Hq as Hq'. subst e. split; [done | ].
      unfold reverse_geocode_async, bind, lift. by rewrite Hq.
  - intros Hav. unfold async_with, __aenter__. rewrite Hav. simpl.
    destruct (run net b (set_session (Some (ClientSession (opened w))) self, new_session w))
      as [outcome [self2 w2]] eqn:Hrun.
    apply run_only_requests in Hrun as (Hself & _ & _ & _). simpl in *.
    unfold __aexit__. rewrite Hself. simpl.
    eexists _, _. split; [done | ]. split; [done | ]. split.
    + simpl. apply elem_of_union_l. by apply elem_of_singleton.
    + intros query kwargs. by apply geocode_async_inactive.
Qed.

(** C10. In [geocode_async] the session check comes first: without a
    session a query that is no string raises [AioHttpError], and a call
    that raises [InvalidInputError] was made with [aiohttp] available and
    an [aiohttp] session in the session attribute. *)
Theorem session_check_precedes_validation query kwargs self w :
  (is_str query = false -> session self = None ->
   exists msg,
     geocode_async net query kwargs (self, w) = (Raises (AioHttpError msg), (self, w))) /\
  (forall bad st',
     geocode_async net query kwargs (self, w) = (Raises (InvalidInputError bad), st') ->
     aiohttp_avaiable w = true /\ exists id, session self = Some (ClientSession id)).
Proof.
  split.
  - intros _ Hs. by apply geocode_async_inactive.
  - intros bad st'. unfold geocode_async.
    destruct (aiohttp_avaiable w); simpl; [ | done].
    destruct (session self) as [[id | id] | ]; try done. eauto.
Qed.

(** C8. With a session, a query that is no string raises
    [InvalidInputError] carrying the query and leaves the client and the
    world as they were: no request was issued.  For a string the payload
    is the mapping of q to the query and key to the API key, overridden by
    the parameters of the caller, and it is what the request to the API
    carries. *)
Theorem geocode_validates_and_merges self w id kwargs :
  (forall query,
     aiohttp_avaiable w = true -> session self = Some (ClientSession id) ->
     is_str query = false ->
     geocode_async net query kwargs (self, w) =
       (Raises (InvalidInputError query), (self, w))) /\
  (forall q,
     _parse_request self (VStr q) kwargs = Returns (payload self (VStr q) kwargs) /\
     (forall k v, kwargs !! k = Some v -> payload self (VStr q) kwargs !! k = Some v) /\
     (kwargs !! "q" = None -> payload self (VStr q) kwargs !! "q" = Some (VStr q)) /\
     (kwargs !! "key" = None -> payload self (VStr q) kwargs !! "key" = Some (key self)) /\
     (forall k, k <> "q" -> k <> "key" ->
                payload self (VStr q) kwargs !! k = kwargs !! k)) /\
  (forall q ua,
     aiohttp_avaiable w = true -> session self = Some (ClientSession id) ->
     id ∉ closed w ->
     user_agent net (ua_request id :: sent w) = Returns ua ->
     exists r w',
       geocode_async net (VStr q) kwargs (self, w) = (r, (self, w')) /\
       sent w' = api_request id (payload self (VStr q) kwargs) ua :: ua_request id :: sent w).
Proof.
  split; [ | split].
  - intros query Hav Hs Hq. unfold geocode_async, _parse_request, bind, lift.
    by rewrite Hav, Hs, Hq.
  - intros q. unfold payload. split; [done | ]. repeat split.
    + intros k v Hk. by apply lookup_union_Some_l.
    + intros Hk. rewrite lookup_union_r by done.
      rewrite lookup_insert_ne by done. apply lookup_singleton_eq.
    + intros Hk. rewrite lookup_union_r by done. apply lookup_insert_eq.
    + intros k Hq Hkey. destruct (kwargs !! k) as [v | ] eqn:Hk.
      * by apply lookup_union_Some_l.
      * rewrite lookup_union_r by done.
        rewrite lookup_insert_ne by done. by apply lookup_singleton_ne.
  - intros q ua Hav Hs Hclosed Hua.
    destruct (_opencage_async_request_active (payload self (VStr q) kwargs)
                self w id ua Hs Hclosed Hua) as [r1 Hr1].
    unfold geocode_async. rewrite Hav, Hs. cbn [negb].
    rewrite (bind_Returns_eq _ _ _ (payload self (VStr q) kwargs) (self, w)) by done.
    destruct r1 as [response | e].
    + rewrite (bind_Returns_eq _ _ _ _ _ Hr1). by eexists _, _.
    + rewrite (bind_Raises_eq _ _ _ _ _ Hr1). by eexists _, _.
Qed.

End ClientFacts.

(** ** The classification of a response *)

Section ResponseFacts.
Context `{RT : PyRuntime}.
Local Open Scope Z_scope.

(** The table of the classification.  For a body that parses to a JSON
    object, in this order: status 401 is [NotAuthorizedError]; 403 is [ForbiddenError];
    402 and 429 are [RateLimitExceededError] with the [datetime] of the
    field reset of the field rate and the integer of its field limit, when
    the body has them and [utcfromtimestamp] and [int] accept them; 500 is
    [UnknownError]; a body without the key results is [UnknownError]; any
    other response returns the body.  For a body that does not parse: 200,
    401, 403 and 500 are [UnknownError], [NotAuthorizedError],
    [ForbiddenError] and [UnknownError]. *)
Theorem classify_response_table (st : Z) (items : list (string * value)) :
  let parsed := {| status := st; json := Returns (VDict items) |} in
  let unparsed := {| status := st; json := Raises ValueError |} in
  (st = 200 ->
   classify_response unparsed = Raises (UnknownError "Non-JSON result from server")) /\
  (st = 401 ->
   classify_response parsed = Raises NotAuthorizedError /\
   classify_response unparsed = Raises NotAuthorizedError) /\
  (st = 403 ->
   classify_response parsed = Raises ForbiddenError /\
   classify_response unparsed = Raises ForbiddenError) /\
  (st = 402 \/ st = 429 ->
   forall rate reset limit reset_time reset_to,
     getitem items "rate" = Returns rate ->
     py_getitem rate "reset" = Returns reset ->
     utcfromtimestamp reset = Returns reset_time ->
     py_getitem rate "limit" = Returns limit ->
     py_int limit = Returns reset_to ->
     classify_response parsed = Raises (RateLimitExceededError reset_time reset_to)) /\
  (st = 500 ->
   classify_response parsed = Raises (UnknownError "500 status code from API") /\
   classify_response unparsed = Raises (UnknownError "500 status code from API")) /\
  (st <> 401 -> st <> 403 -> st <> 402 -> st <> 429 -> st <> 500 ->
   ("results" ∉ keys items ->
    classify_response parsed =
      Raises (UnknownError "JSON from API doesn't have a 'results' key")) /\
   ("results" ∈ keys items -> classify_response parsed = Returns (VDict items))).
Proof.
  intros parsed unparsed. unfold classify_response, parsed, unparsed. simpl.
  split; [ | split; [ | split; [ | split; [ | split ] ] ] ].
  - by intros ->.
  - intros ->. by split.
  - intros ->. by split.
  - intros Hst rate reset limit reset_time reset_to Hrate Hreset Htime Hlimit Hint.
    assert ((st =? 402) || (st =? 429) = true) as ->
      by (destruct Hst as [-> | ->]; done).
    assert ((st =? 401) = false) as -> by (destruct Hst as [-> | ->]; done).
    assert ((st =? 403) = false) as -> by (destruct Hst as [-> | ->]; done).
    rewrite Hrate. simpl. rewrite Hreset. simpl. rewrite Htime. simpl.
    rewrite Hlimit. simpl. by rewrite Hint.
  - intros ->. by split.
  - intros H401 H403 H402 H429 H500.
    rewrite !(proj2 (Z.eqb_neq _ _)) by done. simpl. split; intros Hres.
    + by rewrite bool_decide_eq_false_2.
    + by rewrite bool_decide_eq_true_2.
Qed.

(** A reply that the classification accepts. *)
Lemma classify_response_accepts st items :
  st <> 401 -> st <> 403 -> st <> 402 -> st <> 429 -> st <> 500 ->
  "results" ∈ keys items ->
  classify_response {| status := st; json := Returns (VDict items) |} =
  Returns (VDict items).
Proof.
  intros H401 H403 H402 H429 H500 Hres. unfold classify_response. simpl.
  rewrite !(proj2 (Z.eqb_neq _ _)) by done. simpl.
  by rewrite bool_decide_eq_true_2.
Qed.

(** C2. The body that is no JSON.  [response.json()] raises a
    [ValueError], which is caught; it is raised again, as [UnknownError],
    for the status 200 only.  The statuses 401, 403 and 500 are told apart
    without the body and give their errors.  For every other status, the
    rate-limit statuses 402 and 429 among them, the classification reads
    the variable [response_json], which was never bound: what is raised
    is [UnboundLocalError], an error that belongs to no kind of the
    table. *)
Theorem classify_response_unparsed_body (st : Z) :
  let unparsed := {| status := st; json := Raises ValueError |} in
  (st = 200 ->
   classify_response unparsed = Raises (UnknownError "Non-JSON result from server")) /\
  (st = 401 -> classify_response unparsed = Raises NotAuthorizedError) /\
  (st = 403 -> classify_response unparsed = Raises ForbiddenError) /\
  (st = 500 ->
   classify_response unparsed = Raises (UnknownError "500 status code from API")) /\
  (st <> 200 -> st <> 401 -> st <> 403 -> st <> 500 ->
   classify_response unparsed = Raises (UnboundLocalError "response_json")).
Proof.
  intros unparsed. unfold classify_response, unparsed. simpl.
  split; [ | split; [ | split; [ | split ] ] ]; try (by intros ->).
  intros H200 H401 H403 H500.
  apply Z.eqb_neq in H200, H401, H403, H500.
  rewrite H200, H401, H403, H500. simpl.
  by destruct ((st =? 402) || (st =? 429)).
Qed.

End ResponseFacts.

(** ** Numerals and [Decimal] *)

Section DecimalFacts.
Import decimal.
Local Open Scope list_scope.



Lemma span_fst_forallb p s : forallb p (span p s).1 = true.
Proof.
  induction s as [ | c s IH ]; simpl; [done | ].
  destruct (p c) eqn:E; simpl; [by rewrite E | done].
Qed.



















Lemma int_of_digits_acc ys :
  forall acc,
    foldl (fun n c => 10 * n + (Z.of_N (code c) - 48))%Z acc ys =
    (acc * 10 ^ Z.of_nat (length ys) + int_of_digits ys)%Z.
Proof.
  unfold int_of_digits. induction ys as [ | y ys IH ]; intros acc; simpl foldl.
  - simpl. lia.
  - rewrite IH, (IH (10 * 0 + _)%Z).
    replace (Z.of_nat (length (y :: ys))) with (Z.succ (Z.of_nat (length ys)))
      by (simpl; lia).
    rewrite Z.pow_succ_r by lia. lia.
Qed.

Lemma int_of_digits_app xs ys :
  int_of_digits (xs ++ ys) =
  (int_of_digits xs * 10 ^ Z.of_nat (length ys) + int_of_digits ys)%Z.
Proof.
  unfold int_of_digits at 1. rewrite foldl_app. apply int_of_digits_acc.
Qed.

Lemma int_of_digits_zero_cons s : int_of_digits ("0"%char :: s) = int_of_digits s.
Proof. done. Qed.

Lemma int_of_digits_zeros k : int_of_digits (replicate k "0"%char) = 0%Z.
Proof.
  induction k as [ | k IH ]; [done | ].
  change (replicate (S k) "0"%char) with ("0"%char :: replicate k "0"%char).
  by rewrite int_of_digits_zero_cons.
Qed.

(** The two parts of [place] hold the coefficient, shifted to the left
    when the point lies beyond its right end; and the part after the
    point has the digits that lie behind the point, and no more. *)
Lemma place_value int dotplace :
  int_of_digits ((place int dotplace).1 ++ (place int dotplace).2) =
    (int_of_digits int * 10 ^ Z.max (dotplace - Z.of_nat (length int)) 0)%Z /\
  Z.of_nat (length (place int dotplace).2) =
    Z.max (Z.of_nat (length int) - dotplace) 0.
Proof.
  unfold place.
  destruct (Z.ltb_spec dotplace 0); [ | destruct (Z.ltb_spec (Z.of_nat (length int)) dotplace)];
    cbn [fst snd].
  - rewrite length_app, length_replicate.
    change (["0"%char] ++ ?x) with ("0"%char :: x).
    rewrite int_of_digits_zero_cons, int_of_digits_app, int_of_digits_zeros.
    rewrite Z.max_r by lia. split; lia.
  - rewrite app_nil_r, int_of_digits_app, int_of_digits_zeros, length_replicate.
    rewrite Z.max_l by lia. split; [ | simpl; lia].
    replace (Z.of_nat (Z.to_nat dotplace - length int))
      with (dotplace - Z.of_nat (length int))%Z by lia.
    lia.
  - rewrite Z.max_r by lia. rewrite length_drop. split; [ | lia].
    destruct (take (Z.to_nat dotplace) int) as [ | x xs ] eqn:E.
    + assert (drop (Z.to_nat dotplace) int = int) as ->.
      { rewrite <- (take_drop (Z.to_nat dotplace) int) at 2. by rewrite E. }
      change (["0"%char] ++ int) with ("0"%char :: int).
      rewrite int_of_digits_zero_cons. lia.
    + rewrite <- E, take_drop. lia.
Qed.

(** What [format_f] writes is the number that it is given. *)
Lemma format_f_writes sg I E :
  exists a b, format_f (Finite sg I E) = to_str (numeral sg a b) /\
              writes sg a b (Finite sg I E).
Proof.
  unfold format_f. case_match eqn:Hz.
  - apply andb_true_iff in Hz as [->%bool_decide_eq_true HE%Z.ltb_lt].
    exists ["0"%char], []. repeat split. simpl. lia.
  - eexists _, _. split; [reflexivity | ].
    destruct (place_value I (E + Z.of_nat (length I))) as [Hv Hl].
    split; [done | ]. split.
    + rewrite Hv. do 2 f_equal. lia.
    + rewrite Hl. f_equal. lia.
Qed.

End DecimalFacts.

(** ** The query of a reverse geocoding *)

Section ReverseFacts.
Context `{RT : PyRuntime} (net : network).



End ReverseFacts.

(** ** More on the normaliser *)

Section NormaliserFacts.
Context `{RT : PyRuntime}.

Lemma mapM_id {A} (f : A -> result A) xs :
  Forall (fun x => f x = Returns x) xs -> mapM f xs = Returns xs.
Proof. intros H. apply mapM_Returns. by apply Forall_Forall2_diag. Qed.

Lemma forallb_Forall_true {A} (f : A -> bool) xs :
  forallb f xs = true <-> Forall (fun x => f x = true) xs.
Proof.
  induction xs as [ | x xs IH ]; simpl.
  - split; [constructor | done].
  - rewrite andb_true_iff, Forall_cons, IH. done.
Qed.

(** X1. A tree without a coordinate leaf comes back as it is. *)
Theorem floatify_latlng_without_leaf v :
  no_leaf v = true -> floatify_latlng v = Returns v.
Proof.
  unfold no_leaf. induction v as [ | | | | | xs IH | items IH ] using value_rect';
    try done; intros H.
  - rewrite floatify_latlng_list. simpl in H. apply forallb_Forall_true in H.
    rewrite mapM_id; [done | ].
    eapply Forall_impl; [exact (proj2 (Forall_and _ _) (conj IH H)) | ].
    intros x [Hx1 Hx2]. by apply Hx1.
  - simpl in H. destruct (is_latlng (keys items)) eqn:E.
    + apply latlng_items in E as (a & b & [-> | ->] & _); done.
    + rewrite floatify_latlng_dict by done. apply forallb_Forall_true in H.
      rewrite mapM_id; [done | ].
      eapply Forall_impl; [exact (proj2 (Forall_and _ _) (conj IH H)) | ].
      intros [k x] [Hx1 Hx2]. simpl in *. by rewrite Hx1.
Qed.

Lemma float_if_float_settled a a' :
  float_if_float a = Returns a' -> settled a' = true.
Proof.
  intros [[-> H] | [x [-> _]]]%float_if_float_Returns; [ | done].
  destruct a; simpl in H; try done.
  - by destruct (float_of_int _).
  - by destruct (float_of_int _).
  - simpl. by destruct (float_of_str s).
Qed.

(** X2. In what [floatify_latlng] returns, the two values of every coordinate
    leaf are floats or strings that are no float literals. *)
Theorem floatify_latlng_settles_leaves v w :
  floatify_latlng v = Returns w -> leaves settled w = true.
Proof.
  revert w. induction v as [ | | | | | xs IH | items IH ] using value_rect';
    intros w H; try (by injection H as <-).
  - apply floatify_latlng_list_Returns in H as (xs' & -> & H).
    simpl. apply forallb_Forall_true.
    induction H as [ | x x' xs xs' Hx _ IH' ]; [constructor | ].
    apply Forall_cons in IH as [IHx IHxs]. constructor; [exact (IHx _ Hx) | exact (IH' IHxs)].
  - destruct (is_latlng (keys items)) eqn:E.
    + apply floatify_latlng_leaf_Returns in H as (a & b & a' & b' & _ & _ & Ha & Hb & ->);
        [ | done].
      simpl. change (is_latlng ["lat"; "lng"]) with true. simpl.
      by rewrite (float_if_float_settled _ _ Ha), (float_if_float_settled _ _ Hb).
    + apply floatify_latlng_dict_Returns in H as (items' & -> & H); [ | done].
      simpl. rewrite (keys_Forall2 _ _ _ H), E.
      apply forallb_Forall_true. clear E.
      induction H as [ | [k x] [k' x'] its its' [_ Hx] _ IH' ]; [constructor | ].
      apply Forall_cons in IH as [IHx IHxs]. constructor; [exact (IHx _ Hx) | exact (IH' IHxs)].
Qed.

(** X3. The coordinate leaves are the mappings of two entries with the keys lat
    and lng, in either order. *)
Theorem coordinate_leaf_entries items :
  is_latlng (keys items) = true <->
  exists a b, items = [("lat", a); ("lng", b)] \/ items = [("lng", b); ("lat", a)].
Proof.
  split.
  - intros (a & b & H & _)%latlng_items. by exists a, b.
  - by intros (a & b & [-> | ->]).
Qed.

End NormaliserFacts.

(** ** The result on the object store shares no list and no mapping with the input *)

Section SharingFacts.
Context `{RT : PyRuntime}.

Lemma detached_weaken n :
  forall h0 h h1 h2 l,
    h0 ⊆ h -> h1 ⊆ h2 -> detached n h h1 l -> detached n h0 h2 l.
Proof.
  induction n as [ | n IH ]; intros h0 h h1 h2 l H0 H12; simpl;
    (destruct (h1 !! l) as [o | ] eqn:E; [ | done]);
    rewrite (lookup_weaken _ _ _ _ E H12);
    destruct o; try done; intros [Hn HF];
    (split; [by eapply lookup_weaken_None | ]); try done.
  - eapply Forall_impl; [exact HF | ]. intros x Hx. by eapply IH.
  - eapply Forall_impl; [exact HF | ]. intros x Hx. by eapply IH.
Qed.

Lemma float_if_float_ref_scalar a h l h' n h0 :
  float_if_float_ref a h = Some (Returns l, h') -> detached n h0 h' l.
Proof.
  unfold float_if_float_ref. destruct (h !! a) as [o | ] eqn:E; [ | done]. simpl.
  assert (forall x, detached n h0 (alloc (OFloat x) h).2 (alloc (OFloat x) h).1) as Hnew.
  { intros x. destruct n; simpl; by rewrite lookup_insert_eq. }
  assert (forall o', h !! a = Some o' ->
            match o' with OList _ | ODict _ => False | _ => True end ->
            detached n h0 h a) as Hold.
  { intros o' Ho' Hs. destruct n; simpl; rewrite Ho'; by destruct o'. }
  destruct o; simpl; try done.
  - destruct (float_of_int _); simpl; [ | done]. intros [= <- <-]. apply Hnew.
  - destruct (float_of_int _); simpl; [ | done]. intros [= <- <-]. apply Hnew.
  - intros [= <- <-]. by eapply Hold.
  - destruct (float_of_str _); simpl; intros [= <- <-]; [apply Hnew | by eapply Hold].
Qed.

Lemma traverse_detached {A B} (f : A -> on_store B)
    (D : gmap loc obj -> gmap loc obj -> B -> Prop) :
  (forall h0 h h1 h2 b, h0 ⊆ h -> h1 ⊆ h2 -> D h h1 b -> D h0 h2 b) ->
  (forall x h y h', f x h = Some (Returns y, h') -> h ⊆ h' /\ D h h' y) ->
  forall xs h ys h',
    traverse f xs h = Some (Returns ys, h') -> h ⊆ h' /\ Forall (D h h') ys.
Proof.
  intros HD Hf. induction xs as [ | x xs IH ]; intros h ys h'; simpl.
  - intros [= <- <-]. split; [reflexivity | constructor].
  - destruct (f x h) as [[[y | e] h1] | ] eqn:Ex; try done.
    destruct (traverse f xs h1) as [[[ys' | e] h2] | ] eqn:Exs; try done.
    intros [= <- <-].
    destruct (Hf _ _ _ _ Ex) as [H1 Hy]. destruct (IH _ _ _ Exs) as [H2 Hys].
    split; [by etrans | ]. constructor.
    + eapply HD; [reflexivity | exact H2 | exact Hy].
    + eapply Forall_impl; [exact Hys | ]. intros b Hb.
      eapply HD; [exact H1 | reflexivity | exact Hb].
Qed.

Lemma alloc_fresh (h h0 : gmap loc obj) : h0 ⊆ h -> h0 !! fresh (dom h) = None.
Proof.
  intros H. eapply lookup_weaken_None; [ | exact H].
  apply not_elem_of_dom. apply is_fresh.
Qed.

Lemma floatify_latlng_ref_detached fuel :
  forall l h l' h',
    floatify_latlng_ref fuel l h = Some (Returns l', h') -> detached fuel h h' l'.
Proof.
  induction fuel as [ | fuel IH ]; intros l h l' h'; [done | ].
  cbn [floatify_latlng_ref].
  destruct (h !! l) as [o | ] eqn:El; [ | done]. cbn [mbind option_bind].
  destruct o as [ | b | n | x | s | xs | items ];
    try (intros [= <- <-]; simpl; by rewrite El).
  - destruct (traverse (floatify_latlng_ref fuel) xs h) as [[[xs' | e] h1] | ] eqn:Et;
      try done.
    intros [= <- <-].
    destruct (traverse_detached (floatify_latlng_ref fuel) (detached fuel)
                (detached_weaken fuel)
                (fun x h y h' H => conj (floatify_latlng_ref_extends fuel _ _ _ _ H)
                                        (IH _ _ _ _ H))
                _ _ _ _ Et) as [Hsub HF].
    simpl. rewrite lookup_insert_eq. split; [by apply alloc_fresh | ].
    eapply Forall_impl; [exact HF | ]. intros y Hy.
    eapply detached_weaken; [reflexivity | apply alloc_extends | exact Hy].
  - destruct (is_latlng items.*1).
    + destruct (getitem_ref items "lat") as [a | e]; [ | done].
      destruct (float_if_float_ref a h) as [[[lat | e] h1] | ] eqn:Ea; try done.
      destruct (getitem_ref items "lng") as [b | e]; [ | done].
      destruct (float_if_float_ref b h1) as [[[lng | e] h2] | ] eqn:Eb; try done.
      intros [= <- <-].
      pose proof (float_if_float_ref_extends _ _ _ _ Ea) as H1.
      pose proof (float_if_float_ref_extends _ _ _ _ Eb) as H2.
      simpl. rewrite lookup_insert_eq. split; [apply alloc_fresh; by etrans | ].
      repeat constructor; simpl.
      * eapply (detached_weaken _ h h h1); [reflexivity | | ].
        { etrans; [exact H2 | apply alloc_extends]. }
        exact (float_if_float_ref_scalar _ _ _ _ _ _ Ea).
      * eapply (detached_weaken _ h h h2); [reflexivity | apply alloc_extends | ].
        exact (float_if_float_ref_scalar _ _ _ _ _ _ Eb).
    + match goal with
      | |- context [traverse ?f items h] =>
          destruct (traverse f items h) as [[[items' | e] h1] | ] eqn:Et; try done;
          destruct (traverse_detached f (fun h h' kv => detached fuel h h' kv.2)
                      (fun h0 h h1 h2 b => detached_weaken fuel h0 h h1 h2 b.2)) with
            (xs := items) (h := h) (ys := items') (h' := h1) as [Hsub HF]; [ | done | ]
      end.
      * intros [k x] h2 [k' y] h3. simpl.
        destruct (floatify_latlng_ref fuel x h2) as [[[v | e] h4] | ] eqn:Ex; try done.
        intros [= <- <- <-]. split.
        -- exact (floatify_latlng_ref_extends fuel _ _ _ _ Ex).
        -- exact (IH _ _ _ _ Ex).
      * intros [= <- <-].
        simpl. rewrite lookup_insert_eq. split; [by apply alloc_fresh | ].
        eapply Forall_impl; [exact HF | ]. intros y Hy. simpl in Hy.
        eapply detached_weaken; [reflexivity | apply alloc_extends | exact Hy].
Qed.

(** X4. What [floatify_latlng] returns is detached from its input: every
    list and every mapping of the result, at every depth, is an object
    made by the call, none is an object that was there before.  Who
    updates the result in place cannot change the input.  Only a value
    that is neither a list nor a mapping is returned as the object it is,
    and then nothing is made at all. *)
Theorem floatify_latlng_result_is_detached fuel l h l' h' :
  floatify_latlng_ref fuel l h = Some (Returns l', h') ->
  detached fuel h h' l' /\
  (forall o, h !! l = Some o ->
     match o with
     | OList _ | ODict _ => h !! l' = None
     | _ => l' = l /\ h' = h
     end).
Proof.
  intros H. pose proof (floatify_latlng_ref_detached fuel _ _ _ _ H) as HD.
  split; [done | ]. intros o Ho.
  destruct fuel as [ | fuel ]; [done | ].
  pose proof H as H'. cbn [floatify_latlng_ref] in H'. rewrite Ho in H'.
  cbn [mbind option_bind] in H'.
  destruct o as [ | b | n | x | s | xs | items ]; try (by injection H' as <- <-).
  - destruct (traverse _ xs h) as [[[xs' | e] h1] | ]; try done.
    injection H' as <- <-. simpl in HD. rewrite lookup_insert_eq in HD. by destruct HD.
  - destruct (is_latlng items.*1).
    + destruct (getitem_ref items "lat") as [a | e]; [ | done].
      destruct (float_if_float_ref a h) as [[[lat | e] h1] | ]; try done.
      destruct (getitem_ref items "lng") as [b | e]; [ | done].
      destruct (float_if_float_ref b h1) as [[[lng | e] h2] | ]; try done.
      injection H' as <- <-. simpl in HD. rewrite lookup_insert_eq in HD.
      by destruct HD.
    + destruct (traverse _ items h) as [[[items' | e] h1] | ]; try done.
      injection H' as <- <-. simpl in HD. rewrite lookup_insert_eq in HD.
      by destruct HD.
Qed.

End SharingFacts.

(** ** More on a call: its outcome, its requests, and when it returns *)

Section CallFacts.
Context `{RT : PyRuntime} (net : network).

Lemma session_get_closed u params headers self w id :
  session self = Some (ClientSession id) -> id ∈ closed w ->
  session_get u params headers (self, w) =
    (Raises (RuntimeError "Session is closed"), (self, w)).
Proof.
  intros Hs Hclosed. unfold session_get. rewrite Hs.
  by rewrite bool_decide_eq_true_2.
Qed.

Lemma getUA_active self w id :
  session self = Some (ClientSession id) -> id ∉ closed w ->
  getUA net (self, w) =
    (user_agent net (ua_request id :: sent w), (self, log_request (ua_request id) w)).
Proof.
  intros Hs Hclosed. unfold getUA.
  by rewrite (bind_Returns_eq _ _ _ id (self, log_request (ua_request id) w))
    by (by apply session_get_active).
Qed.

(** The request to the API on an open session, after the user agent was
    found: the reply is classified, and both requests are in the log. *)
Lemma _opencage_async_request_outcome params self w id ua :
  session self = Some (ClientSession id) -> id ∉ closed w ->
  user_agent net (ua_request id :: sent w) = Returns ua ->
  _opencage_async_request net params (self, w) =
    (api net (api_request id params ua :: ua_request id :: sent w) ≫= classify_response,
     (self, log_request (api_request id params ua) (log_request (ua_request id) w))).
Proof.
  intros Hs Hclosed Hua. unfold _opencage_async_request.
  rewrite (bind_Returns_eq _ _ _ ua (self, log_request (ua_request id) w))
    by (by rewrite (getUA_active _ _ id), Hua).
  rewrite (bind_Returns_eq _ _ _ id
             (self, log_request (api_request id params ua)
                      (log_request (ua_request id) w)))
    by (by apply session_get_active).
  unfold bind, lift. simpl. by destruct (api net _).
Qed.

Lemma _opencage_async_request_no_user_agent params self w id e :
  session self = Some (ClientSession id) -> id ∉ closed w ->
  user_agent net (ua_request id :: sent w) = Raises e ->
  _opencage_async_request net params (self, w) =
    (Raises e, (self, log_request (ua_request id) w)).
Proof.
  intros Hs Hclosed Hua. unfold _opencage_async_request.
  by rewrite (bind_Raises_eq _ _ _ e (self, log_request (ua_request id) w))
    by (by rewrite (getUA_active _ _ id), Hua).
Qed.

Lemma _opencage_async_request_closed params self w id :
  session self = Some (ClientSession id) -> id ∈ closed w ->
  _opencage_async_request net params (self, w) =
    (Raises (RuntimeError "Session is closed"), (self, w)).
Proof.
  intros Hs Hclosed.
  assert (getUA net (self, w) =
            (Raises (RuntimeError "Session is closed"), (self, w))) as H.
  { unfold getUA. apply bind_Raises_eq. by apply (session_get_closed _ _ _ _ _ id). }
  unfold _opencage_async_request. by apply bind_Raises_eq.
Qed.

Lemma geocode_async_active q kwargs self w id :
  aiohttp_avaiable w = true -> session self = Some (ClientSession id) ->
  geocode_async net (VStr q) kwargs (self, w) =
    bind (_opencage_async_request net (payload self (VStr q) kwargs))
      (fun response => lift (py_getitem response "results" ≫= floatify_latlng))
      (self, w).
Proof. intros Ha Hs. unfold geocode_async. by rewrite Ha, Hs. Qed.

(** X8. The user agent is looked up first.  When the look-up fails, the
    call fails in the same way, and the request to the API, which would
    carry the key and the query, is never made. *)
Theorem geocode_async_user_agent_failure q kwargs self w id e :
  aiohttp_avaiable w = true -> session self = Some (ClientSession id) ->
  id ∉ closed w ->
  user_agent net (ua_request id :: sent w) = Raises e ->
  geocode_async net (VStr q) kwargs (self, w) =
    (Raises e, (self, log_request (ua_request id) w)).
Proof.
  intros Ha Hs Hclosed Hua. rewrite (geocode_async_active _ _ _ _ id) by done.
  by rewrite (bind_Raises_eq _ _ _ e (self, log_request (ua_request id) w))
    by (by apply _opencage_async_request_no_user_agent).
Qed.

(** X6. On an open session, with a user agent, the outcome of a call is
    the reply of the API put through the classification of the response,
    the subscript results and [floatify_latlng], in this order; the first
    of them that raises decides.  So a reply with a status that is no error
    and a JSON object with the member results gives the normalised
    results. *)
Theorem geocode_async_outcome q kwargs self w id ua :
  aiohttp_avaiable w = true -> session self = Some (ClientSession id) ->
  id ∉ closed w ->
  user_agent net (ua_request id :: sent w) = Returns ua ->
  let sent' := api_request id (payload self (VStr q) kwargs) ua :: ua_request id :: sent w in
  (exists w',
     sent w' = sent' /\
     geocode_async net (VStr q) kwargs (self, w) =
       (response ← api net sent';
        response_json ← classify_response response;
        results ← py_getitem response_json "results";
        floatify_latlng results,
        (self, w'))) /\
  (forall st items results,
     api net sent' = Returns {| status := st; json := Returns (VDict items) |} ->
     st <> 401%Z -> st <> 403%Z -> st <> 402%Z -> st <> 429%Z -> st <> 500%Z ->
     getitem items "results" = Returns results ->
     (geocode_async net (VStr q) kwargs (self, w)).1 = floatify_latlng results).
Proof.
  intros Ha Hs Hclosed Hua sent'.
  assert (geocode_async net (VStr q) kwargs (self, w) =
       (response ← api net sent';
        response_json ← classify_response response;
        results ← py_getitem response_json "results";
        floatify_latlng results,
        (self, log_request (api_request id (payload self (VStr q) kwargs) ua)
                 (log_request (ua_request id) w)))) as Heq.
  { rewrite (geocode_async_active _ _ _ _ id) by done.
    unfold bind. rewrite (_opencage_async_request_outcome _ _ _ id ua) by done.
    fold sent'. destruct (api net sent') as [response | e0]; [ | done].
    cbn [mbind result_bind]. by destruct (classify_response response). }
  split; [eexists; split; [ | exact Heq]; reflexivity | ].
  intros st items results Hapi H1 H2 H3 H4 H5 Hres.
  rewrite Heq, Hapi. cbn [fst mbind result_bind].
  rewrite classify_response_accepts;
    [by cbn [mbind result_bind py_getitem]; rewrite Hres | done.. | ].
  clear -Hres. induction items as [ | [k x] items IH ]; [done | ].
  simpl in *. destruct (decide (k = "results")) as [-> | ].
  - apply list_elem_of_here.
  - apply list_elem_of_further. by apply IH.
Qed.


(** X9. Whatever a call does, it leaves the client as it was and neither
    opens nor closes a session.  It issues no request, or the request for
    the user agent alone, or this one and then the request to the API with
    the payload and the user agent that was found: never more than two,
    both on the session of the client. *)
Theorem geocode_async_frame query kwargs self w r self' w' :
  geocode_async net query kwargs (self, w) = (r, (self', w')) ->
  self' = self /\
  aiohttp_avaiable w' = aiohttp_avaiable w /\
  opened w' = opened w /\
  closed w' = closed w /\
  (sent w' = sent w \/
   exists id,
     session self = Some (ClientSession id) /\
     (sent w' = ua_request id :: sent w \/
      exists ua,
        user_agent net (ua_request id :: sent w) = Returns ua /\
        sent w' = api_request id (payload self query kwargs) ua ::
                  ua_request id :: sent w)).
Proof.
  intros H.
  destruct (geocode_async_only_requests net _ _ _ _ _ H) as (H1 & H2 & H3 & H4).
  repeat (split; [done | ]). revert H. unfold geocode_async.
  destruct (aiohttp_avaiable w) eqn:Ha; simpl; [ | intros [= _ _ <-]; by left].
  destruct (session self) as [[id | id] | ] eqn:Hs; try (intros [= _ _ <-]; by left).
  destruct query as [ | | | | q | | ]; try (intros [= _ _ <-]; by left).
  intros H.
  assert (bind (_opencage_async_request net (payload self (VStr q) kwargs))
            (fun response => lift (py_getitem response "results" ≫= floatify_latlng))
            (self, w) = (r, (self', w'))) as H' by exact H.
  clear H. revert H'. unfold bind.
  destruct (decide (id ∈ closed w)) as [Hc | Hc].
  { rewrite (_opencage_async_request_closed _ _ _ id) by done.
    intros [= _ _ <-]. by left. }
  destruct (user_agent net (ua_request id :: sent w)) as [ua | e] eqn:Hua.
  - rewrite (_opencage_async_request_outcome _ _ _ id ua) by done.
    intros H. right. exists id. split; [done | ]. right. exists ua. split; [done | ].
    destruct (_ ≫= classify_response); by injection H as _ _ <-.
  - rewrite (_opencage_async_request_no_user_agent _ _ _ id e) by done.
    intros [= _ _ <-]. right. exists id. split; [done | by left].
Qed.

(** X5. A reply is accepted only when its body was parsed, has results in
    it, and its status is none of 401, 403, 402, 429 and 500; what is
    returned is the parsed body. *)
Theorem classify_response_success response response_json :
  classify_response response = Returns response_json ->
  json response = Returns response_json /\
  py_contains "results" response_json = Returns true /\
  status response <> 401%Z /\ status response <> 403%Z /\
  status response <> 402%Z /\ status response <> 429%Z /\
  status response <> 500%Z.
Proof.
  destruct response as [st js]. unfold classify_response. simpl.
  destruct js as [v | e]; [ | destruct e; try done ].
  - cbn [mbind result_bind].
    destruct (Z.eqb_spec st 401); [done | ].
    destruct (Z.eqb_spec st 403); [done | ].
    destruct (Z.eqb_spec st 402).
    { simpl. intros H. apply bind_Returns in H as (t & _ & H).
      by apply bind_Returns in H as (k & _ & H). }
    destruct (Z.eqb_spec st 429).
    { simpl. intros H. apply bind_Returns in H as (t & _ & H).
      by apply bind_Returns in H as (k & _ & H). }
    destruct (Z.eqb_spec st 500); [done | ].
    simpl. destruct (py_contains "results" v) as [[ | ] | ] eqn:Hin; simpl; try done.
    by intros [= <-].
  - destruct (st =? 200)%Z; [done | ]. cbn [mbind result_bind].
    destruct (st =? 401)%Z; [done | ].
    destruct (st =? 403)%Z; [done | ].
    destruct ((st =? 402)%Z || (st =? 429)%Z); [done | ].
    by destruct (st =? 500)%Z.
Qed.

Lemma classify_response_Returns response response_json :
  classify_response response = Returns response_json ->
  json response = Returns response_json.
Proof.
  destruct response as [st js]. unfold classify_response. simpl.
  destruct js as [v | e]; [ | destruct e; try done ].
  - cbn [mbind result_bind].
    destruct (st =? 401)%Z; [done | ].
    destruct (st =? 403)%Z; [done | ].
    destruct ((st =? 402)%Z || (st =? 429)%Z).
    { intros H. apply bind_Returns in H as (t & _ & H).
      by apply bind_Returns in H as (k & _ & H). }
    destruct (st =? 500)%Z; [done | ].
    simpl. by destruct (py_contains "results" v) as [[ | ] | ].
  - destruct (st =? 200)%Z; [done | ]. cbn [mbind result_bind].
    destruct (st =? 401)%Z; [done | ].
    destruct (st =? 403)%Z; [done | ].
    destruct ((st =? 402)%Z || (st =? 429)%Z); [done | ].
    by destruct (st =? 500)%Z.
Qed.

(** X7. A call returns only in one way: the query is a string, the session
    is an aiohttp session, both requests went out, the API replied, the
    reply was accepted, its body is a JSON object, and the value returned
    is [floatify_latlng] of its member results.  A body that is a list or a
    string never gives a result, also when results occurs in it.  And
    what is returned is normalised: [floatify_latlng] leaves it as it is. *)
Theorem geocode_async_returns query kwargs self w v st' :
  geocode_async net query kwargs (self, w) = (Returns v, st') ->
  exists q id ua response items results,
    query = VStr q /\
    aiohttp_avaiable w = true /\
    session self = Some (ClientSession id) /\
    user_agent net (ua_request id :: sent w) = Returns ua /\
    st' = (self, log_request (api_request id (payload self query kwargs) ua)
                   (log_request (ua_request id) w)) /\
    api net (sent st'.2) = Returns response /\
    classify_response response = Returns (VDict items) /\
    json response = Returns (VDict items) /\
    getitem items "results" = Returns results /\
    floatify_latlng results = Returns v /\
    floatify_latlng v = Returns v.
Proof.
  unfold geocode_async.
  destruct (aiohttp_avaiable w) eqn:Ha; simpl; [ | done].
  destruct (session self) as [[id | id] | ] eqn:Hs; try done.
  destruct query as [ | | | | q | | ]; try done.
  intros H.
  assert (bind (_opencage_async_request net (payload self (VStr q) kwargs))
            (fun response => lift (py_getitem response "results" ≫= floatify_latlng))
            (self, w) = (Returns v, st')) as H' by exact H.
  clear H. revert H'. unfold bind.
  destruct (decide (id ∈ closed w)) as [Hc | Hc].
  { by rewrite (_opencage_async_request_closed _ _ _ id) by done. }
  destruct (user_agent net (ua_request id :: sent w)) as [ua | e] eqn:Hua.
  - rewrite (_opencage_async_request_outcome _ _ _ id ua) by done.
    destruct (api net _) as [response | e] eqn:Hapi; [ | done].
    cbn [mbind result_bind].
    destruct (classify_response response) as [j | e] eqn:Hc'; [ | done].
    unfold lift. intros [= Hv <-].
    apply bind_Returns in Hv as (results & Hres & Hv).
    destruct j as [ | | | | | | items]; try done.
    exists q, id, ua, response, items, results.
    repeat (split; [done | ]).
    split; [by apply classify_response_Returns | ].
    repeat (split; [done | ]).
    by apply (floatify_latlng_fixed results).
  - by rewrite (_opencage_async_request_no_user_agent _ _ _ id e) by done.
Qed.

(** X10. [reverse_geocode_async] formats its coordinates before anything
    else.  A coordinate that [Decimal] does not accept makes it raise
    [InvalidOperation], and nothing but that, before the session is looked
    at: with or without a session, and nothing is sent. *)
Theorem reverse_geocode_rejects_coordinates lat lng e :
  _query_for_reverse_geocoding lat lng = Raises e ->
  e = InvalidOperation /\
  (Decimal lat = Raises InvalidOperation \/ Decimal lng = Raises InvalidOperation) /\
  forall kwargs st,
    reverse_geocode_async net lat lng kwargs st = (Raises InvalidOperation, st).
Proof.
  intros H.
  assert (e = InvalidOperation /\
          (Decimal lat = Raises InvalidOperation \/
           Decimal lng = Raises InvalidOperation)) as [-> Hd].
  { revert H. unfold _query_for_reverse_geocoding, Decimal.
    destruct (decimal.Decimal (py_str lat)); simpl;
      [ | intros [= <-]; split; [done | by left]].
    destruct (decimal.Decimal (py_str lng)); simpl; [done | ].
    intros [= <-]. split; [done | by right]. }
  repeat split; [done | ].
  intros kwargs st. unfold reverse_geocode_async, bind, lift. by rewrite H.
Qed.

End CallFacts.

(** ** More on the scopes and the sessions *)

Section ScopeFacts.
Context `{RT : PyRuntime} (net : network).

(** The log of requests only grows. *)
Lemma bind_sent_grows {A B} (m : prog A) (k : A -> prog B) :
  (forall st r st', m st = (r, st') -> sent st.2 `suffix_of` sent st'.2) ->
  (forall a st r st', k a st = (r, st') -> sent st.2 `suffix_of` sent st'.2) ->
  forall st r st', bind m k st = (r, st') -> sent st.2 `suffix_of` sent st'.2.
Proof.
  intros Hm Hk st r st'. unfold bind.
  destruct (m st) as [[a | e] st1] eqn:E.
  - intros H. etrans; [exact (Hm _ _ _ E) | exact (Hk _ _ _ _ H)].
  - intros [= <- <-]. exact (Hm _ _ _ E).
Qed.

Lemma session_get_sent_grows u params headers st r st' :
  session_get u params headers st = (r, st') -> sent st.2 `suffix_of` sent st'.2.
Proof.
  destruct st as [self w]. unfold session_get.
  destruct (session self) as [[id | id] | ]; [ | case_bool_decide | ];
    intros [= <- <-]; simpl; try done; by apply suffix_cons_r.
Qed.

Lemma geocode_async_sent_grows query kwargs st r st' :
  geocode_async net query kwargs st = (r, st') -> sent st.2 `suffix_of` sent st'.2.
Proof.
  destruct st as [self w]. unfold geocode_async.
  destruct (aiohttp_avaiable w); simpl; [ | by intros [= <- <-]].
  destruct (session self) as [[id | id] | ]; try by intros [= <- <-].
  revert r st'. change (sent w) with (sent (self, w).2). generalize (self, w).
  apply bind_sent_grows; [by intros st r st' [= <- <-] | ].
  intros request. apply bind_sent_grows; [ | by intros response st r st' [= <- <-]].
  unfold _opencage_async_request, getUA.
  apply bind_sent_grows.
  - apply bind_sent_grows; [apply session_get_sent_grows | ].
    by intros _ [self' w'] r st' [= <- <-].
  - intros ua. apply bind_sent_grows; [apply session_get_sent_grows | ].
    intros _. apply bind_sent_grows; [by intros [self' w'] r st' [= <- <-] | ].
    by intros response st r st' [= <- <-].
Qed.

Lemma run_sent_grows b :
  forall st r st', run net b st = (r, st') -> sent st.2 `suffix_of` sent st'.2.
Proof.
  induction b as [ | e | query kwargs next IH | lat lng kwargs next IH ]; simpl.
  - by intros st r st' [= <- <-].
  - by intros st r st' [= <- <-].
  - apply bind_sent_grows; [apply geocode_async_sent_grows | exact IH].
  - apply bind_sent_grows; [ | exact IH]. unfold reverse_geocode_async.
    apply bind_sent_grows; [by intros st r st' [= <- <-] | ].
    intros query. apply geocode_async_sent_grows.
Qed.

Lemma geocode_async_requests_session query kwargs self w id :
  session self = Some (RequestsSession id) ->
  exists msg,
    geocode_async net query kwargs (self, w) = (Raises (AioHttpError msg), (self, w)).
Proof.
  intros Hs. unfold geocode_async. rewrite Hs.
  destruct (aiohttp_avaiable w); simpl; by eexists.
Qed.

(** X13. Inside a synchronous [with] block the asynchronous operations do
    not work: [geocode_async] raises [AioHttpError], and so does
    [reverse_geocode_async] unless its coordinates are rejected first.
    Nothing is sent; and the block leaves the client without a session,
    and the one session that it opened closed. *)
Theorem with_block_sends_nothing b self w :
  exists r w',
    with_ net b (self, w) = (r, (set_session None self, w')) /\
    aiohttp_avaiable w' = aiohttp_avaiable w /\
    opened w' = S (opened w) /\
    closed w' = {[opened w]} ∪ closed w /\
    sent w' = sent w /\
    match b with
    | Done => r = Returns ()
    | Raise e => r = Raises e
    | Geocode _ _ _ => exists msg, r = Raises (AioHttpError msg)
    | ReverseGeocode _ _ _ _ =>
        r = Raises InvalidOperation \/ exists msg, r = Raises (AioHttpError msg)
    end.
Proof.
  pose (self1 := set_session (Some (RequestsSession (opened w))) self).
  assert (exists r, run net b (self1, new_session w) = (r, (self1, new_session w)) /\
            match b with
            | Done => r = Returns ()
            | Raise e => r = Raises e
            | Geocode _ _ _ => exists msg, r = Raises (AioHttpError msg)
            | ReverseGeocode _ _ _ _ =>
                r = Raises InvalidOperation \/ exists msg, r = Raises (AioHttpError msg)
            end) as (r & Hrun & Hr).
  { destruct b as [ | e | query kwargs next | lat lng kwargs next ]; simpl.
    - by eexists.
    - by eexists.
    - destruct (geocode_async_requests_session query kwargs self1 (new_session w)
                  (opened w) eq_refl) as [msg Hg].
      exists (Raises (AioHttpError msg)). split; [ | by eexists].
      by apply bind_Raises_eq.
    - destruct (_query_for_reverse_geocoding lat lng) as [query | e] eqn:Hq.
      + destruct (geocode_async_requests_session (VStr query) kwargs self1
                    (new_session w) (opened w) eq_refl) as [msg Hg].
        exists (Raises (AioHttpError msg)). split; [ | right; by eexists].
        apply bind_Raises_eq. unfold reverse_geocode_async, bind, lift. by rewrite Hq.
      + assert (e = InvalidOperation) as ->.
        { revert Hq. unfold _query_for_reverse_geocoding, Decimal.
          destruct (decimal.Decimal (py_str lat)); simpl; [ | by intros [= <-]].
          destruct (decimal.Decimal (py_str lng)); simpl; [done | by intros [= <-]]. }
        exists (Raises InvalidOperation). split; [ | by left].
        apply bind_Raises_eq. unfold reverse_geocode_async, bind, lift. by rewrite Hq. }
  exists r, (close_session (opened w) (new_session w)).
  split; [ | done].
  unfold with_, __enter__. fold self1. rewrite Hrun. done.
Qed.


(** X14. The account of an [async with] block.  Without aiohttp the block
    is not entered: its body does not run and nothing changes.  With
    aiohttp the block opens one session and closes this one and no other,
    whatever its body does and however it ends; the key of the client is
    as it was, and the requests made before are still in the log, below
    those of the body. *)
Theorem async_with_account b self w :
  (aiohttp_avaiable w = false ->
   exists msg, async_with net b (self, w) = (Raises (AioHttpError msg), (self, w))) /\
  (aiohttp_avaiable w = true ->
   exists r w',
     async_with net b (self, w) = (r, (set_session None self, w')) /\
     aiohttp_avaiable w' = true /\
     opened w' = S (opened w) /\
     closed w' = {[opened w]} ∪ closed w /\
     sent w `suffix_of` sent w').
Proof.
  split; intros Ha; unfold async_with, __aenter__; rewrite Ha; simpl; [by eexists | ].
  destruct (run net b (set_session (Some (ClientSession (opened w))) self, new_session w))
    as [r [self2 w2]] eqn:Hrun.
  destruct (run_only_requests net _ _ _ _ Hrun) as (H1 & H2 & H3 & H4).
  pose proof (run_sent_grows _ _ _ _ Hrun) as H5.
  simpl in *. subst self2. simpl.
  exists r, (close_session (opened w) w2). repeat split; simpl; try done.
  - by rewrite H2.
  - by rewrite H4.
Qed.

Lemma only_requests_consistent st st' :
  only_requests st st' -> consistent st -> consistent st'.
Proof.
  intros (H1 & H2 & H3 & H4) [Hc Hs]. unfold consistent.
  by rewrite H1, H3, H4.
Qed.

Lemma __enter___consistent st : consistent st -> consistent (__enter__ st).2.
Proof.
  destruct st as [self w]. intros [Hc Hs]. split; simpl; [ | lia].
  intros id Hid. apply Hc in Hid. simpl in Hid. lia.
Qed.

Lemma __aenter___consistent st : consistent st -> consistent (__aenter__ st).2.
Proof.
  destruct st as [self w]. intros [Hc Hs]. unfold __aenter__.
  destruct (aiohttp_avaiable w); simpl; [ | done].
  split; simpl.
  - intros id Hid. apply Hc in Hid. simpl in Hid. lia.
  - split; [lia | ]. intros Hid. apply Hc in Hid. simpl in Hid. lia.
Qed.

Lemma __exit___consistent st : consistent st -> consistent (__exit__ st).2.
Proof.
  destruct st as [self w]. intros [Hc Hs]. unfold __exit__. simpl in *.
  destruct (session self) as [[id | id] | ] eqn:E; simpl.
  - split; simpl; [ | done].
    intros id' [->%elem_of_singleton | Hid]%elem_of_union; [done | by apply Hc].
  - by split.
  - split; simpl; [done | by rewrite E].
Qed.

Lemma __aexit___consistent st : consistent st -> consistent (__aexit__ st).2.
Proof.
  destruct st as [self w]. intros [Hc Hs]. unfold __aexit__. simpl in *.
  destruct (session self) as [[id | id] | ] eqn:E; simpl.
  - split; simpl; [ | by rewrite E].
    intros id' [->%elem_of_singleton | Hid]%elem_of_union; [done | by apply Hc].
  - split; simpl; [ | done].
    intros id' [->%elem_of_singleton | Hid]%elem_of_union; [by destruct Hs | by apply Hc].
  - split; simpl; [done | by rewrite E].
Qed.

(** X15. The sessions stay in order under every method of the client and
    under both kinds of block: from a state in which the closed sessions
    and the session of the client were opened before, and an aiohttp
    session held by the client is not closed, every method leads to such
    a state again, whether it returns or raises.  So the client never
    holds a closed aiohttp session, and a request never fails because its
    session was closed. *)
Theorem sessions_stay_consistent st :
  consistent st ->
  consistent (__enter__ st).2 /\
  consistent (__exit__ st).2 /\
  consistent (__aenter__ st).2 /\
  consistent (__aexit__ st).2 /\
  (forall query kwargs, consistent (geocode_async net query kwargs st).2) /\
  (forall lat lng kwargs, consistent (reverse_geocode_async net lat lng kwargs st).2) /\
  (forall b, consistent (with_ net b st).2) /\
  (forall b, consistent (async_with net b st).2) /\
  (forall u params headers,
     (session_get u params headers st).1 <> Raises (RuntimeError "Session is closed")).
Proof.
  intros H.
  assert (forall b st0, consistent st0 -> consistent (run net b st0).2) as Hrun.
  { intros b st0 H0. destruct (run net b st0) as [r st1] eqn:E.
    exact (only_requests_consistent _ _ (run_only_requests net _ _ _ _ E) H0). }
  split; [by apply __enter___consistent | ].
  split; [by apply __exit___consistent | ].
  split; [by apply __aenter___consistent | ].
  split; [by apply __aexit___consistent | ].
  split.
  { intros query kwargs. destruct (geocode_async net query kwargs st) as [r st1] eqn:E.
    exact (only_requests_consistent _ _ (geocode_async_only_requests net _ _ _ _ _ E) H). }
  split.
  { intros lat lng kwargs.
    destruct (reverse_geocode_async net lat lng kwargs st) as [r st1] eqn:E.
    exact (only_requests_consistent _ _
             (reverse_geocode_async_only_requests net _ _ _ _ _ _ E) H). }
  split.
  { intros b. unfold with_.
    pose proof (__enter___consistent _ H) as H1.
    destruct (__enter__ st) as [[[] | e] st1]; [ | exact H1].
    change (consistent st1) in H1.
    pose proof (Hrun b _ H1) as H2.
    destruct (run net b st1) as [r st2]. change (consistent st2) in H2.
    pose proof (__exit___consistent _ H2) as H3.
    destruct (__exit__ st2) as [[? | e] st3]; exact H3. }
  split.
  { intros b. unfold async_with.
    pose proof (__aenter___consistent _ H) as H1.
    destruct (__aenter__ st) as [[[] | e] st1]; [ | exact H1].
    change (consistent st1) in H1.
    pose proof (Hrun b _ H1) as H2.
    destruct (run net b st1) as [r st2]. change (consistent st2) in H2.
    pose proof (__aexit___consistent _ H2) as H3.
    destruct (__aexit__ st2) as [[? | e] st3]; exact H3. }
  intros u params headers. destruct st as [self w]. destruct H as [Hc Hs].
  unfold session_get. simpl in *.
  destruct (session self) as [[id | id] | ]; [done | | done].
  by rewrite bool_decide_eq_false_2 by (by destruct Hs).
Qed.

(** X16. The message of an [InvalidInputError] begins with the fixed text
    and shows at most the first hundred characters of the [repr] of the
    bad value: it is never longer than 136 characters, and a [repr] of up
    to a hundred characters is shown in full. *)
Theorem InvalidInputError_message_bounded bad_value :
  prefixb "Input must be a unicode string, not "
    (InvalidInputError__unicode__ bad_value) = true /\
  String.length (InvalidInputError__unicode__ bad_value) <= 136 /\
  (String.length (py_repr bad_value) <= 100 ->
   InvalidInputError__unicode__ bad_value =
     "Input must be a unicode string, not " ++ py_repr bad_value).
Proof.
  assert (forall n s, String.length (substring 0 n s) <= n) as Hlen.
  { induction n as [ | n IH ]; intros [ | c s]; simpl; try lia.
    specialize (IH s). lia. }
  assert (forall n s, String.length s <= n -> substring 0 n s = s) as Hid.
  { induction n as [ | n IH ]; intros [ | c s]; simpl; try done; try lia.
    intros H. rewrite IH; [done | lia]. }
  assert (forall s1 s2 : string,
            String.length (s1 ++ s2) = String.length s1 + String.length s2) as Happ.
  { induction s1 as [ | c s1 IH ]; intros s2; simpl; [done | ]. by rewrite IH. }
  unfold InvalidInputError__unicode__. split; [done | ]. split.
  - specialize (Hlen 100 (py_repr bad_value)). rewrite Happ.
    change (String.length "Input must be a unicode string, not ") with 36. lia.
  - intros H. by rewrite Hid.
Qed.

End ScopeFacts.

(** ** More on the query of a reverse geocoding *)

Section QueryFacts.
Context `{RT : PyRuntime}.

(** X11. The query of a reverse geocoding writes the two numbers that
    [Decimal] reads from the coordinates, whenever these are finite: each
    of its two parts is a numeral with the sign of the number, whose
    digits make the coefficient times the power of ten of the exponent,
    and which has after the point as many digits as the number has
    decimal places.  No digit is rounded away and no exponent is left. *)
Theorem reverse_query_writes_the_numbers lat lng s1 I1 E1 s2 I2 E2 :
  Decimal lat = Returns (decimal.Finite s1 I1 E1) ->
  Decimal lng = Returns (decimal.Finite s2 I2 E2) ->
  exists a1 b1 a2 b2,
    _query_for_reverse_geocoding lat lng =
      Returns (decimal.to_str (decimal.numeral s1 a1 b1) ++ "," ++
               decimal.to_str (decimal.numeral s2 a2 b2)) /\
    decimal.writes s1 a1 b1 (decimal.Finite s1 I1 E1) /\
    decimal.writes s2 a2 b2 (decimal.Finite s2 I2 E2).
Proof.
  intros Hlat Hlng.
  destruct (format_f_writes s1 I1 E1) as (a1 & b1 & F1 & W1).
  destruct (format_f_writes s2 I2 E2) as (a2 & b2 & F2 & W2).
  exists a1, b1, a2, b2. repeat (split; [ | done]).
  unfold _query_for_reverse_geocoding. rewrite Hlat, Hlng.
  cbn [mbind result_bind mret result_ret]. by rewrite F1, F2.
Qed.

End QueryFacts.

Section SpecialFacts.
Context `{RT : PyRuntime}.

(** X12. A coordinate that is no finite number is not rejected, be it
    the latitude or the longitude: whenever [Decimal] reads both
    coordinates, the query is made, of what [format] writes for the one
    and for the other; and for an infinity or a NaN this is the word
    Infinity or NaN, with its sign, in the place of the numeral. *)
Theorem reverse_query_keeps_special_values lat lng dlat dlng :
  Decimal lat = Returns dlat ->
  Decimal lng = Returns dlng ->
  exists word1 word2,
    _query_for_reverse_geocoding lat lng = Returns (word1 ++ "," ++ word2) /\
    word1 = decimal.format_f dlat /\
    word2 = decimal.format_f dlng /\
    (decimal.is_finite dlat = false -> special_word word1) /\
    (decimal.is_finite dlng = false -> special_word word2).
Proof.
  assert (forall d, decimal.is_finite d = false -> special_word (decimal.format_f d))
    as Hword.
  { unfold special_word.
    intros [ | [ | ] | [ | ] [ | ] diag ] Hd; try done; simpl; auto 10. }
  intros Hlat Hlng. exists (decimal.format_f dlat), (decimal.format_f dlng).
  split; [ | by auto].
  unfold _query_for_reverse_geocoding. by rewrite Hlat, Hlng.
Qed.

End SpecialFacts.

(** ** The binary sensors *)

Section SensorFacts.
Context `{RT : PyRuntime}.
Variables CHARGING SAFEZONE STATE WATCH : string.
Variable float_eq : float -> Z -> bool.
Variable title : string -> string.
Variable controller : list call -> result value.

Local Notation "'isOnline'" := (__isOnline float_eq controller).
Local Notation "'isSafezone'" := (__isSafezone float_eq controller).
Local Notation "'isCharging'" := (__isCharging float_eq controller).
Local Notation "'default_attr'" := (__default_attr WATCH title controller).
Local Notation "'update'" := (__update CHARGING SAFEZONE STATE WATCH float_eq title controller).

Ltac run_coro :=
  repeat first
    [ progress cbn [and_then await assign return_ fst snd]
    | match goal with
      | |- context [controller ?l] =>
          let a := fresh "answer" in
          let E := fresh "Hanswer" in
          destruct (controller l) as [a | ?] eqn:E
      | |- context [if ?b then _ else _] =>
          let E := fresh "Htest" in destruct b eqn:E
      end ].

(** X17. [__isOnline] leaves the icon in line with its answer: the
    connected icon when it returns [True], the disconnected icon when it
    returns [False], and nothing else of the sensor is changed.  When a
    call on the controller fails, the sensor is as it was or has the
    connected icon.  The controller is initialised first, and asked at
    most three questions; the answer [False] is given only after all
    three, in the order locate, interval, status. *)
Theorem isOnline_icon_follows_answer id self log r self' log' :
  isOnline id (self, log) = (r, (self', log')) ->
  match r with
  | Returns on =>
      self' = set_icon (if on then "mdi:lan-check" else "mdi:lan-disconnect") self
  | Raises _ => self' = self \/ self' = set_icon "mdi:lan-check" self
  end /\
  exists asked : list call,
    log' = (asked ++ init_async :: log)%list /\
    length asked <= 3 /\
    (r = Returns false ->
     asked = [getWatchOnlineStatus_async id; trackWatchInterval_async id;
              askWatchLocate_async id]).
Proof.
  unfold __isOnline. run_coro; intros [= <- <- <-]; (split; [by auto | ]);
    first
      [ exists []; split; [reflexivity | ]
      | exists [askWatchLocate_async id]; split; [reflexivity | ]
      | exists [trackWatchInterval_async id; askWatchLocate_async id];
        split; [reflexivity | ]
      | exists [getWatchOnlineStatus_async id; trackWatchInterval_async id;
                askWatchLocate_async id]; split; [reflexivity | ] ];
    (split; [simpl; lia | done]).
Qed.


Lemma isOnline_log id self log r self' log' :
  isOnline id (self, log) = (r, (self', log')) ->
  exists asked, log' = (asked ++ log)%list.
Proof.
  unfold __isOnline. run_coro; intros [= <- <- <-];
    first
      [ by exists [init_async]
      | by exists [askWatchLocate_async id; init_async]
      | by exists [trackWatchInterval_async id; askWatchLocate_async id; init_async]
      | by exists [getWatchOnlineStatus_async id; trackWatchInterval_async id;
                   askWatchLocate_async id; init_async] ].
Qed.

Lemma isTypes_state sensor_type st r st' :
  __isTypes sensor_type st = (r, st') ->
  st' = st /\ (r = Returns true -> entity_description st.1 = sensor_type).
Proof.
  destruct st as [self log]. unfold __isTypes. intros [= <- <-]. split; [done | ].
  destruct (py_contains sensor_type (_types self)) as [[ | ] | ]; simpl; try done.
  case_bool_decide; by intros.
Qed.

Lemma isOnline_Returns id self log on self' log' :
  isOnline id (self, log) = (Returns on, (self', log')) ->
  self' = set_icon (if on then "mdi:lan-check" else "mdi:lan-disconnect") self.
Proof.
  unfold __isOnline. run_coro; intros H; try discriminate H;
    unfold return_ in H; by simplify_eq.
Qed.

Lemma default_attr_Returns on sensor_type id self log self' log' :
  default_attr on sensor_type id (self, log) = (Returns (), (self', log')) ->
  exists client_name,
    controller (getWatchUserName_async id :: log) = Returns client_name /\
    log' = getWatchUserName_async id :: log /\
    self' = set_name
              (title (py_str client_name ++ " " ++ WATCH ++ " " ++ sensor_type ++
                      " " ++ py_str id))
              (py_str id ++
               title (py_str client_name ++ " " ++ WATCH ++ " " ++ sensor_type ++
                      " " ++ py_str id))
              on (set_native_value on self).
Proof.
  unfold __default_attr. run_coro; [ | done]. intros [= <- <-]. by eexists.
Qed.

(** X18. An update that returns has left the sensor untouched, without
    asking the controller anything, or it has set all of its state: the
    native value and the state are the same, the name is made of the
    name of the user, the key of this sensor and the id, and the unique
    id is the id followed by the name.  Only the icon may differ, and
    then it is the icon of the state. *)
Theorem update_is_all_or_nothing id self log self' log' :
  update id (self, log) = (Returns (), (self', log')) ->
  (self' = self /\ log' = log) \/
  exists on client_name icon,
    let name := title (py_str client_name ++ " " ++ WATCH ++ " " ++
                       entity_description self ++ " " ++ py_str id) in
    self' = {| entity_description := entity_description self;
               _types := _types self;
               _attr_icon := icon;
               _attr_native_value := Some on;
               _attr_name := Some name;
               _attr_unique_id := Some (py_str id ++ name);
               _attr_is_on := Some on |} /\
    (icon = _attr_icon self \/
     icon = Some (if on then "mdi:lan-check" else "mdi:lan-disconnect")) /\
    controller log' = Returns client_name /\
    exists asked, log' = (getWatchUserName_async id :: asked ++ log)%list.
Proof.
  unfold __update. unfold and_then at 1.
  destruct (__isTypes STATE (self, log)) as [[[ | ] | e] st1] eqn:E1; [ | | done];
    apply isTypes_state in E1 as [-> E1]; simpl in E1.
  { unfold and_then at 1.
    destruct (isOnline id (self, log)) as [[on | e] [self1 log1]] eqn:E2; [ | done].
    destruct (isOnline_log _ _ _ _ _ _ E2) as [asked ->].
    apply isOnline_Returns in E2 as ->.
    intros (client_name & Hc & -> & ->)%default_attr_Returns.
    right. exists on, client_name, (Some (if on then "mdi:lan-check" else "mdi:lan-disconnect")).
    rewrite <- (E1 eq_refl). repeat split; [by right | done | by eexists]. }
  unfold and_then at 1.
  destruct (__isTypes SAFEZONE (self, log)) as [[[ | ] | e] st1] eqn:E2; [ | | done];
    apply isTypes_state in E2 as [-> E2]; simpl in E2.
  { unfold and_then at 1, __isSafezone at 1, and_then at 1, await at 1.
    destruct (controller (getWatchIsInSafeZone_async id :: log)) as [inside | e];
      [ | done].
    assert (exists on, (if truth float_eq inside then return_ false else return_ true)
                         (self, getWatchIsInSafeZone_async id :: log) =
                       (Returns on, (self, getWatchIsInSafeZone_async id :: log)))
      as [on ->] by (destruct (truth float_eq inside); by eexists).
    intros (client_name & Hc & -> & ->)%default_attr_Returns.
    right. exists on, client_name, (_attr_icon self).
    rewrite <- (E2 eq_refl). repeat split; [by left | done | ].
    by exists [getWatchIsInSafeZone_async id]. }
  unfold and_then at 1.
  destruct (__isTypes CHARGING (self, log)) as [[[ | ] | e] st1] eqn:E3; [ | | done];
    apply isTypes_state in E3 as [-> E3]; simpl in E3.
  { unfold and_then at 1, __isCharging at 1, and_then at 1, await at 1.
    destruct (controller (getWatchIsCharging_async id :: log)) as [charging | e];
      [ | done].
    assert (exists on, (if truth float_eq charging then return_ true else return_ false)
                         (self, getWatchIsCharging_async id :: log) =
                       (Returns on, (self, getWatchIsCharging_async id :: log)))
      as [on ->] by (destruct (truth float_eq charging); by eexists).
    intros (client_name & Hc & -> & ->)%default_attr_Returns.
    right. exists on, client_name, (_attr_icon self).
    rewrite <- (E3 eq_refl). repeat split; [by left | done | ].
    by exists [getWatchIsCharging_async id]. }
  intros [= <- <-]. by left.
Qed.

(** X19. A sensor whose key is none of the types that are configured is
    left alone: when, for each of the three types, the type is not in
    [_types] or is not the key of the sensor, an update changes nothing
    and asks the controller nothing. *)
Theorem update_leaves_other_sensors id self log :
  (forall sensor_type,
     sensor_type ∈ [STATE; SAFEZONE; CHARGING] ->
     exists has,
       py_contains sensor_type (_types self) = Returns has /\
       (has = true -> entity_description self <> sensor_type)) ->
  update id (self, log) = (Returns (), (self, log)).
Proof.
  intros H.
  assert (forall sensor_type,
            sensor_type ∈ [STATE; SAFEZONE; CHARGING] ->
            __isTypes sensor_type (self, log) = (Returns false, (self, log))) as Hno.
  { intros T (has & Hhas & Hkey)%H. unfold __isTypes. rewrite Hhas. simpl.
    destruct has; [ | done]. by rewrite bool_decide_eq_false_2 by (by apply Hkey). }
  unfold __update, and_then.
  rewrite (Hno STATE) by set_solver.
  rewrite (Hno SAFEZONE) by set_solver.
  by rewrite (Hno CHARGING) by set_solver.
Qed.

(** X20. The safe-zone sensor is on when the watch is not in the safe
    zone: for a sensor with the key of the safe zone, which is among the
    configured types, an update sets the state and the native value to
    the negation of what the controller answers, and leaves the icon. *)
Theorem safezone_sensor_is_on_outside id self log inside client_name :
  entity_description self = SAFEZONE ->
  SAFEZONE <> STATE ->
  py_contains SAFEZONE (_types self) = Returns true ->
  controller (getWatchIsInSafeZone_async id :: log) = Returns inside ->
  controller (getWatchUserName_async id :: getWatchIsInSafeZone_async id :: log) =
    Returns client_name ->
  exists self',
    update id (self, log) =
      (Returns (),
       (self', [getWatchUserName_async id; getWatchIsInSafeZone_async id] ++ log)%list) /\
    _attr_is_on self' = Some (negb (truth float_eq inside)) /\
    _attr_native_value self' = Some (negb (truth float_eq inside)) /\
    _attr_icon self' = _attr_icon self.
Proof.
  intros Hkey Hne Hin Hinside Hname.
  assert (__isTypes STATE (self, log) = (Returns false, (self, log))) as H1.
  { unfold __isTypes.
    assert (exists has, py_contains STATE (_types self) = Returns has) as [has ->].
    { destruct (_types self); try done; by eexists. }
    simpl. rewrite bool_decide_eq_false_2 by congruence. by rewrite andb_false_r. }
  assert (__isTypes SAFEZONE (self, log) = (Returns true, (self, log))) as H2.
  { unfold __isTypes. rewrite Hin. simpl. by rewrite bool_decide_eq_true_2. }
  unfold __update. unfold and_then at 1. rewrite H1.
  unfold and_then at 1. rewrite H2.
  unfold __isSafezone, __default_attr, and_then, await, assign, return_.
  rewrite Hinside. destruct (truth float_eq inside); simpl; rewrite Hname; by eexists.
Qed.

End SensorFacts.

(** ** Runs on the reference run time *)

Section Examples.
Local Existing Instance Binary64.runtime.
Local Open Scope Z_scope.

(** The examples of exact leaf detection: a mapping with the keys lat and
    altitude, and one with the keys lat, lng and alt, are no coordinate
    leaves, whatever the order of the keys lat and lng is. *)
Example is_latlng_examples :
  is_latlng ["lat"; "lng"] = true /\ is_latlng ["lng"; "lat"] = true /\
  is_latlng ["lat"; "altitude"] = false /\ is_latlng ["lat"; "lng"; "alt"] = false /\
  is_latlng ["lat"; "lat"] = false /\ is_latlng ["lat"] = false.
Proof. repeat split. Qed.

Example floatify_latlng_strings :
  floatify_latlng (VDict [("lat", VStr "1.5"); ("lng", VStr "2.5")]) =
  Returns (VDict [("lat", VFloat (Binary64.B_fin false 6755399441055744 (-52)));
                  ("lng", VFloat (Binary64.B_fin false 5629499534213120 (-51)))]).
Proof. reflexivity. Qed.

Example floatify_latlng_three_keys :
  floatify_latlng
    (VDict [("lat", VStr "1.5"); ("lng", VStr "2.5"); ("alt", VStr "3")]) =
  Returns (VDict [("lat", VStr "1.5"); ("lng", VStr "2.5"); ("alt", VStr "3")]).
Proof. reflexivity. Qed.

Example floatify_latlng_north_east :
  floatify_latlng (VDict [("lat", VStr "north"); ("lng", VStr "east")]) =
  Returns (VDict [("lat", VStr "north"); ("lng", VStr "east")]).
Proof. reflexivity. Qed.

Lemma floatify_latlng_every_node_witness :
  (is_latlng ["lng"; "lat"] = true <->
     length ["lng"; "lat"] = 2%nat /\ sorted ["lng"; "lat"] = ["lat"; "lng"]) /\
  (is_latlng ["lng"; "lat"] = true ->
     exists lat lng,
       getitem [("lng", VStr "2.5"); ("lat", VStr "north")] "lat" ≫= float_if_float
         = Returns lat /\
       getitem [("lng", VStr "2.5"); ("lat", VStr "north")] "lng" ≫= float_if_float
         = Returns lng /\
       subtree [Key "results"; Index 0; Key "geometry"] sample_out =
         Some (VDict [("lat", lat); ("lng", lng)])) /\
  (is_latlng ["lng"; "lat"] = false ->
     exists items',
       subtree [Key "results"; Index 0; Key "geometry"] sample_out =
         Some (VDict items') /\
       keys items' = ["lng"; "lat"] /\
       Forall2 (fun kv kv' => floatify_latlng kv.2 = Returns kv'.2)
         [("lng", VStr "2.5"); ("lat", VStr "north")] items').
Proof.
  apply (floatify_latlng_every_node sample sample_out
           [Key "results"; Index 0; Key "geometry"]
           [("lng", VStr "2.5"); ("lat", VStr "north")]);
    reflexivity.
Defined.

Lemma floatify_latlng_idempotent_witness :
  floatify_latlng numeric_sample ≫= floatify_latlng = floatify_latlng numeric_sample /\
  (leaves converts numeric_sample = true ->
   exists y, floatify_latlng numeric_sample = Returns y /\ floatify_latlng y = Returns y).
Proof. apply (floatify_latlng_idempotent numeric_sample). reflexivity. Defined.

Example floatify_latlng_numeric :
  leaves converts numeric_sample = true /\
  floatify_latlng numeric_sample =
  Returns (VDict [("results",
            VList [VDict [("geometry",
                     VDict [("lat", VFloat (Binary64.B_fin false 7177611906121728 (-47)));
                            ("lng", VFloat (Binary64.B_fin true 6755399441055744 (-52)))])]])]).
Proof. split; reflexivity. Qed.

Lemma floatify_latlng_same_shape_witness : same_shape sample sample_out.
Proof. apply (floatify_latlng_same_shape sample sample_out). reflexivity. Defined.

(** [float] does not take [None], a list or a mapping, and
    [float_if_float] does not catch its [TypeError]. *)
Lemma float_if_float_raises_TypeError :
  float_if_float VNone = Raises TypeError /\
  float_if_float (VList []) = Raises TypeError /\
  float_if_float (VDict []) = Raises TypeError.
Proof. repeat split. Qed.

(** Blanks around a float literal are read over; the separator 28,
    which [str.strip] would remove, is not. *)
Example float_if_float_blanks :
  float_if_float (VStr " 1.5 ") =
    Returns (VFloat (Binary64.B_fin false 6755399441055744 (-52))) /\
  float_if_float (VStr (String "028"%char "1.5")) =
    Returns (VStr (String "028"%char "1.5")).
Proof. split; reflexivity. Qed.

(** A coordinate leaf of two nulls: the normaliser returns nothing. *)
Lemma floatify_latlng_raises_on_null_leaf :
  floatify_latlng (VDict [("lat", VNone); ("lng", VNone)]) = Raises TypeError.
Proof. reflexivity. Qed.

(** An integer beyond the doubles in a coordinate leaf. *)
Example floatify_latlng_raises_on_huge_integer :
  floatify_latlng (VDict [("lat", VInt (2 ^ 1024)); ("lng", VInt 0)]) =
  Raises OverflowError.
Proof. reflexivity. Qed.

(** A rate-limit status, or a status that is none of those listed, with a
    body that is no JSON: the name [response_json] is unbound where it
    is read. *)
Lemma classify_response_unbound_body :
  classify_response {| status := 429; json := Raises ValueError |} =
    Raises (UnboundLocalError "response_json") /\
  classify_response {| status := 404; json := Raises ValueError |} =
    Raises (UnboundLocalError "response_json").
Proof. split; reflexivity. Qed.

(** A rate-limit status with a body that has no field rate, and a
    success status with a body that is the JSON null. *)
Example classify_response_odd_bodies :
  classify_response {| status := 429; json := Returns (VDict []) |} =
    Raises (KeyError "rate") /\
  classify_response {| status := 200; json := Returns VNone |} = Raises TypeError.
Proof. split; reflexivity. Qed.

Example classify_response_rate_limit :
  classify_response
    {| status := 429;
       json := Returns (VDict [("rate", VDict [("limit", VInt 2500);
                                               ("reset", VInt 1646000000)])]) |} =
  Raises (RateLimitExceededError
            {| Binary64.year := 2022; Binary64.month := 2; Binary64.day := 27;
               Binary64.hour := 22; Binary64.minute := 13; Binary64.second := 20;
               Binary64.microsecond := 0 |} 2500).
Proof. reflexivity. Qed.

(** The example of the specification, on the floats 51.5104 and -0.1021,
    and two coordinates that [str] writes with exponents. *)
Example reverse_query_example :
  (lat ← from_option Returns (Raises ValueError) (float_of_str "51.5104");
   lng ← from_option Returns (Raises ValueError) (float_of_str "-0.1021");
   _query_for_reverse_geocoding (VFloat lat) (VFloat lng)) =
  Returns "51.5104,-0.1021".
Proof. reflexivity. Qed.

Example reverse_query_exponents :
  (lat ← from_option Returns (Raises ValueError) (float_of_str "0.00001");
   lng ← from_option Returns (Raises ValueError) (float_of_str "1e16");
   mret (py_str (VFloat lat), py_str (VFloat lng),
         _query_for_reverse_geocoding (VFloat lat) (VFloat lng))) =
  Returns ("1e-05", "1e+16", Returns "0.00001,10000000000000000").
Proof. reflexivity. Qed.

Example reverse_query_not_a_number :
  _query_for_reverse_geocoding VNone (VInt 3) = Raises InvalidOperation.
Proof. reflexivity. Qed.

(** A scope in which one call succeeds, and a call after it. *)
Example scope_example :
  let st := (async_with sample_net
               (Geocode (VStr "London") ∅ (fun _ => Done))
               (sample_client, sample_world)) in
  st.1 = Returns () /\
  session st.2.1 = None /\
  length (sent st.2.2) = 2%nat /\
  (geocode_async sample_net (VStr "London") ∅ st.2).1 =
    Raises (AioHttpError "Async methods must be used inside an async context.").
Proof. repeat split. Qed.

(** A latitude written with a comma, on a client that never entered a
    scope: the call fails on the coordinate, not on the missing session. *)
Lemma reverse_geocode_outside_scope :
  session sample_client = None /\
  reverse_geocode_async sample_net (VStr "51,5104") (VStr "-0.1021") ∅
    (sample_client, sample_world) =
  (Raises InvalidOperation, (sample_client, sample_world)).
Proof. split; reflexivity. Qed.

(** A run on the store: the leaf at 2 is as it was, and the result is a
    new leaf whose latitude is a new float. *)
Example store_example :
  exists l h',
    floatify_latlng_ref 1 2%nat sample_store = Some (Returns l, h') /\
    h' !! 2%nat = Some (ODict [("lat", 0%nat); ("lng", 1%nat)]) /\
    h' !! 0%nat = Some (OStr "1.5") /\
    sample_store !! l = None /\
    exists a, h' !! l = Some (ODict [("lat", a); ("lng", 1%nat)]) /\
              h' !! a = Some (OFloat (Binary64.B_fin false 6755399441055744 (-52))).
Proof. eexists _, _. repeat split. eexists. split; reflexivity. Qed.

End Examples.

(** ** The further properties on the reference run time *)

Section Witnesses.
Local Existing Instance Binary64.runtime.
Local Open Scope Z_scope.

Lemma floatify_latlng_without_leaf_witness :
  floatify_latlng
    (VDict [("lat", VStr "1.5"); ("lng", VStr "2.5"); ("alt", VStr "3")]) =
  Returns (VDict [("lat", VStr "1.5"); ("lng", VStr "2.5"); ("alt", VStr "3")]).
Proof.
  apply (floatify_latlng_without_leaf
           (VDict [("lat", VStr "1.5"); ("lng", VStr "2.5"); ("alt", VStr "3")])).
  reflexivity.
Defined.

Lemma floatify_latlng_settles_leaves_witness : leaves settled sample_out = true.
Proof. apply (floatify_latlng_settles_leaves sample sample_out). reflexivity. Defined.

Lemma floatify_latlng_result_is_detached_witness :
  exists l' h',
    floatify_latlng_ref 1 2%nat sample_store = Some (Returns l', h') /\
    detached 1 sample_store h' l' /\
    sample_store !! l' = None.
Proof.
  eexists _, _. split; [reflexivity | ].
  destruct (floatify_latlng_result_is_detached 1 2%nat sample_store _ _ eq_refl)
    as [H1 H2].
  split; [exact H1 | exact (H2 _ eq_refl)].
Defined.

Lemma classify_response_success_witness :
  json empty_reply = Returns (VDict [("results", VList [])]) /\
  py_contains "results" (VDict [("results", VList [])]) = Returns true /\
  status empty_reply <> 401 /\ status empty_reply <> 403 /\
  status empty_reply <> 402 /\ status empty_reply <> 429 /\
  status empty_reply <> 500.
Proof.
  apply (classify_response_success empty_reply (VDict [("results", VList [])])).
  reflexivity.
Defined.

Lemma geocode_async_outcome_witness :
  sample_call.1 =
  floatify_latlng (VList [VDict [("lat", VStr "51.5"); ("lng", VStr "north")]]).
Proof.
  destruct (geocode_async_outcome sample_net "London" ∅ active_client active_world
              0%nat "Mozilla/5.0") as [_ H];
    [reflexivity | reflexivity | apply not_elem_of_empty | reflexivity | ].
  apply (H 200 [("results", VList [VDict [("lat", VStr "51.5"); ("lng", VStr "north")]])]);
    [reflexivity | lia | lia | lia | lia | lia | reflexivity].
Defined.

Lemma geocode_async_returns_witness :
  exists v, sample_call.1 = Returns v /\ floatify_latlng v = Returns v.
Proof.
  eexists. split; [reflexivity | ].
  match goal with
  | |- floatify_latlng ?v = _ =>
      destruct (geocode_async_returns sample_net (VStr "London") ∅ active_client
                  active_world v sample_call.2 eq_refl)
        as (q & id & ua & response & items & results & H)
  end.
  apply H.
Defined.

Lemma geocode_async_user_agent_failure_witness :
  geocode_async offline_net (VStr "London") ∅ (active_client, active_world) =
  (Raises (ClientError "Cannot connect to host"),
   (active_client, log_request (ua_request 0) active_world)).
Proof.
  apply (geocode_async_user_agent_failure offline_net "London" ∅ active_client
           active_world 0%nat);
    [reflexivity | reflexivity | apply not_elem_of_empty | reflexivity].
Defined.

Lemma geocode_async_frame_witness :
  sample_call.2.1 = active_client /\
  opened sample_call.2.2 = opened active_world /\
  closed sample_call.2.2 = closed active_world.
Proof.
  destruct (geocode_async_frame sample_net (VStr "London") ∅ active_client
              active_world sample_call.1 sample_call.2.1 sample_call.2.2 eq_refl)
    as (H1 & _ & H3 & H4 & _).
  split; [exact H1 | split; [exact H3 | exact H4]].
Defined.

Lemma reverse_geocode_rejects_coordinates_witness :
  InvalidOperation = InvalidOperation /\
  (Decimal VNone = Raises InvalidOperation \/
   Decimal (VInt 3) = Raises InvalidOperation) /\
  forall kwargs st,
    reverse_geocode_async sample_net VNone (VInt 3) kwargs st =
    (Raises InvalidOperation, st).
Proof.
  apply (reverse_geocode_rejects_coordinates sample_net VNone (VInt 3) InvalidOperation).
  reflexivity.
Defined.

(** The coordinates 1e-05 and -0.1021: [Decimal] reads the coefficient 1
    with the exponent -5, and the coefficient 1021 with the exponent -4. *)
Lemma reverse_query_writes_the_numbers_witness :
  exists a1 b1 a2 b2,
    _query_for_reverse_geocoding (VStr "1e-05") (VStr "-0.1021") =
      Returns (decimal.to_str (decimal.numeral false a1 b1) ++ "," ++
               decimal.to_str (decimal.numeral true a2 b2)) /\
    decimal.writes false a1 b1 (decimal.Finite false (decimal.of_str "1") (-5)) /\
    decimal.writes true a2 b2 (decimal.Finite true (decimal.of_str "1021") (-4)).
Proof.
  apply (reverse_query_writes_the_numbers (VStr "1e-05") (VStr "-0.1021")
           false (decimal.of_str "1") (-5) true (decimal.of_str "1021") (-4));
    reflexivity.
Defined.

(** The coordinates nan and -inf, as [str] writes these floats. *)
Lemma reverse_query_keeps_special_values_witness :
  exists word1 word2,
    _query_for_reverse_geocoding (VStr "nan") (VStr "-inf") =
      Returns (word1 ++ "," ++ word2) /\
    word1 = decimal.format_f (decimal.NaN false false []) /\
    word2 = decimal.format_f (decimal.Infinity true) /\
    (decimal.is_finite (decimal.NaN false false []) = false -> special_word word1) /\
    (decimal.is_finite (decimal.Infinity true) = false -> special_word word2).
Proof.
  apply (reverse_query_keeps_special_values (VStr "nan") (VStr "-inf")
           (decimal.NaN false false []) (decimal.Infinity true));
    reflexivity.
Defined.

Example reverse_query_of_special_values :
  _query_for_reverse_geocoding (VStr "nan") (VStr "-inf") = Returns "NaN,-Infinity" /\
  _query_for_reverse_geocoding (VStr "1.5") (VStr "inf") = Returns "1.5,Infinity".
Proof. split; reflexivity. Qed.

Lemma sessions_stay_consistent_witness :
  consistent (sample_client, sample_world) /\
  (forall b, consistent (async_with sample_net b (sample_client, sample_world)).2) /\
  (forall query kwargs,
     consistent (geocode_async sample_net query kwargs (sample_client, sample_world)).2).
Proof.
  assert (consistent (sample_client, sample_world)) as H.
  { split; simpl; [ | done]. intros id Hid. by apply elem_of_empty in Hid. }
  split; [exact H | ].
  destruct (sessions_stay_consistent sample_net (sample_client, sample_world) H)
    as (_ & _ & _ & _ & H5 & _ & _ & H8 & _).
  split; [exact H8 | exact H5].
Defined.

(** The examples of the edges: a reply whose body is a string in which
    results occurs is accepted by the classification, and the call then
    fails on the subscript; a scope on a network that is down ends with the
    session closed. *)
Example geocode_async_string_body :
  let net := {| user_agent := fun _ => Returns "Mozilla/5.0";
                api := fun _ => Returns {| status := 200;
                                           json := Returns (VStr "no results") |} |} in
  classify_response {| status := 200; json := Returns (VStr "no results") |} =
    Returns (VStr "no results") /\
  (geocode_async net (VStr "London") ∅ (active_client, active_world)).1 =
    Raises TypeError.
Proof. split; reflexivity. Qed.

Example scope_on_offline_network :
  let st := async_with offline_net (Geocode (VStr "London") ∅ (fun _ => Done))
              (sample_client, sample_world) in
  st.1 = Raises (ClientError "Cannot connect to host") /\
  session st.2.1 = None /\
  closed st.2.2 = {[0%nat]} ∪ ∅ /\
  sent st.2.2 = [ua_request 0].
Proof. repeat split. Qed.

(** The sensor of the safe zone of the watch 7, with the constants
    charging, safezone, state and watch; and a sensor for charging, which
    is not configured. *)
Lemma isOnline_icon_follows_answer_witness :
  set_icon "mdi:lan-disconnect" sample_sensor =
    set_icon "mdi:lan-disconnect" sample_sensor /\
  exists asked : list call,
    [getWatchOnlineStatus_async (VInt 7); trackWatchInterval_async (VInt 7);
     askWatchLocate_async (VInt 7); init_async] = (asked ++ [init_async])%list /\
    (length asked <= 3)%nat /\
    (Returns false = Returns false ->
     asked = [getWatchOnlineStatus_async (VInt 7); trackWatchInterval_async (VInt 7);
              askWatchLocate_async (VInt 7)]).
Proof.
  apply (isOnline_icon_follows_answer (RT := Binary64.runtime) float_eq_int sample_controller (VInt 7)
           sample_sensor [] (Returns false)).
  reflexivity.
Defined.

Lemma update_is_all_or_nothing_witness :
  sample_update.1 = Returns () /\
  _attr_is_on sample_update.2.1 = Some false /\
  _attr_native_value sample_update.2.1 = Some false /\
  _attr_name sample_update.2.1 = Some "Anna Watch Safezone 7" /\
  _attr_unique_id sample_update.2.1 = Some "7Anna Watch Safezone 7" /\
  sample_update.2.2 =
    [getWatchUserName_async (VInt 7); getWatchIsInSafeZone_async (VInt 7)].
Proof.
  destruct (update_is_all_or_nothing (RT := Binary64.runtime) "charging" "safezone" "state" "watch"
              float_eq_int ascii_title sample_controller (VInt 7) sample_sensor []
              sample_update.2.1 sample_update.2.2 eq_refl)
    as [[H _] | (on & client_name & icon & H & _)];
    [discriminate H | ].
  repeat split; reflexivity.
Defined.

Lemma update_leaves_other_sensors_witness :
  __update "charging" "safezone" "state" "watch" float_eq_int ascii_title
    sample_controller (VInt 7) (other_sensor, []) =
  (Returns (), (other_sensor, [])).
Proof.
  apply (update_leaves_other_sensors (RT := Binary64.runtime) "charging" "safezone" "state" "watch"
           float_eq_int ascii_title sample_controller (VInt 7) other_sensor []).
  intros sensor_type H. apply list_elem_of_In in H. simpl in H.
  destruct H as [<- | [<- | [<- | []]]]; eexists; (split; [reflexivity | done]).
Defined.

Lemma safezone_sensor_is_on_outside_witness :
  exists self',
    sample_update =
      (Returns (),
       (self', [getWatchUserName_async (VInt 7); getWatchIsInSafeZone_async (VInt 7)])) /\
    _attr_is_on self' = Some (negb (truth float_eq_int (VBool true))) /\
    _attr_native_value self' = Some (negb (truth float_eq_int (VBool true))) /\
    _attr_icon self' = None.
Proof.
  apply (safezone_sensor_is_on_outside (RT := Binary64.runtime) "charging" "safezone" "state" "watch"
           float_eq_int ascii_title sample_controller (VInt 7) sample_sensor []
           (VBool true) (VStr "anna"));
    [reflexivity | done | reflexivity | reflexivity | reflexivity].
Defined.
End Witnesses.
